(** * OMOP2OBO: the clinical concept annotator

    A shallow embedding of [omop2obo/clinical_concept_annotator.py]: the
    [ConceptAnnotator] class, its constructor and its two implemented
    methods, [umls_cui_annotator] and [dbxref_mapper].

    The class works on pandas data frames.  A frame is modelled as a list of
    column labels and a list of rows; the pandas operations the class calls
    ([merge], [drop_duplicates], column selection and assignment, [apply],
    [astype(str)]) are functions on that representation.  Frames are mutable
    Python objects, so they live in a store addressed by locations and the
    methods are written in a state-and-exception monad.  The rows of an
    inner join come key by key, as pandas 1 returns them; the statements
    about rows do not depend on their order.

    Text is modelled as [string] (8-bit characters); [str.upper] is the
    ASCII upper-casing, which is what Python does on ASCII text. *)

From Stdlib Require Import String Ascii List Bool Arith Lia.
From stdpp Require Import base option list strings gmap.

Open Scope string_scope.
Open Scope list_scope.

(** ** Python string methods *)

Module PyStr.

(** [s.split(sep)] for a one-character separator: the pieces of [s] between
    the occurrences of [sep]; the result is never empty. *)
Fixpoint split (sep : ascii) (s : string) : list string :=
  match s with
  | EmptyString => [EmptyString]
  | String c s' =>
      if Ascii.eqb c sep then EmptyString :: split sep s'
      else match split sep s' with
           | [] => [String c EmptyString]
           | piece :: pieces => String c piece :: pieces
           end
  end.

(** [l[0]] and [l[-1]] on the result of a [split]. *)
Definition item_first (l : list string) : string := hd EmptyString l.
Definition item_last (l : list string) : string := List.last l EmptyString.

Definition upper_ascii (c : ascii) : ascii :=
  let n := nat_of_ascii c in
  if (97 <=? n)%nat && (n <=? 122)%nat then ascii_of_nat (n - 32) else c.

(** [s.upper()] *)
Fixpoint upper (s : string) : string :=
  match s with
  | EmptyString => EmptyString
  | String c s' => String (upper_ascii c) (upper s')
  end.

(** Does the character occur in the text? *)
Fixpoint occurs (c : ascii) (s : string) : bool :=
  match s with
  | EmptyString => false
  | String d s' => Ascii.eqb d c || occurs c s'
  end.

End PyStr.

(** ** Python exceptions

    The built-in exceptions the class raises itself ([TypeError], [OSError])
    and the ones that reach the caller from pandas and from attribute
    access.  [ConfigurationError] is not raised anywhere in the class; it is
    the error the dictionary helper is specified to raise. *)
Inductive exn : Type :=
| TypeError (msg : string)
| OSError (msg : string)
| KeyError (key : string)
| AttributeError (msg : string)
| ValueError (msg : string)
| ParserError (msg : string)
| ConfigurationError (msg : string).

#[global] Instance exn_eq_dec : EqDecision exn.
Proof. solve_decision. Defined.

(** Results of fallible computations: [inl] is a raised exception. *)
Definition result (A : Type) : Type := exn + A.

Definition rbind {A B : Type} (r : result A) (k : A -> result B) : result B :=
  match r with
  | inl e => inl e
  | inr a => k a
  end.

(** Elements in order of first occurrence, skipping those already seen. *)
Fixpoint unique {A : Type} `{EqDecision A} (seen l : list A) : list A :=
  match l with
  | [] => []
  | x :: l' =>
      if bool_decide (x ∈ seen) then unique seen l'
      else x :: unique (x :: seen) l'
  end.

(** ** Data frames *)

(** A cell holds text or the missing value ([NaN]). *)
Inductive cell : Type :=
| Str (s : string)
| NaN.

#[global] Instance cell_eq_dec : EqDecision cell.
Proof. solve_decision. Defined.

Record DataFrame : Type := mkFrame {
  columns : list string;
  rows : list (list cell)
}.

#[global] Instance DataFrame_eq_dec : EqDecision DataFrame.
Proof. solve_decision. Defined.

Module Pandas.

(** Position of the first column carrying a label. *)
Fixpoint column_index (c : string) (cols : list string) : option nat :=
  match cols with
  | [] => None
  | c' :: cols' =>
      if String.eqb c c' then Some 0%nat
      else option_map S (column_index c cols')
  end.

Definition has_column (c : string) (cols : list string) : bool :=
  match column_index c cols with Some _ => true | None => false end.

(** The cell of a row at a position; a row too short reads as [NaN]. *)
Definition cell_at (i : nat) (r : list cell) : cell := nth i r NaN.

(** The cell of a row of a frame under a label. *)
Definition value (df : DataFrame) (r : list cell) (c : string) : option cell :=
  option_map (fun i => cell_at i r) (column_index c (columns df)).

(** [df[c]]: the series of a column. *)
Definition getitem (df : DataFrame) (c : string) : result (list cell) :=
  match column_index c (columns df) with
  | None => inl (KeyError c)
  | Some i => inr (map (cell_at i) (rows df))
  end.

Fixpoint column_indices (cs : list string) (cols : list string)
  : result (list nat) :=
  match cs with
  | [] => inr []
  | c :: cs' =>
      match column_index c cols with
      | None => inl (KeyError c)
      | Some i => rbind (column_indices cs' cols) (fun idxs => inr (i :: idxs))
      end
  end.

(** [df[[c1, ..., cn]]]: a new frame with the listed columns. *)
Definition getitem_list (df : DataFrame) (cs : list string) : result DataFrame :=
  rbind (column_indices cs (columns df)) (fun idxs =>
    inr (mkFrame cs (map (fun r => map (fun i => cell_at i r) idxs) (rows df)))).

(** [df.drop_duplicates()]: keeps the first of each group of equal rows. *)
Definition drop_duplicates (df : DataFrame) : DataFrame :=
  mkFrame (columns df) (unique [] (rows df)).

(** [df.astype(str)]: the missing value becomes the text ["nan"]. *)
Definition astype_str_cell (x : cell) : cell :=
  match x with
  | Str s => Str s
  | NaN => Str "nan"
  end.

Definition astype_str (df : DataFrame) : DataFrame :=
  mkFrame (columns df) (map (map astype_str_cell) (rows df)).

(** [df[df.c != text]]: the rows whose cell under [c] differs from [text]. *)
Definition filter_ne (df : DataFrame) (c : string) (text : string)
  : result DataFrame :=
  match column_index c (columns df) with
  | None => inl (AttributeError c)
  | Some i =>
      inr (mkFrame (columns df)
             (List.filter (fun r => negb (bool_decide (cell_at i r = Str text)))
                          (rows df)))
  end.

(** [series.apply(f)] *)
Fixpoint apply (f : cell -> result cell) (s : list cell) : result (list cell) :=
  match s with
  | [] => inr []
  | x :: s' =>
      rbind (f x) (fun y => rbind (apply f s') (fun ys => inr (y :: ys)))
  end.

Fixpoint replace_nth (i : nat) (x : cell) (r : list cell) : list cell :=
  match i, r with
  | _, [] => []
  | O, _ :: r' => x :: r'
  | S i', y :: r' => y :: replace_nth i' x r'
  end.

(** [df[c] = series], for a series computed from the frame itself (same
    index): the column is overwritten when the label exists and appended
    otherwise. *)
Definition setitem (df : DataFrame) (c : string) (s : list cell) : DataFrame :=
  match column_index c (columns df) with
  | Some i =>
      mkFrame (columns df)
              (map (fun rx => replace_nth i (snd rx) (fst rx))
                   (combine (rows df) s))
  | None =>
      mkFrame (columns df ++ [c])
              (map (fun rx => fst rx ++ [snd rx]) (combine (rows df) s))
  end.

(** [df.columns = names] *)
Definition set_columns (df : DataFrame) (names : list string) : result DataFrame :=
  if Nat.eqb (length names) (length (columns df))
  then inr (mkFrame names (rows df))
  else inl (ValueError "Length mismatch").

Fixpoint remove_nth {A : Type} (i : nat) (l : list A) : list A :=
  match i, l with
  | _, [] => []
  | O, _ :: l' => l'
  | S i', x :: l' => x :: remove_nth i' l'
  end.

Inductive how : Type := Inner | Left.

(** Labels present on both sides get pandas' default suffixes. *)
Definition suffixed (suffix : string) (others : list string) (c : string) : string :=
  if has_column c others then c +:+ suffix else c.

(** The position of a merge key among the labels of a frame.  The label
    must be there, and only once: pandas raises [KeyError] for a key it does
    not find and [ValueError] for a label that several columns carry. *)
Definition key_index (k : string) (cols : list string) : result nat :=
  match column_index k cols with
  | None => inl (KeyError k)
  | Some i =>
      if has_column k (skipn (S i) cols)
      then inl (ValueError ("The column label '" +:+ k +:+ "' is not unique."))
      else inr i
  end.

(** [len(df) == 0] *)
Definition is_empty (df : DataFrame) : bool :=
  match rows df with
  | [] => true
  | _ :: _ => false
  end.

(** The rows of a frame key by key, the keys in order of first occurrence
    in column [i] and the rows of one key in their order: the order in which
    pandas 1 emits the left rows of an inner join. *)
Definition grouped (i : nat) (rs : list (list cell)) : list (list cell) :=
  flat_map (fun k => List.filter (fun r => bool_decide (cell_at i r = k)) rs)
           (unique [] (map (cell_at i) rs)).

(** [left.merge(right, how=h, left_on=lk, right_on=rk)].

    The key of the right frame is looked up first, then the key of the left
    frame.  When both keys carry the same label only one key column is kept:
    the one of the left frame, unless the left frame has no rows, in which
    case its key column is dropped and the one of the right frame stays
    where it is.  The remaining labels that occur on both sides are renamed
    with [_x] and [_y].  Every left row is paired with the right rows of
    equal key, these in their order; under [Left] the left rows keep their
    order and a row without partner is kept, its right-hand cells missing;
    under [Inner] the left rows come key by key. *)
Definition merge (left right : DataFrame) (h : how) (lk rk : string)
  : result DataFrame :=
  rbind (key_index rk (columns right)) (fun j =>
  rbind (key_index lk (columns left)) (fun i =>
    let same := String.eqb lk rk in
    let lcols :=
      if same && is_empty left then remove_nth i (columns left)
      else columns left in
    let rcols :=
      if same && negb (is_empty left) then remove_nth j (columns right)
      else columns right in
    let rcells := fun rr : list cell => if same then remove_nth j rr else rr in
    let out_columns :=
      map (suffixed "_x" rcols) lcols ++ map (suffixed "_y" lcols) rcols in
    let partners := fun lr : list cell =>
      List.filter (fun rr => bool_decide (cell_at j rr = cell_at i lr))
                  (rows right) in
    let joined := fun lr : list cell =>
      match partners lr, h with
      | [], Left => [lr ++ repeat NaN (length rcols)]
      | ps, _ => map (fun rr => lr ++ rcells rr) ps
      end in
    let ordered :=
      match h with
      | Inner => grouped i (rows left)
      | Left => rows left
      end in
    inr (mkFrame out_columns (flat_map joined ordered)))).

End Pandas.

(** ** Python values and the object store *)

(** The ontology dictionary: ontology identifier, in insertion order, to
    annotation type (["label"], ["definition"], ["dbxref"], ["synonym"]) to
    literal text to the URIs that own it.  The class tests this argument
    and hands it to the helper; it never looks inside. *)
Abbreviation AnnotationMap := (gmap string (gset string)).
Abbreviation OntologyRecord := (gmap string AnnotationMap).
Abbreviation OntologyDictionary := (list (string * OntologyRecord)).

(** The plain values the constructor receives. *)
Inductive pyval : Type :=
| PyNone
| PyInt (n : Z)
| PyStr (s : string)
| PyList (l : list string)
| PyDict (d : OntologyDictionary).

(** Python truth value: [not v] is [negb (truthy v)]. *)
Definition truthy (v : pyval) : bool :=
  match v with
  | PyNone => false
  | PyInt n => negb (Z.eqb n 0)
  | PyStr s => negb (String.eqb s "")
  | PyList l => match l with [] => false | _ => true end
  | PyDict d => match d with [] => false | _ => true end
  end.

Definition loc : Type := nat.

(** What a variable or an attribute holds: a plain value, or a reference to
    a frame in the store. *)
Inductive object : Type :=
| Plain (v : pyval)
| Frame (l : loc).

(** The state of a run: the attribute dictionary of [self] and the frames
    allocated so far. *)
Record state : Type := mkState {
  self : gmap string object;
  heap : list DataFrame
}.

Definition M (A : Type) : Type := state -> result A * state.

#[global] Instance M_ret : MRet M := fun A a st => (inr a, st).
#[global] Instance M_bind : MBind M := fun A B k m st =>
  match m st with
  | (inl e, st') => (inl e, st')
  | (inr a, st') => k a st'
  end.

Definition raise {A : Type} (e : exn) : M A := fun st => (inl e, st).

Definition lift {A : Type} (r : result A) : M A := fun st => (r, st).

(** [self.name] *)
Definition getattr (name : string) : M object := fun st =>
  match self st !! name with
  | Some v => (inr v, st)
  | None =>
      (inl (AttributeError
              ("'ConceptAnnotator' object has no attribute '" +:+ name +:+ "'")),
       st)
  end.

(** [self.name = v] *)
Definition setattr (name : string) (v : object) : M unit := fun st =>
  (inr tt, mkState (<[name := v]> (self st)) (heap st)).

Definition empty_frame : DataFrame := mkFrame [] [].

(** The frame behind a location.  Locations held by objects always point
    into the store. *)
Definition deref (h : list DataFrame) (l : loc) : DataFrame :=
  default empty_frame (h !! l).

(** A pandas call that returns a frame allocates it. *)
Definition new_frame (df : DataFrame) : M object := fun st =>
  (inr (Frame (length (heap st))), mkState (self st) (heap st ++ [df])).

(** In-place update of a frame. *)
Definition store_frame (l : loc) (df : DataFrame) : M unit := fun st =>
  (inr tt, mkState (self st) (<[l := df]> (heap st))).

(** The receiver of a pandas method: a plain value has no such method. *)
Definition receiver (method : string) (v : object) : M DataFrame := fun st =>
  match v with
  | Frame l => (inr (deref (heap st) l), st)
  | Plain _ =>
      (inl (AttributeError ("object has no attribute '" +:+ method +:+ "'")), st)
  end.

(** [v[...]] reads the frame behind [v]. *)
Definition subscripted (v : object) : M DataFrame := fun st =>
  match v with
  | Frame l => (inr (deref (heap st) l), st)
  | Plain _ => (inl (TypeError "object is not subscriptable"), st)
  end.

(** [v[[c1, ..., cn]]] *)
Definition df_getitem_list (v : object) (cs : list string) : M object :=
  df ← subscripted v;
  out ← lift (Pandas.getitem_list df cs);
  new_frame out.

(** [v[c]] *)
Definition df_getitem (v : object) (c : string) : M (list cell) :=
  df ← subscripted v;
  lift (Pandas.getitem df c).

(** [v[c] = series] *)
Definition df_setitem (v : object) (c : string) (s : list cell) : M unit :=
  match v with
  | Frame l =>
      fun st => store_frame l (Pandas.setitem (deref (heap st) l) c s) st
  | Plain _ => raise (TypeError "object does not support item assignment")
  end.

(** [v.drop_duplicates()] *)
Definition df_drop_duplicates (v : object) : M object :=
  df ← receiver "drop_duplicates" v;
  new_frame (Pandas.drop_duplicates df).

(** [v.astype(str)] *)
Definition df_astype_str (v : object) : M object :=
  df ← receiver "astype" v;
  new_frame (Pandas.astype_str df).

(** [v[v.c != text]] *)
Definition df_filter_ne (v : object) (c text : string) : M object :=
  df ← subscripted v;
  out ← lift (Pandas.filter_ne df c text);
  new_frame out.

(** [v.columns = names] *)
Definition df_set_columns (v : object) (names : list string) : M unit :=
  match v with
  | Frame l =>
      fun st => (df ← lift (Pandas.set_columns (deref (heap st) l) names);
                 store_frame l df) st
  | Plain _ => raise (AttributeError "object has no attribute 'columns'")
  end.

(** [left.merge(right, how=h, left_on=lk, right_on=rk)]: pandas refuses a
    right operand that is not a frame. *)
Definition df_merge (left right : object) (h : Pandas.how) (lk rk : string)
  : M object :=
  ldf ← receiver "merge" left;
  match right with
  | Frame r =>
      fun st => (out ← lift (Pandas.merge ldf (deref (heap st) r) h lk rk);
                 new_frame out) st
  | Plain _ => raise (TypeError "Can only merge Series or DataFrame objects")
  end.

(** A string method called on a cell: the missing value is a float and has
    no string methods. *)
Definition on_text (method : string) (f : string -> string) (x : cell)
  : result cell :=
  match x with
  | Str s => inr (Str (f s))
  | NaN => inl (AttributeError
                  ("'float' object has no attribute '" +:+ method +:+ "'"))
  end.

(** ** Python dictionaries from text to text

    A dictionary is given by the list of its bindings in the order in which
    they were made.  Binding a key again replaces its value and leaves the
    key where it was, so a dictionary has one item per key. *)

(** [d[k] = v] *)
Fixpoint dict_setitem (k v : string) (d : list (string * string))
  : list (string * string) :=
  match d with
  | [] => [(k, v)]
  | (k', v') :: d' =>
      if String.eqb k k' then (k', v) :: d'
      else (k', v') :: dict_setitem k v d'
  end.

(** [d.items()]: one pair per key, in insertion order. *)
Definition dict_items (d : list (string * string)) : list (string * string) :=
  fold_left (fun items kv => dict_setitem (fst kv) (snd kv) items) d [].

(** ** The world outside the class *)

(** The file system and the CSV reader, as the constructor uses them.
    [read_csv f sep] is [pd.read_csv(f, header=0, sep=sep)]: labels from the
    first line.  [read_csv_positional f sep usecols] is
    [pd.read_csv(f, header=None, sep=sep, usecols=usecols)]: the rows of the
    selected columns.  Numeric cells are carried as their text. *)
Record Env : Type := mkEnv {
  path_exists : string -> bool;
  st_size : string -> nat;
  read_csv : string -> string -> result DataFrame;
  read_csv_positional : string -> string -> list nat -> result (list (list cell))
}.

Definition tab : string := String (ascii_of_nat 9) EmptyString.

(** The arguments of [ConceptAnnotator(...)]; the optional ones default to
    [PyNone]. *)
Record Args : Type := mkArgs {
  clinical_file : pyval;
  ontology_dictionary : pyval;
  primary_key : pyval;
  concept_codes : pyval;
  concept_strings : pyval;
  ancestor_codes : pyval;
  ancestor_strings : pyval;
  umls_mrconso_file : pyval;
  umls_mrsty_file : pyval
}.

(** ** The class [ConceptAnnotator] *)

Section ConceptAnnotator.

(** [omop2obo.utils.merge_dictionaries] is imported by the module and defined
    elsewhere.  It enters as a parameter: from the dictionary object and an
    annotation type to the combined dictionary, or to an exception.  The
    combined dictionary maps a literal text to the URI text of its ontology
    term, as the class documents the innermost level of its dictionary and
    as [dbxref_mapper] reads it ([x.split] on every value); it is given by
    its bindings.  The helper reads its argument only. *)
Variable merge_dictionaries : object -> string -> result (list (string * string)).

Variable env : Env.

(** [pd.read_csv(f, header=0, sep=sep, low_memory=False)] *)
Definition pd_read_csv (f sep : string) : M object :=
  df ← lift (read_csv env f sep);
  new_frame df.

(** [pd.read_csv(f, header=None, sep=sep, names=names, usecols=usecols)] *)
Definition pd_read_csv_names (f sep : string) (names : list string)
    (usecols : list nat) : M object :=
  body ← lift (read_csv_positional env f sep usecols);
  new_frame (mkFrame names body).

(** The [try: ... except pd.errors.ParserError: ...] around the two reads of
    the clinical file. *)
Definition load_clinical (f : string) : M object := fun st =>
  match (raw ← pd_read_csv f ","; df_astype_str raw) st with
  | (inl (ParserError _), st') =>
      (raw ← pd_read_csv f tab; df_astype_str raw) st'
  | other => other
  end.

(** The three-way check of an optional list argument. *)
Definition optional_list (name : string) (v : pyval) : M unit :=
  if negb (truthy v) then setattr name (Plain v)
  else match v with
       | PyList _ => setattr name (Plain v)
       | _ => raise (TypeError (name +:+ " must be type list."))
       end.

Definition missing_file (f : string) : exn :=
  OSError ("The " +:+ f +:+ " file does not exist!").

Definition empty_file (f : string) : exn :=
  TypeError ("Input file: " +:+ f +:+ " is empty").

(** [ConceptAnnotator.__init__], block by block as the constructor's
    comments divide it.  The blocks run in this order and the first one that
    raises ends the construction. *)

(** [# clinical_file] *)
Definition check_clinical_file (a : Args) : M unit :=
  match clinical_file a with
  | PyStr f =>
      if negb (path_exists env f) then raise (missing_file f)
      else if Nat.eqb (st_size env f) 0 then raise (empty_file f)
      else (df ← load_clinical f; setattr "clinical_data" df)
  | _ => raise (TypeError "clinical_file must be type str.")
  end.

(** [# check primary key] *)
Definition check_primary_key (a : Args) : M unit :=
  match primary_key a with
  | PyStr _ => setattr "primary_key" (Plain (primary_key a))
  | _ => raise (TypeError "primary_key must be type str.")
  end.

(** [# check for concept-level information] *)
Definition check_concept_codes (a : Args) : M unit :=
  match concept_codes a with
  | PyList _ => setattr "concept_codes" (Plain (concept_codes a))
  | _ => raise (TypeError "concept_codes must be type list.")
  end.

(** [# check ontology_dictionary] *)
Definition check_ontology_dictionary (a : Args) : M unit :=
  match ontology_dictionary a with
  | PyDict _ => setattr "ontology_dictionary" (Plain (ontology_dictionary a))
  | _ => raise (TypeError "ontology_dictionary must be type dict.")
  end.

(** [# check for UMLS MRCONSO file].  Without a file the attribute that is
    set is [umls_data]; [umls_cui_data] is set only when a file is loaded. *)
Definition load_mrconso (a : Args) : M unit :=
  if negb (truthy (umls_mrconso_file a)) then setattr "umls_data" (Plain PyNone)
  else match umls_mrconso_file a with
       | PyStr f =>
           if negb (path_exists env f) then raise (missing_file f)
           else if Nat.eqb (st_size env f) 0 then raise (empty_file f)
           else
             raw ← pd_read_csv_names f "|" ["CUI"; "SAB"; "CODE"] [0; 11; 13]%nat;
             distinct ← df_drop_duplicates raw;
             text ← df_astype_str distinct;
             setattr "umls_cui_data" text;;
             loaded ← getattr "umls_cui_data";
             coded ← df_filter_ne loaded "CODE" "NOCODE";
             final ← df_drop_duplicates coded;
             setattr "umls_cui_data" final
       | _ => raise (TypeError "umls_mrconso_file must be type str.")
       end.

(** [# check for UMLS MRSTY file] *)
Definition load_mrsty (a : Args) : M unit :=
  if negb (truthy (umls_mrsty_file a)) then setattr "umls_tui_data" (Plain PyNone)
  else match umls_mrsty_file a with
       | PyStr f =>
           if negb (path_exists env f) then raise (missing_file f)
           else if Nat.eqb (st_size env f) 0 then raise (empty_file f)
           else
             raw ← pd_read_csv_names f "|" ["CUI"; "STY"] [0; 3]%nat;
             distinct ← df_drop_duplicates raw;
             text ← df_astype_str distinct;
             setattr "umls_tui_data" text
       | _ => raise (TypeError "umls_mrsty_file must be type str.")
       end.

Definition init (a : Args) : M unit :=
  check_clinical_file a;;
  check_primary_key a;;
  check_concept_codes a;;
  optional_list "concept_strings" (concept_strings a);;
  optional_list "ancestor_codes" (ancestor_codes a);;
  optional_list "ancestor_strings" (ancestor_strings a);;
  check_ontology_dictionary a;;
  load_mrconso a;;
  load_mrsty a.

(** The state before [__init__] runs: no attribute, and whatever frames the
    caller already holds. *)
Definition fresh_object (h : list DataFrame) : state := mkState ∅ h.

(** [ConceptAnnotator.umls_cui_annotator] *)
Definition umls_cui_annotator (primary_key code_level : string) : M object :=
  (* reduce data to only those columns needed for merging *)
  clinical ← getattr "clinical_data";
  selected ← df_getitem_list clinical [primary_key; code_level];
  clinical_ids ← df_drop_duplicates selected;
  (* merge reduced clinical concepts with umls concepts *)
  cui ← getattr "umls_cui_data";
  umls_cui ← df_merge clinical_ids cui Pandas.Inner code_level "CODE";
  tui ← getattr "umls_tui_data";
  merged ← df_merge umls_cui tui Pandas.Left "CUI" "CUI";
  umls_cui_semtype ← df_drop_duplicates merged;
  (* update column names *)
  df_set_columns umls_cui_semtype
    [primary_key; code_level; "UMLS_CUI"; "UMLS_SAB"; "UMLS_CODE"; "UMLS_SEM_TYPE"];;
  mret umls_cui_semtype.

(** The three lambdas of [dbxref_mapper]. *)
Definition dbxref_code (x : string) : string :=
  PyStr.item_last (PyStr.split ":" x).

Definition uri_ontology (x : string) : string :=
  PyStr.upper (PyStr.item_first (PyStr.split "_" (PyStr.item_last (PyStr.split "/" x)))).

Definition dbxref_evidence (x : string) : string :=
  "DbXRef_" +:+ PyStr.item_first (PyStr.split ":" x).

(** [pd.DataFrame(d.items(), columns=names)] *)
Definition frame_of_items (items : list (string * string)) (names : list string)
  : M object :=
  new_frame (mkFrame names (map (fun kv => [Str (fst kv); Str (snd kv)]) items)).

(** [ConceptAnnotator.dbxref_mapper] *)
Definition dbxref_mapper (data : object) : M object :=
  (* prepare ontology data *)
  dictionary ← getattr "ontology_dictionary";
  combined_dictionaries ← lift (merge_dictionaries dictionary "dbxref");
  combo_dict_df ← frame_of_items (dict_items combined_dictionaries)
                                 ["DBXREF"; "ONT_URI"];
  dbxrefs ← df_getitem combo_dict_df "DBXREF";
  codes ← lift (Pandas.apply (on_text "split" dbxref_code) dbxrefs);
  df_setitem combo_dict_df "CODE" codes;;
  (* merge clinical data and combined ontology dict *)
  joined ← df_merge data combo_dict_df Pandas.Inner "CODE" "CODE";
  merged_dbxrefs ← df_drop_duplicates joined;
  uris ← df_getitem merged_dbxrefs "ONT_URI";
  onts ← lift (Pandas.apply (on_text "split" uri_ontology) uris);
  df_setitem merged_dbxrefs "ONT" onts;;
  matched ← df_getitem merged_dbxrefs "DBXREF";
  evidence ← lift (Pandas.apply (on_text "split" dbxref_evidence) matched);
  df_setitem merged_dbxrefs "EVIDENCE" evidence;;
  df_drop_duplicates merged_dbxrefs.

End ConceptAnnotator.

(** ** The methods as functions of the frames they read

    What each method computes from the frames behind its inputs, without the
    store: the same pandas calls in the same order. *)

Definition umls_cui_annotator_frame (clinical cui tui : DataFrame)
    (primary_key code_level : string) : result DataFrame :=
  rbind (Pandas.getitem_list clinical [primary_key; code_level]) (fun selected =>
  let clinical_ids := Pandas.drop_duplicates selected in
  rbind (Pandas.merge clinical_ids cui Pandas.Inner code_level "CODE") (fun umls_cui =>
  rbind (Pandas.merge umls_cui tui Pandas.Left "CUI" "CUI") (fun merged =>
  Pandas.set_columns (Pandas.drop_duplicates merged)
    [primary_key; code_level; "UMLS_CUI"; "UMLS_SAB"; "UMLS_CODE"; "UMLS_SEM_TYPE"]))).

Definition combo_dict_frame (items : list (string * string)) : DataFrame :=
  mkFrame ["DBXREF"; "ONT_URI"; "CODE"]
          (map (fun kv => [Str (fst kv); Str (snd kv); Str (dbxref_code (fst kv))])
               items).

Definition dbxref_mapper_frame (items : list (string * string)) (data : DataFrame)
  : result DataFrame :=
  rbind (Pandas.merge data (combo_dict_frame items) Pandas.Inner "CODE" "CODE")
    (fun joined =>
  let merged := Pandas.drop_duplicates joined in
  rbind (Pandas.getitem merged "ONT_URI") (fun uris =>
  rbind (Pandas.apply (on_text "split" uri_ontology) uris) (fun onts =>
  let with_ont := Pandas.setitem merged "ONT" onts in
  rbind (Pandas.getitem with_ont "DBXREF") (fun matched =>
  rbind (Pandas.apply (on_text "split" dbxref_evidence) matched) (fun evidence =>
  inr (Pandas.drop_duplicates (Pandas.setitem with_ont "EVIDENCE" evidence))))))).

(** ** The dictionary flattener *)

Module Flattener.

(** Modelled from the spec: [merge_dictionaries] of [omop2obo.utils], the
    dictionary flattener of the specification, whose source is not part of
    the module.  It visits the sub-mapping of every ontology for the
    annotation type and unions the entries, text by text; a text found under
    several ontologies keeps the URIs of all of them.  It fails when no
    ontology has the annotation type.  The class does not depend on this
    model: it takes the helper as a parameter and reads the dictionary the
    helper returns through its items. *)
Definition union_entries (a b : AnnotationMap) : AnnotationMap :=
  union_with (fun x y => Some (x ∪ y)) a b.

Definition sub_mapping (annotation_type : string) (ontology : string * OntologyRecord)
  : AnnotationMap :=
  default ∅ (snd ontology !! annotation_type).

Definition combine_all (d : OntologyDictionary) (annotation_type : string)
  : AnnotationMap :=
  fold_left (fun acc ontology => union_entries acc (sub_mapping annotation_type ontology))
            d ∅.

Definition has_type (annotation_type : string) (ontology : string * OntologyRecord)
  : bool :=
  bool_decide (is_Some (snd ontology !! annotation_type)).

Definition flatten (d : OntologyDictionary) (annotation_type : string)
  : result AnnotationMap :=
  if existsb (has_type annotation_type) d
  then inr (combine_all d annotation_type)
  else inl (ConfigurationError annotation_type).

End Flattener.

(** ** The thesaurus enrichment, as the specification words it *)

Module Enricher.

(** A thesaurus concept row: concept identifier, source vocabulary, source
    code.  A semantic-type row: concept identifier, semantic type. *)
Abbreviation ConceptRow := (cell * cell * cell)%type.
Abbreviation SemanticTypeRow := (cell * cell)%type.

Definition concept_id (c : ConceptRow) : cell := fst (fst c).
Definition source_vocab (c : ConceptRow) : cell := snd (fst c).
Definition source_code (c : ConceptRow) : cell := snd c.

(** Step 1: the distinct (primary key, code) pairs. *)
Definition distinct_pairs (pairs : list (cell * cell)) : list (cell * cell) :=
  unique [] pairs.

(** Step 2: inner join on code = source code. *)
Definition join_concepts (pairs : list (cell * cell)) (concepts : list ConceptRow)
  : list (cell * cell * ConceptRow) :=
  flat_map (fun p =>
              map (fun c => (p, c))
                  (List.filter (fun c => bool_decide (source_code c = snd p)) concepts))
           pairs.

(** Step 3: left join on the concept identifier; a concept without
    semantic type stays, its semantic type null. *)
Definition join_semantic_types (joined : list (cell * cell * ConceptRow))
    (semtypes : list SemanticTypeRow) : list (cell * cell * ConceptRow * cell) :=
  flat_map (fun pc =>
              match List.filter (fun t => bool_decide (fst t = concept_id (snd pc)))
                                semtypes with
              | [] => [(pc, NaN)]
              | found => map (fun t => (pc, snd t)) found
              end)
           joined.

(** Steps 1 to 4. *)
Definition annotate_with_thesaurus (pairs : list (cell * cell))
    (concepts : list ConceptRow) (semtypes : list SemanticTypeRow)
  : list (cell * cell * ConceptRow * cell) :=
  unique [] (join_semantic_types (join_concepts (distinct_pairs pairs) concepts)
                                 semtypes).

(** The cells of an enriched row, in the order of the output columns. *)
Definition enriched_cells (e : cell * cell * ConceptRow * cell) : list cell :=
  let '(p, c, sty) := e in
  [fst p; snd p; concept_id c; source_vocab c; source_code c; sty].

(** Reading typed rows off frames. *)
Definition key_pairs (i j : nat) (df : DataFrame) : list (cell * cell) :=
  map (fun r => (Pandas.cell_at i r, Pandas.cell_at j r)) (rows df).

Definition concept_rows (df : DataFrame) : list ConceptRow :=
  map (fun r => (Pandas.cell_at 0 r, Pandas.cell_at 1 r, Pandas.cell_at 2 r)) (rows df).

Definition semantic_type_rows (df : DataFrame) : list SemanticTypeRow :=
  map (fun r => (Pandas.cell_at 0 r, Pandas.cell_at 1 r)) (rows df).

End Enricher.

(** * Vocabulary of the statements

    Predicates and auxiliary functions the theorems are stated with.  None
    of them is part of the program. *)

Import Pandas.
Import Enricher.

(** Every row has one cell per column. *)
Definition rectangular (df : DataFrame) : Prop :=
  Forall (fun r => length r = length (columns df)) (rows df).

(** Distinct labels and rectangular rows. *)
Definition well_formed (df : DataFrame) : Prop :=
  NoDup (columns df) /\ rectangular df.

(** The text of a cell. *)
Definition text_of (x : cell) : string :=
  match x with
  | Str s => s
  | NaN => EmptyString
  end.

(** The labels and the cells of a row after [df[c] = ...]. *)
Definition set_label (cols : list string) (c : string) : list string :=
  match Pandas.column_index c cols with
  | Some _ => cols
  | None => cols ++ [c]
  end.

Definition set_cell (cols : list string) (c : string) (x : cell) (r : list cell)
  : list cell :=
  match Pandas.column_index c cols with
  | Some j => Pandas.replace_nth j x r
  | None => r ++ [x]
  end.

(** The row and the labels of [data.merge(combo_dict_df, on="CODE")] for a
    data row and a dictionary item that match. *)
Definition joined_row (lr : list cell) (kv : string * string) : list cell :=
  lr ++ [Str (fst kv); Str (snd kv)].

Definition joined_columns (cols : list string) : list string :=
  cols ++ ["DBXREF"; "ONT_URI"].

(** The row and the labels [dbxref_mapper] returns for such a pair. *)
Definition matched_row (cols : list string) (lr : list cell) (kv : string * string)
  : list cell :=
  set_cell (set_label (joined_columns cols) "ONT") "EVIDENCE"
           (Str (dbxref_evidence (fst kv)))
           (set_cell (joined_columns cols) "ONT" (Str (uri_ontology (snd kv)))
                     (joined_row lr kv)).

Definition matched_columns (cols : list string) : list string :=
  set_label (set_label (joined_columns cols) "ONT") "EVIDENCE".

(** The join condition of [dbxref_mapper]. *)
Definition code_matches (i : nat) (lr : list cell) (kv : string * string) : bool :=
  bool_decide (Str (dbxref_code (fst kv)) = cell_at i lr).

Definition joined_rows (i : nat) (data : list (list cell))
    (items : list (string * string)) : list (list cell) :=
  flat_map (fun lr => map (joined_row lr) (List.filter (code_matches i lr) items))
           data.

(** The two derived columns, computed from the cells of a joined row. *)
Definition finish_row (cols : list string) (r : list cell) : list cell :=
  let n := length cols in
  let with_ont :=
    set_cell (joined_columns cols) "ONT"
             (Str (uri_ontology (text_of (cell_at (n + 1) r)))) r in
  set_cell (set_label (joined_columns cols) "ONT") "EVIDENCE"
           (Str (dbxref_evidence (text_of (cell_at n with_ont)))) with_ont.

(** The labels [dbxref_mapper] returns for a table without rows: the merge
    drops the [CODE] column of the table, at position [i], and keeps the one
    of the dictionary frame. *)
Definition empty_columns (cols : list string) (i : nat) : list string :=
  set_label
    (set_label (Pandas.remove_nth i cols ++ ["DBXREF"; "ONT_URI"; "CODE"]) "ONT")
    "EVIDENCE".

(** The computation returns a frame, and that frame is [out]. *)
Definition returns (m : M object) (st : state) (out : DataFrame) : Prop :=
  exists l, fst (m st) = inr (Frame l) /\ heap (snd (m st)) !! l = Some out.

(** The situation [dbxref_mapper] is called in: the annotator holds a
    dictionary the helper combines into a dictionary whose items are
    [items]; the argument is a frame with distinct labels, a [CODE] column
    and no [DBXREF] or [ONT_URI] column. *)
Definition mapper_ready
    (md : object -> string -> result (list (string * string)))
    (st : state) (ld : loc) (df : DataFrame) (items : list (string * string))
  : Prop :=
  (exists d combined,
     self st !! "ontology_dictionary" = Some d
     /\ md d "dbxref" = inr combined
     /\ dict_items combined = items)
  /\ heap st !! ld = Some df
  /\ well_formed df
  /\ In "CODE" (columns df)
  /\ ~ In "DBXREF" (columns df)
  /\ ~ In "ONT_URI" (columns df).

(** Typed rows back to cells. *)
Definition pair_cells (p : cell * cell) : list cell := [fst p; snd p].

Definition joined_cells (pc : cell * cell * ConceptRow) : list cell :=
  [fst (fst pc); snd (fst pc); concept_id (snd pc); source_vocab (snd pc);
   source_code (snd pc)].

(** The rows of the second merge of [umls_cui_annotator] for a row of the
    first: one per semantic type of the row's concept, or one with a missing
    semantic type. *)
Definition with_semantic_types (tui : DataFrame) (row : list cell)
  : list (list cell) :=
  match List.filter (fun tr => bool_decide (cell_at 0 tr = cell_at 2 row))
                    (rows tui) with
  | [] => [row ++ repeat NaN 1]
  | ps => map (fun tr => row ++ Pandas.remove_nth 0 tr) ps
  end.

(** The situation [umls_cui_annotator] is called in after a construction
    with both thesaurus files: three attributes pointing at frames, the two
    thesaurus frames with the labels and widths the constructor gives
    them. *)
Definition thesaurus_ready (st : state) (clinical cui tui : DataFrame) : Prop :=
  (exists lc, self st !! "clinical_data" = Some (Frame lc)
              /\ heap st !! lc = Some clinical)
  /\ (exists lu, self st !! "umls_cui_data" = Some (Frame lu)
                 /\ heap st !! lu = Some cui)
  /\ (exists lt, self st !! "umls_tui_data" = Some (Frame lt)
                 /\ heap st !! lt = Some tui)
  /\ columns cui = ["CUI"; "SAB"; "CODE"]
  /\ Forall (fun r => length r = 3) (rows cui)
  /\ columns tui = ["CUI"; "STY"]
  /\ Forall (fun r => length r = 2) (rows tui).

(** A returned object that is a frame was allocated at or after [n]. *)
Definition fresh_from (n : nat) (v : object) : Prop :=
  match v with
  | Frame l => n <= l
  | Plain _ => True
  end.

Definition keeps {A : Type} (n : nat) (P : A -> Prop) (m : M A) : Prop :=
  forall st, n <= length (heap st) ->
    self (snd (m st)) = self st
    /\ take n (heap (snd (m st))) = take n (heap st)
    /\ n <= length (heap (snd (m st)))
    /\ (forall a, fst (m st) = inr a -> P a).

Definition anything {A : Type} (_ : A) : Prop := True.

(** Is the exception the configuration error of the specification? *)
Definition is_configuration_error (e : exn) : bool :=
  match e with
  | ConfigurationError _ => true
  | _ => false
  end.

(** The computation ends in an exception. *)
Definition raises {A : Type} (m : M A) (st : state) : Prop :=
  exists e, fst (m st) = inl e.

(** Every exception the computation can end in satisfies [P]. *)
Definition raises_only {A : Type} (P : exn -> Prop) (m : M A) : Prop :=
  forall st e, fst (m st) = inl e -> P e.

(** The computation keeps the attribute [name] and every frame of the
    store. *)
Definition retains {A : Type} (name : string) (m : M A) : Prop :=
  forall st,
    self (snd (m st)) !! name = self st !! name
    /\ forall l df, heap st !! l = Some df -> heap (snd (m st)) !! l = Some df.

(** The annotator [ConceptAnnotator(...)] leaves behind. *)
Definition constructed (env : Env) (a : Args) (h : list DataFrame) : state :=
  snd (init env a (fresh_object h)).

(** An exception of Python or pandas, as opposed to a configuration error. *)
Definition runtime_error (e : exn) : Prop := is_configuration_error e = false.

(** The frames the constructor builds from the rows of the MRCONSO file. *)
Definition mrconso_text (body : list (list cell)) : DataFrame :=
  Pandas.astype_str (Pandas.drop_duplicates (mkFrame ["CUI"; "SAB"; "CODE"] body)).

Definition mrconso_coded (body : list (list cell)) : DataFrame :=
  mkFrame (columns (mrconso_text body))
    (List.filter (fun r => negb (bool_decide (Pandas.cell_at 2 r = Str "NOCODE")))
                 (rows (mrconso_text body))).

Definition mrconso_frame (body : list (list cell)) : DataFrame :=
  Pandas.drop_duplicates (mrconso_coded body).

(** The clinical file is a path to a non-empty file that parses. *)
Definition clinical_loads (env : Env) (a : Args) (st : state) : Prop :=
  exists f, clinical_file a = PyStr f
            /\ path_exists env f = true
            /\ Nat.eqb (st_size env f) 0 = false
            /\ exists v, fst (load_clinical env f st) = inr v.

(** An optional list argument that passes its check. *)
Definition optional_ok (v : pyval) : Prop :=
  truthy v = false \/ exists l, v = PyList l.

(** The arguments checked between the clinical file and the thesaurus files
    all pass. *)
Definition checks_pass (a : Args) : Prop :=
  (exists k, primary_key a = PyStr k)
  /\ (exists l, concept_codes a = PyList l)
  /\ optional_ok (concept_strings a)
  /\ optional_ok (ancestor_codes a)
  /\ optional_ok (ancestor_strings a)
  /\ (exists d, ontology_dictionary a = PyDict d).

(** The MRCONSO block succeeds: no file given, or a non-empty file that
    parses. *)
Definition mrconso_loads (env : Env) (a : Args) : Prop :=
  truthy (umls_mrconso_file a) = false
  \/ exists f body,
       umls_mrconso_file a = PyStr f
       /\ f <> ""
       /\ path_exists env f = true
       /\ Nat.eqb (st_size env f) 0 = false
       /\ read_csv_positional env f "|" [0; 11; 13] = inr body.

(** [uri] is one of the URIs a mapping keeps for [text]. *)
Definition keeps_uri (m : AnnotationMap) (text uri : string) : Prop :=
  exists uris, m !! text = Some uris /\ uri ∈ uris.

(** [combine_all] from an arbitrary accumulator. *)
Definition combine_from (acc : AnnotationMap) (d : OntologyDictionary)
    (annotation_type : string) : AnnotationMap :=
  fold_left (fun acc ontology => Flattener.union_entries acc (Flattener.sub_mapping annotation_type ontology))
            d acc.

(** ** A small world for the examples

    A file system with a clinical file, an empty file and the two thesaurus
    files, and a dictionary of two ontologies that share a
    cross-reference. *)
Module Example.

Definition clinical : DataFrame :=
  mkFrame ["CONCEPT_ID"; "CONCEPT_SOURCE_CODE"] [[Str "1"; Str "123"]].

Definition mrconso_rows : list (list cell) :=
  [[Str "CUI1"; Str "SAB1"; Str "123"];
   [Str "CUI2"; Str "SAB1"; Str "NOCODE"];
   [Str "CUI1"; Str "SAB1"; Str "123"]].

Definition mrsty_rows : list (list cell) := [[Str "CUI9"; Str "T047"]].

Definition files : list string :=
  ["clinical.csv"; "empty.csv"; "MRCONSO.RRF"; "MRSTY.RRF"].

Definition env : Env :=
  mkEnv (fun f => existsb (String.eqb f) files)
        (fun f => if String.eqb f "empty.csv" then 0 else 64)
        (fun f sep =>
           if String.eqb f "clinical.csv" && String.eqb sep ","
           then inr clinical else inl (ParserError f))
        (fun f sep usecols =>
           if String.eqb f "MRCONSO.RRF" then inr mrconso_rows
           else if String.eqb f "MRSTY.RRF" then inr mrsty_rows
           else inl (ParserError f)).

Definition hp : string * OntologyRecord :=
  ("hp", {["dbxref" := {["ICD9:123" := {["http://x/HP_001"]}]}]}).

Definition mondo : string * OntologyRecord :=
  ("mondo", {["dbxref" := {["ICD9:123" := {["http://x/MONDO_002"]}]}]}).

Definition args (clinical_path : string) (codes conso sty : pyval) : Args :=
  mkArgs (PyStr clinical_path) (PyDict [hp; mondo]) (PyStr "CONCEPT_ID") codes
         PyNone PyNone PyNone conso sty.

Definition codes : pyval := PyList ["CONCEPT_SOURCE_CODE"].

(** The long-format table handed to [dbxref_mapper], and an annotator that
    holds a dictionary. *)
Definition long_table (rs : list (list cell)) : DataFrame :=
  mkFrame ["CONCEPT_ID"; "CODE"] rs.

Definition annotator (rs : list (list cell)) : state :=
  mkState {["ontology_dictionary" := Plain (PyDict [hp])]} [long_table rs].

(** A helper that returns the dictionary made by the given bindings. *)
Definition items_of (combined : list (string * string))
  : object -> string -> result (list (string * string)) :=
  fun _ _ => inr combined.

End Example.


(** Calls of the constructor in the example world. *)
Definition with_thesaurus : Args :=
  Example.args "clinical.csv" Example.codes (PyStr "MRCONSO.RRF") (PyStr "MRSTY.RRF").

Definition without_thesaurus : Args :=
  Example.args "clinical.csv" Example.codes PyNone PyNone.

Definition without_semantic_types : Args :=
  Example.args "clinical.csv" Example.codes (PyStr "MRCONSO.RRF") PyNone.

Definition missing_thesaurus_and_codes : Args :=
  Example.args "clinical.csv" (PyStr "CONCEPT_SOURCE_CODE") (PyStr "absent.RRF")
               PyNone.

(** An annotator whose clinical table carries its codes under [CODE]. *)
Definition coded_annotator : state :=
  mkState (<["clinical_data" := Frame 0]>
             (<["umls_cui_data" := Frame 1]> {["umls_tui_data" := Frame 2]}))
          [mkFrame ["CONCEPT_ID"; "CODE"] [[Str "1"; Str "123"]];
           mrconso_frame Example.mrconso_rows;
           mkFrame ["CUI"; "STY"] Example.mrsty_rows].

(** The frame [load_clinical] leaves in the store for a parsed table. *)
Definition loaded (st : state) (raw : DataFrame) : result object * state :=
  (inr (Frame (length (heap st) + 1)),
   mkState (self st) (heap st ++ [raw; Pandas.astype_str raw])).

(** The example world with a tab-separated clinical file: the comma parse
    fails, the tab parse succeeds. *)
Definition tab_separated : Env :=
  mkEnv (path_exists Example.env) (st_size Example.env)
        (fun f sep =>
           if String.eqb f "clinical.csv" && String.eqb sep tab
           then inr Example.clinical else inl (ParserError f))
        (read_csv_positional Example.env).

(** The example world with another clinical table behind [clinical.csv]. *)
Definition world_of (clinical : DataFrame) : Env :=
  mkEnv (path_exists Example.env) (st_size Example.env)
        (fun f sep =>
           if String.eqb f "clinical.csv" && String.eqb sep ","
           then inr clinical else inl (ParserError f))
        (read_csv_positional Example.env).

(** * Proofs *)

(** ** Facts about the string methods *)

Lemma append_cons (c : ascii) (a b : string) :
  String c a +:+ b = String c (a +:+ b).
Proof. reflexivity. Qed.

Section SplitFacts.

Variable sep : ascii.

Lemma split_nonempty (s : string) : PyStr.split sep s <> [].
Proof.
  destruct s as [|c s]; simpl; [discriminate|].
  destruct (Ascii.eqb c sep); [discriminate|].
  destruct (PyStr.split sep s); discriminate.
Qed.

(** No piece of a split contains the separator. *)
Lemma split_pieces_clean (s : string) :
  Forall (fun piece => PyStr.occurs sep piece = false) (PyStr.split sep s).
Proof.
  induction s as [|c s IH]; simpl.
  - repeat constructor.
  - destruct (Ascii.eqb c sep) eqn:Hc.
    + constructor; [reflexivity | exact IH].
    + destruct (PyStr.split sep s) as [|piece pieces].
      * repeat constructor. simpl. now rewrite Hc.
      * inversion IH as [|? ? Hp Hps]; subst.
        constructor; [|exact Hps]. simpl. now rewrite Hc, Hp.
Qed.

Lemma last_in {A : Type} (l : list A) (d : A) : l <> [] -> In (List.last l d) l.
Proof.
  induction l as [|x l IH]; [congruence|]. intros _.
  destruct l as [|y l]; [now left|].
  right. apply IH. discriminate.
Qed.

Lemma item_last_clean (s : string) :
  PyStr.occurs sep (PyStr.item_last (PyStr.split sep s)) = false.
Proof.
  pose proof (split_pieces_clean s) as H.
  rewrite List.Forall_forall in H. apply H.
  apply last_in, split_nonempty.
Qed.

Lemma item_first_clean (s : string) :
  PyStr.occurs sep (PyStr.item_first (PyStr.split sep s)) = false.
Proof.
  pose proof (split_pieces_clean s) as H.
  pose proof (split_nonempty s) as Hne.
  destruct (PyStr.split sep s) as [|p ps]; [congruence|].
  now inversion H.
Qed.

(** The first piece is the text before the first separator. *)
Lemma item_first_prefix (s : string) :
  s = PyStr.item_first (PyStr.split sep s)
  \/ exists rest, s = PyStr.item_first (PyStr.split sep s) +:+ String sep rest.
Proof.
  induction s as [|c s IH]; simpl.
  - now left.
  - destruct (Ascii.eqb_spec c sep) as [->|Hne].
    + right. now exists s.
    + pose proof (split_nonempty s) as Hs.
      destruct (PyStr.split sep s) as [|p ps]; [congruence|].
      simpl in *. destruct IH as [->|[rest ->]].
      * now left.
      * right. now exists rest.
Qed.

Lemma split_single (s : string) :
  PyStr.occurs sep s = false -> PyStr.split sep s = [s].
Proof.
  induction s as [|c s IH]; simpl; [reflexivity|].
  destruct (Ascii.eqb c sep); simpl; [discriminate|].
  intros H. now rewrite (IH H).
Qed.

Lemma split_several (s : string) :
  PyStr.occurs sep s = true ->
  exists p q ps, PyStr.split sep s = p :: q :: ps.
Proof.
  induction s as [|c s IH]; simpl; [discriminate|].
  pose proof (split_nonempty s) as Hs.
  destruct (Ascii.eqb c sep); simpl.
  - intros _. destruct (PyStr.split sep s) as [|p ps]; [congruence|].
    now exists EmptyString, p, ps.
  - intros H. destruct (IH H) as (p & q & ps & ->).
    now exists (String c p), q, ps.
Qed.

(** The last piece is the text after the last separator. *)
Lemma item_last_suffix (s : string) :
  PyStr.occurs sep s = true ->
  exists front, s = front +:+ String sep (PyStr.item_last (PyStr.split sep s)).
Proof.
  unfold PyStr.item_last.
  induction s as [|c s IH]; simpl; [discriminate|].
  destruct (Ascii.eqb_spec c sep) as [->|Hne]; simpl.
  - intros _. destruct (PyStr.occurs sep s) eqn:Hs.
    + destruct (IH eq_refl) as [front Hf].
      destruct (split_several s Hs) as (p & q & ps & E). rewrite E in *.
      exists (String sep front).
      simpl in Hf |- *. rewrite append_cons. f_equal. exact Hf.
    + rewrite (split_single s Hs). now exists EmptyString.
  - intros Hs. destruct (IH Hs) as [front Hf].
    destruct (split_several s Hs) as (p & q & ps & E). rewrite E in *.
    exists (String c front).
    simpl in Hf |- *. rewrite append_cons. f_equal. exact Hf.
Qed.

Lemma item_last_whole (s : string) :
  PyStr.occurs sep s = false -> PyStr.item_last (PyStr.split sep s) = s.
Proof. intros H. now rewrite (split_single s H). Qed.

Lemma split_app (a b : string) :
  PyStr.split sep (a +:+ String sep b) = PyStr.split sep a ++ PyStr.split sep b.
Proof.
  induction a as [|c a IH].
  - simpl. now rewrite Ascii.eqb_refl.
  - rewrite append_cons. simpl. rewrite IH.
    destruct (Ascii.eqb c sep); [reflexivity|].
    pose proof (split_nonempty a) as Hne.
    now destruct (PyStr.split sep a).
Qed.

Lemma last_app_nonempty {A : Type} (l k : list A) (d : A) :
  k <> [] -> List.last (l ++ k) d = List.last k d.
Proof.
  intros Hk. induction l as [|x l IH]; [reflexivity|].
  simpl. rewrite IH. destruct (l ++ k) eqn:E; [|reflexivity].
  apply app_eq_nil in E as [_ ->]. congruence.
Qed.

(** The last piece is what follows the last separator. *)
Lemma item_last_after (front rest : string) :
  PyStr.occurs sep rest = false ->
  PyStr.item_last (PyStr.split sep (front +:+ String sep rest)) = rest.
Proof.
  intros Hrest. unfold PyStr.item_last.
  rewrite split_app, last_app_nonempty by apply split_nonempty.
  now rewrite (split_single rest Hrest).
Qed.

(** The first piece is what precedes the first separator. *)
Lemma item_first_before (front rest : string) :
  PyStr.occurs sep front = false ->
  PyStr.item_first (PyStr.split sep (front +:+ String sep rest)) = front.
Proof.
  intros Hfront. unfold PyStr.item_first.
  now rewrite split_app, (split_single front Hfront).
Qed.

End SplitFacts.

(** ** Facts about [unique] *)

Section UniqueFacts.

Context {A : Type} `{EqDecision A}.

Lemma elem_of_unique (x : A) (seen l : list A) :
  x ∈ unique seen l <-> x ∈ l /\ x ∉ seen.
Proof.
  revert seen. induction l as [|y l IH]; intros seen; simpl.
  - split; [intros Hx; inversion Hx | intros [Hx _]; inversion Hx].
  - case_bool_decide as Hy.
    + rewrite IH, elem_of_cons. split; [tauto|].
      intros [[->|Hx] Hs]; tauto.
    + rewrite !elem_of_cons, IH, elem_of_cons. split.
      * intros [->|[Hx Hs]]; [tauto|]. tauto.
      * intros [[->|Hx] Hs]; [tauto|].
        destruct (decide (x = y)) as [->|Hne]; tauto.
Qed.

Lemma elem_of_unique_nil (x : A) (l : list A) : x ∈ unique [] l <-> x ∈ l.
Proof. rewrite elem_of_unique. split; [tauto|]. intros Hx. split; [done|]. apply not_elem_of_nil. Qed.

Lemma NoDup_unique (seen l : list A) : NoDup (unique seen l).
Proof.
  revert seen. induction l as [|y l IH]; intros seen; simpl.
  - constructor.
  - case_bool_decide as Hy; [apply IH|].
    constructor; [|apply IH].
    rewrite elem_of_unique. intros [_ Hn]. apply Hn. left.
Qed.

End UniqueFacts.

Lemma unique_map {A B : Type} `{EqDecision A} `{EqDecision B} (f : A -> B)
    (seen l : list A) :
  (forall x y, f x = f y -> x = y) ->
  unique (map f seen) (map f l) = map f (unique seen l).
Proof.
  intros Hinj. revert seen. induction l as [|y l IH]; intros seen; simpl; [done|].
  assert (Hiff : f y ∈ map f seen <-> y ∈ seen).
  { rewrite !list_elem_of_In, in_map_iff. split.
    - intros (z & Hz & Hin). apply Hinj in Hz. now subst.
    - intros Hin. now exists y. }
  repeat case_bool_decide; try tauto.
  - apply IH.
  - simpl. f_equal. apply (IH (y :: seen)).
Qed.

(** ** What a computation leaves untouched

    [keeps n P m]: running [m] changes neither the attributes of [self] nor
    the first [n] frames of the store, and a value it returns satisfies
    [P]. *)

Section FrameRules.

Variable n : nat.

Lemma keeps_weaken {A : Type} (P Q : A -> Prop) (m : M A) :
  (forall a, P a -> Q a) -> keeps n P m -> keeps n Q m.
Proof.
  intros HPQ Hm st Hn. destruct (Hm st Hn) as (Hs & Hh & Hl & HP).
  repeat split; auto.
Qed.

Lemma keeps_ret {A : Type} (P : A -> Prop) (a : A) : P a -> keeps n P (mret a).
Proof.
  intros Ha st Hn. unfold mret, M_ret. simpl. repeat split; auto.
  intros b Hb. inversion Hb; subst. exact Ha.
Qed.

Lemma keeps_raise {A : Type} (P : A -> Prop) (e : exn) : keeps n P (raise e).
Proof. intros st Hn. repeat split; auto. simpl. discriminate. Qed.

Lemma keeps_lift {A : Type} (r : result A) : keeps n anything (lift r).
Proof. intros st Hn. repeat split; auto. Qed.

Lemma keeps_bind {A B : Type} (P : A -> Prop) (Q : B -> Prop) (m : M A)
    (k : A -> M B) :
  keeps n P m -> (forall a, P a -> keeps n Q (k a)) -> keeps n Q (m ≫= k).
Proof.
  intros Hm Hk st Hn. unfold mbind, M_bind.
  destruct (Hm st Hn) as (Hs & Hh & Hl & HP).
  destruct (m st) as [[e|a] st1]; simpl in *.
  - repeat split; auto. discriminate.
  - destruct (Hk a (HP a eq_refl) st1 Hl) as (Hs' & Hh' & Hl' & HQ).
    repeat split; auto; congruence.
Qed.

Lemma keeps_getattr (name : string) : keeps n anything (getattr name).
Proof.
  intros st Hn. unfold getattr. destruct (self st !! name); repeat split; auto.
Qed.

Lemma keeps_new_frame (df : DataFrame) : keeps n (fresh_from n) (new_frame df).
Proof.
  intros st Hn. unfold new_frame. simpl. repeat split.
  - now rewrite take_app_le.
  - rewrite length_app. lia.
  - intros a Ha. inversion Ha. simpl. exact Hn.
Qed.

Lemma keeps_store_frame (l : loc) (df : DataFrame) :
  n <= l -> keeps n anything (store_frame l df).
Proof.
  intros Hl st Hn. unfold store_frame. simpl. repeat split.
  - now rewrite take_insert_ge.
  - now rewrite length_insert.
Qed.

Lemma keeps_receiver (method : string) (v : object) :
  keeps n anything (receiver method v).
Proof. intros st Hn. unfold receiver. destruct v; repeat split; auto. Qed.

Lemma keeps_subscripted (v : object) : keeps n anything (subscripted v).
Proof. intros st Hn. unfold subscripted. destruct v; repeat split; auto. Qed.

Lemma keeps_df_getitem_list (v : object) (cs : list string) :
  keeps n (fresh_from n) (df_getitem_list v cs).
Proof.
  unfold df_getitem_list.
  eapply keeps_bind; [apply keeps_subscripted|]. intros df _.
  eapply keeps_bind; [apply keeps_lift|]. intros out _.
  apply keeps_new_frame.
Qed.

Lemma keeps_df_getitem (v : object) (c : string) :
  keeps n anything (df_getitem v c).
Proof.
  unfold df_getitem.
  eapply keeps_bind; [apply keeps_subscripted|]. intros df _.
  apply keeps_lift.
Qed.

Lemma keeps_df_setitem (v : object) (c : string) (s : list cell) :
  fresh_from n v -> keeps n anything (df_setitem v c s).
Proof.
  intros Hv. destruct v as [p|l]; simpl; [apply keeps_raise|].
  intros st Hn. now apply keeps_store_frame.
Qed.

Lemma keeps_df_set_columns (v : object) (names : list string) :
  fresh_from n v -> keeps n anything (df_set_columns v names).
Proof.
  intros Hv. destruct v as [p|l]; simpl; [apply keeps_raise|].
  intros st Hn.
  assert (H : keeps n anything
                (df ← lift (Pandas.set_columns (deref (heap st) l) names);
                 store_frame l df)).
  { eapply keeps_bind; [apply keeps_lift|]. intros df _.
    now apply keeps_store_frame. }
  exact (H st Hn).
Qed.

Lemma keeps_df_drop_duplicates (v : object) :
  keeps n (fresh_from n) (df_drop_duplicates v).
Proof.
  unfold df_drop_duplicates.
  eapply keeps_bind; [apply keeps_receiver|]. intros df _.
  apply keeps_new_frame.
Qed.

Lemma keeps_df_merge (left right : object) (h : Pandas.how) (lk rk : string) :
  keeps n (fresh_from n) (df_merge left right h lk rk).
Proof.
  unfold df_merge.
  eapply keeps_bind; [apply keeps_receiver|]. intros ldf _.
  destruct right as [p|r]; [apply keeps_raise|].
  intros st Hn.
  assert (H : keeps n (fresh_from n)
                (out ← lift (Pandas.merge ldf (deref (heap st) r) h lk rk);
                 new_frame out)).
  { eapply keeps_bind; [apply keeps_lift|]. intros out _.
    apply keeps_new_frame. }
  exact (H st Hn).
Qed.

Lemma keeps_umls_cui_annotator (pk cl : string) :
  keeps n (fresh_from n) (umls_cui_annotator pk cl).
Proof.
  unfold umls_cui_annotator.
  eapply keeps_bind; [apply keeps_getattr|]. intros clinical _.
  eapply keeps_bind; [apply keeps_df_getitem_list|]. intros selected _.
  eapply keeps_bind; [apply keeps_df_drop_duplicates|]. intros ids _.
  eapply keeps_bind; [apply keeps_getattr|]. intros cui _.
  eapply keeps_bind; [apply keeps_df_merge|]. intros umls_cui _.
  eapply keeps_bind; [apply keeps_getattr|]. intros tui _.
  eapply keeps_bind; [apply keeps_df_merge|]. intros merged _.
  eapply keeps_bind; [apply keeps_df_drop_duplicates|]. intros final Hfinal.
  eapply keeps_bind; [now apply keeps_df_set_columns|]. intros _ _.
  now apply keeps_ret.
Qed.

Lemma keeps_dbxref_mapper
    (md : object -> string -> result (list (string * string))) (data : object) :
  keeps n (fresh_from n) (dbxref_mapper md data).
Proof.
  unfold dbxref_mapper, frame_of_items.
  eapply keeps_bind; [apply keeps_getattr|]. intros dictionary _.
  eapply keeps_bind; [apply keeps_lift|]. intros items _.
  eapply keeps_bind; [apply keeps_new_frame|]. intros combo Hcombo.
  eapply keeps_bind; [apply keeps_df_getitem|]. intros dbxrefs _.
  eapply keeps_bind; [apply keeps_lift|]. intros codes _.
  eapply keeps_bind; [now apply keeps_df_setitem|]. intros _ _.
  eapply keeps_bind; [apply keeps_df_merge|]. intros joined _.
  eapply keeps_bind; [apply keeps_df_drop_duplicates|]. intros merged Hmerged.
  eapply keeps_bind; [apply keeps_df_getitem|]. intros uris _.
  eapply keeps_bind; [apply keeps_lift|]. intros onts _.
  eapply keeps_bind; [now apply keeps_df_setitem|]. intros _ _.
  eapply keeps_bind; [apply keeps_df_getitem|]. intros matched _.
  eapply keeps_bind; [apply keeps_lift|]. intros evidence _.
  eapply keeps_bind; [now apply keeps_df_setitem|]. intros _ _.
  apply keeps_df_drop_duplicates.
Qed.

End FrameRules.

Lemma keeps_unchanged {A : Type} (P : A -> Prop) (m : M A) (st : state) :
  keeps (length (heap st)) P m ->
  self (snd (m st)) = self st
  /\ forall l df, heap st !! l = Some df -> heap (snd (m st)) !! l = Some df.
Proof.
  intros Hm. destruct (Hm st (le_n _)) as (Hs & Hh & Hl & _).
  split; [exact Hs|]. intros l df Hdf.
  pose proof (lookup_lt_Some _ _ _ Hdf) as Hlt.
  rewrite <- (lookup_take_lt _ (length (heap st))) by lia.
  rewrite Hh, lookup_take_lt by lia. exact Hdf.
Qed.

(** ** Columns, cells and item assignment *)

Section ColumnFacts.

Lemma column_index_lt (c : string) (cols : list string) (i : nat) :
  column_index c cols = Some i -> i < length cols.
Proof.
  revert i. induction cols as [|c' cols IH]; intros i; simpl; [discriminate|].
  destruct (String.eqb c c').
  - intros [= <-]. lia.
  - destruct (column_index c cols) as [k|]; simpl; [|discriminate].
    intros [= <-]. specialize (IH k eq_refl). lia.
Qed.

Lemma column_index_nth (c : string) (cols : list string) (i : nat) :
  column_index c cols = Some i -> nth i cols EmptyString = c.
Proof.
  revert i. induction cols as [|c' cols IH]; intros i; simpl; [discriminate|].
  destruct (String.eqb_spec c c') as [->|Hne].
  - now intros [= <-].
  - destruct (column_index c cols) as [k|]; simpl; [|discriminate].
    intros [= <-]. now apply IH.
Qed.

Lemma column_index_inj (c c' : string) (cols : list string) (i : nat) :
  column_index c cols = Some i -> column_index c' cols = Some i -> c = c'.
Proof.
  intros H H'. apply column_index_nth in H, H'. congruence.
Qed.

Lemma column_index_None (c : string) (cols : list string) :
  column_index c cols = None <-> ~ In c cols.
Proof.
  induction cols as [|c' cols IH]; simpl; [tauto|].
  destruct (String.eqb_spec c c') as [->|Hne].
  - split; [discriminate|]. intros H. exfalso. apply H. now left.
  - destruct (column_index c cols) as [k|]; simpl.
    + split; [discriminate|]. intros H. exfalso.
      assert (Hn : ~ In c cols) by tauto. now apply IH in Hn.
    + split; [|reflexivity]. intros _ [Heq|Hin]; [congruence|].
      now apply (proj1 IH).
Qed.

Lemma column_index_app_l (c : string) (cols more : list string) (i : nat) :
  column_index c cols = Some i -> column_index c (cols ++ more) = Some i.
Proof.
  revert i. induction cols as [|c' cols IH]; intros i; simpl; [discriminate|].
  destruct (String.eqb c c'); [trivial|].
  destruct (column_index c cols) as [k|]; simpl; [|discriminate].
  intros [= <-]. now rewrite (IH k eq_refl).
Qed.

Lemma column_index_app_r (c : string) (cols more : list string) :
  column_index c cols = None ->
  column_index c (cols ++ more)
  = option_map (fun k => length cols + k) (column_index c more).
Proof.
  induction cols as [|c' cols IH]; simpl.
  - intros _. now destruct (column_index c more).
  - destruct (String.eqb c c'); [discriminate|].
    destruct (column_index c cols) as [k|]; simpl; [discriminate|].
    intros _. rewrite (IH eq_refl). now destruct (column_index c more).
Qed.

Lemma has_column_false (c : string) (cols : list string) :
  has_column c cols = false <-> ~ In c cols.
Proof.
  unfold has_column. rewrite <- column_index_None.
  destruct (column_index c cols); split; congruence.
Qed.

Lemma suffixed_id (suffix : string) (others cols : list string) :
  (forall c, In c cols -> ~ In c others) ->
  map (suffixed suffix others) cols = cols.
Proof.
  intros H. induction cols as [|c cols IH]; simpl; [reflexivity|].
  unfold suffixed at 1.
  rewrite (proj2 (has_column_false c others)) by (apply H; now left).
  f_equal. apply IH. intros c' Hc'. apply H. now right.
Qed.

End ColumnFacts.

Section CellFacts.

Lemma cell_at_app_l (r more : list cell) (i : nat) :
  i < length r -> cell_at i (r ++ more) = cell_at i r.
Proof. intros Hi. unfold cell_at. now rewrite app_nth1. Qed.

Lemma cell_at_app_r (r more : list cell) (k : nat) :
  cell_at (length r + k) (r ++ more) = cell_at k more.
Proof.
  unfold cell_at. rewrite app_nth2 by lia. f_equal. lia.
Qed.

Lemma length_replace_nth (i : nat) (x : cell) (r : list cell) :
  length (replace_nth i x r) = length r.
Proof.
  revert i. induction r as [|y r IH]; intros [|i]; simpl; auto.
Qed.

Lemma cell_at_replace_eq (i : nat) (x : cell) (r : list cell) :
  i < length r -> cell_at i (replace_nth i x r) = x.
Proof.
  unfold cell_at. revert i. induction r as [|y r IH]; intros [|i]; simpl;
    try lia; auto.
  intros Hi. apply IH. lia.
Qed.

Lemma cell_at_replace_ne (i k : nat) (x : cell) (r : list cell) :
  i <> k -> cell_at k (replace_nth i x r) = cell_at k r.
Proof.
  unfold cell_at. revert i k. induction r as [|y r IH]; intros [|i] [|k]; simpl;
    try congruence; auto.
Qed.

End CellFacts.

(** ** Column assignment *)

Section SetItemFacts.

Variables (cols : list string) (c : string).

Lemma length_set_cell (x : cell) (r : list cell) :
  length r = length cols ->
  length (set_cell cols c x r) = length (set_label cols c).
Proof.
  intros Hr. unfold set_cell, set_label.
  destruct (column_index c cols).
  - now rewrite length_replace_nth.
  - rewrite !length_app. simpl. lia.
Qed.

Lemma column_index_set_label_eq :
  exists k, column_index c (set_label cols c) = Some k
            /\ forall x r, length r = length cols ->
                           cell_at k (set_cell cols c x r) = x.
Proof.
  unfold set_label, set_cell.
  destruct (column_index c cols) as [j|] eqn:E.
  - exists j. split; [exact E|]. intros x r Hr.
    apply cell_at_replace_eq. apply column_index_lt in E. lia.
  - exists (length cols). split.
    + rewrite column_index_app_r by exact E. simpl.
      rewrite String.eqb_refl. simpl. f_equal. lia.
    + intros x r Hr. rewrite <- Hr.
      replace (length r) with (length r + 0) by lia.
      now rewrite cell_at_app_r.
Qed.

Lemma column_index_set_label_ne (c' : string) :
  c' <> c ->
  column_index c' (set_label cols c) = column_index c' cols
  /\ forall k x r, column_index c' cols = Some k -> length r = length cols ->
                   cell_at k (set_cell cols c x r) = cell_at k r.
Proof.
  intros Hne. unfold set_label, set_cell.
  destruct (column_index c cols) as [j|] eqn:E.
  - split; [reflexivity|]. intros k x r Hk Hr.
    apply cell_at_replace_ne. intros ->.
    apply Hne. symmetry. eapply column_index_inj; eassumption.
  - split.
    + destruct (column_index c' cols) as [k|] eqn:E'.
      * now apply column_index_app_l.
      * rewrite column_index_app_r by exact E'. simpl.
        destruct (String.eqb_spec c' c); [contradiction|reflexivity].
    + intros k x r Hk Hr. apply cell_at_app_l.
      apply column_index_lt in Hk. lia.
Qed.

End SetItemFacts.

Lemma setitem_computed (df : DataFrame) (c : string) (g : list cell -> cell) :
  setitem df c (map g (rows df))
  = mkFrame (set_label (columns df) c)
            (map (fun r => set_cell (columns df) c (g r) r) (rows df)).
Proof.
  unfold setitem, set_label, set_cell.
  assert (Hc : combine (rows df) (map g (rows df))
               = map (fun r => (r, g r)) (rows df)).
  { induction (rows df) as [|r l IH]; simpl; [reflexivity|]. now rewrite IH. }
  rewrite Hc. destruct (column_index c (columns df)); now rewrite map_map.
Qed.

Lemma apply_on_text_cells (method : string) (f : string -> string)
    (cells : list cell) :
  Forall (fun x => exists t, x = Str t) cells ->
  apply (on_text method f) cells = inr (map (fun x => Str (f (text_of x))) cells).
Proof.
  induction 1 as [|x l [t ->] _ IH]; simpl; [reflexivity|]. now rewrite IH.
Qed.

(** ** Merge keys and the order of an inner join *)

Lemma has_column_true (c : string) (cols : list string) :
  has_column c cols = true <-> In c cols.
Proof.
  destruct (has_column c cols) eqn:E.
  - split; [|reflexivity]. intros _.
    destruct (in_dec string_dec c cols) as [Hin|Hout]; [exact Hin|].
    apply has_column_false in Hout. congruence.
  - apply has_column_false in E. split; [discriminate|contradiction].
Qed.

Lemma column_index_split (k : string) (cols : list string) (i : nat) :
  column_index k cols = Some i -> cols = firstn i cols ++ k :: skipn (S i) cols.
Proof.
  revert i. induction cols as [|c cols IH]; intros i; simpl; [discriminate|].
  destruct (String.eqb_spec k c) as [->|Hne].
  - now intros [= <-].
  - destruct (column_index k cols) as [n|]; simpl; [|discriminate].
    intros [= <-]. simpl. f_equal. now apply IH.
Qed.

Lemma key_index_found (k : string) (cols : list string) (i : nat) :
  NoDup cols -> column_index k cols = Some i -> key_index k cols = inr i.
Proof.
  intros Hnd Hi. unfold key_index. rewrite Hi.
  destruct (has_column k (skipn (S i) cols)) eqn:E; [|reflexivity].
  exfalso. apply has_column_true in E.
  rewrite (column_index_split k cols i Hi) in Hnd.
  apply NoDup_ListNoDup, List.NoDup_remove_2 in Hnd.
  apply Hnd, in_or_app. now right.
Qed.


Lemma key_index_missing (k : string) (cols : list string) :
  ~ In k cols -> key_index k cols = inl (KeyError k).
Proof.
  intros Hk. apply column_index_None in Hk. unfold key_index. now rewrite Hk.
Qed.

Lemma remove_nth_split {A : Type} (i : nat) (l : list A) :
  remove_nth i l = firstn i l ++ skipn (S i) l.
Proof.
  revert i. induction l as [|x l IH]; intros [|i]; simpl; try reflexivity.
  now rewrite IH.
Qed.

Lemma in_remove_nth {A : Type} (i : nat) (l : list A) (x : A) :
  In x (remove_nth i l) -> In x l.
Proof.
  rewrite remove_nth_split. intros H. apply in_app_or in H.
  rewrite <- (firstn_skipn i l). apply in_or_app.
  destruct H as [H|H]; [now left|right].
  rewrite <- (firstn_skipn 1 (skipn i l)), skipn_skipn.
  apply in_or_app. now right.
Qed.

Lemma key_removed (k : string) (cols : list string) (i : nat) :
  NoDup cols -> column_index k cols = Some i -> ~ In k (remove_nth i cols).
Proof.
  intros Hnd Hi. rewrite remove_nth_split.
  rewrite (column_index_split k cols i Hi) in Hnd.
  now apply NoDup_ListNoDup, List.NoDup_remove_2 in Hnd.
Qed.

Lemma In_grouped (i : nat) (rs : list (list cell)) (r : list cell) :
  In r (grouped i rs) <-> In r rs.
Proof.
  unfold grouped. rewrite in_flat_map. split.
  - intros (k & _ & Hr). now apply filter_In in Hr.
  - intros Hr. exists (cell_at i r). split.
    + apply list_elem_of_In, elem_of_unique_nil, list_elem_of_In.
      now apply in_map.
    + apply filter_In. split; [exact Hr|]. now apply bool_decide_eq_true.
Qed.

Lemma is_empty_false (df : DataFrame) (r : list cell) :
  In r (rows df) -> is_empty df = false.
Proof. unfold is_empty. now destruct (rows df). Qed.

Lemma is_empty_true (df : DataFrame) : is_empty df = true -> rows df = [].
Proof. unfold is_empty. now destruct (rows df). Qed.

(** ** The cross-reference join on frames *)

Lemma filter_map_comm {A B : Type} (p : B -> bool) (f : A -> B) (l : list A) :
  List.filter p (map f l) = map f (List.filter (fun a => p (f a)) l).
Proof.
  induction l as [|a l IH]; simpl; [reflexivity|].
  rewrite IH. now destruct (p (f a)).
Qed.

Lemma inner_partners {A B : Type} (ps : list A) (f : A -> B) :
  match ps with
  | [] => map f []
  | p :: ps' => map f (p :: ps')
  end = map f ps.
Proof. now destruct ps. Qed.

Lemma code_key (items : list (string * string)) :
  key_index "CODE" (columns (combo_dict_frame items)) = inr 2.
Proof. reflexivity. Qed.

Lemma merge_on_code (df : DataFrame) (items : list (string * string)) (i : nat) :
  column_index "CODE" (columns df) = Some i -> NoDup (columns df) ->
  ~ In "DBXREF" (columns df) -> ~ In "ONT_URI" (columns df) ->
  is_empty df = false ->
  merge df (combo_dict_frame items) Inner "CODE" "CODE"
  = inr (mkFrame (joined_columns (columns df))
                 (joined_rows i (grouped i (rows df)) items)).
Proof.
  intros Hi Hnd Hd Hu Hne. unfold merge.
  rewrite code_key, (key_index_found "CODE" (columns df) i Hnd Hi). cbn [rbind].
  rewrite Hne. change (String.eqb "CODE" "CODE") with true. cbn [andb negb].
  change (remove_nth 2 (columns (combo_dict_frame items)))
    with ["DBXREF"; "ONT_URI"].
  f_equal. f_equal.
  - unfold joined_columns. f_equal.
    + apply suffixed_id. intros c Hc [<-|[<-|[]]]; contradiction.
    + apply (suffixed_id "_y" (columns df) ["DBXREF"; "ONT_URI"]).
      intros c [<-|[<-|[]]]; assumption.
  - unfold joined_rows. apply flat_map_ext. intros lr.
    rewrite inner_partners.
    unfold combo_dict_frame. cbn [rows].
    rewrite filter_map_comm, map_map. reflexivity.
Qed.

Lemma merge_on_code_empty (df : DataFrame) (items : list (string * string))
    (i : nat) :
  column_index "CODE" (columns df) = Some i -> NoDup (columns df) ->
  ~ In "DBXREF" (columns df) -> ~ In "ONT_URI" (columns df) ->
  rows df = [] ->
  merge df (combo_dict_frame items) Inner "CODE" "CODE"
  = inr (mkFrame (remove_nth i (columns df) ++ ["DBXREF"; "ONT_URI"; "CODE"]) []).
Proof.
  intros Hi Hnd Hd Hu Hnil. unfold merge.
  rewrite code_key, (key_index_found "CODE" (columns df) i Hnd Hi). cbn [rbind].
  unfold is_empty. rewrite Hnil.
  change (String.eqb "CODE" "CODE") with true. cbn [andb negb].
  change (columns (combo_dict_frame items)) with ["DBXREF"; "ONT_URI"; "CODE"].
  pose proof (key_removed "CODE" (columns df) i Hnd Hi) as Hkey.
  f_equal. f_equal. f_equal.
  - apply suffixed_id. intros c Hc [<-|[<-|[<-|[]]]].
    + apply Hd. now apply in_remove_nth in Hc.
    + apply Hu. now apply in_remove_nth in Hc.
    + contradiction.
  - apply (suffixed_id "_y" _ ["DBXREF"; "ONT_URI"; "CODE"]).
    intros c [<-|[<-|[<-|[]]]] Hc.
    + apply Hd. now apply in_remove_nth in Hc.
    + apply Hu. now apply in_remove_nth in Hc.
    + contradiction.
Qed.

Lemma drop_duplicates_nil (cols : list string) :
  drop_duplicates (mkFrame cols []) = mkFrame cols [].
Proof. reflexivity. Qed.

Lemma setitem_nil (cols : list string) (c : string) :
  setitem (mkFrame cols []) c [] = mkFrame (set_label cols c) [].
Proof.
  unfold setitem, set_label. cbn [columns rows].
  now destruct (column_index c cols).
Qed.

Lemma elem_of_joined_rows (i : nat) (data : list (list cell))
    (items : list (string * string)) (r : list cell) :
  r ∈ joined_rows i data items
  <-> exists lr kv, In lr data /\ In kv items
                    /\ cell_at i lr = Str (dbxref_code (fst kv))
                    /\ r = joined_row lr kv.
Proof.
  unfold joined_rows. rewrite list_elem_of_In, in_flat_map. split.
  - intros (lr & Hlr & Hr). apply in_map_iff in Hr as (kv & <- & Hkv).
    apply filter_In in Hkv as [Hkv Hm].
    unfold code_matches in Hm. apply bool_decide_eq_true in Hm.
    exists lr, kv. auto.
  - intros (lr & kv & Hlr & Hkv & Hm & ->).
    exists lr. split; [exact Hlr|]. apply in_map.
    apply filter_In. split; [exact Hkv|].
    unfold code_matches. apply bool_decide_eq_true. auto.
Qed.

Lemma setitem_rows (cols : list string) (body : list (list cell)) (c : string)
    (g : list cell -> cell) :
  setitem (mkFrame cols body) c (map g body)
  = mkFrame (set_label cols c) (map (fun r => set_cell cols c (g r) r) body).
Proof. apply (setitem_computed (mkFrame cols body)). Qed.

Section MapperFacts.

Variables (df : DataFrame) (items : list (string * string)) (i : nat).
Hypothesis Hcode : column_index "CODE" (columns df) = Some i.
Hypothesis Hd : ~ In "DBXREF" (columns df).
Hypothesis Hu : ~ In "ONT_URI" (columns df).
Hypothesis Hrect : rectangular df.
Hypothesis Hnodup : NoDup (columns df).

Lemma joined_index_dbxref :
  column_index "DBXREF" (joined_columns (columns df)) = Some (length (columns df)).
Proof.
  unfold joined_columns. rewrite column_index_app_r.
  - simpl. f_equal. lia.
  - now apply column_index_None.
Qed.

Lemma joined_index_uri :
  column_index "ONT_URI" (joined_columns (columns df))
  = Some (length (columns df) + 1).
Proof.
  unfold joined_columns. rewrite column_index_app_r.
  - reflexivity.
  - now apply column_index_None.
Qed.

Lemma joined_index_code :
  column_index "CODE" (joined_columns (columns df)) = Some i.
Proof. unfold joined_columns. now apply column_index_app_l. Qed.

Lemma length_joined_row (lr : list cell) (kv : string * string) :
  length lr = length (columns df) ->
  length (joined_row lr kv) = length (joined_columns (columns df)).
Proof.
  intros H. unfold joined_row, joined_columns. rewrite !length_app, H. reflexivity.
Qed.

Lemma joined_row_dbxref (lr : list cell) (kv : string * string) :
  length lr = length (columns df) ->
  cell_at (length (columns df)) (joined_row lr kv) = Str (fst kv).
Proof.
  intros H. unfold joined_row. rewrite <- H.
  replace (length lr) with (length lr + 0) by lia.
  now rewrite cell_at_app_r.
Qed.

Lemma joined_row_uri (lr : list cell) (kv : string * string) :
  length lr = length (columns df) ->
  cell_at (length (columns df) + 1) (joined_row lr kv) = Str (snd kv).
Proof.
  intros H. unfold joined_row. rewrite <- H. now rewrite cell_at_app_r.
Qed.

Lemma joined_row_code (lr : list cell) (kv : string * string) :
  length lr = length (columns df) ->
  cell_at i (joined_row lr kv) = cell_at i lr.
Proof.
  intros H. unfold joined_row. apply cell_at_app_l.
  apply column_index_lt in Hcode. lia.
Qed.

Lemma finish_joined_row (lr : list cell) (kv : string * string) :
  length lr = length (columns df) ->
  finish_row (columns df) (joined_row lr kv) = matched_row (columns df) lr kv.
Proof.
  intros H. unfold finish_row, matched_row. cbv zeta.
  rewrite (joined_row_uri lr kv H). simpl text_of.
  destruct (column_index_set_label_ne (joined_columns (columns df)) "ONT" "DBXREF")
    as [_ Hkeep]; [discriminate|].
  rewrite (Hkeep _ _ _ joined_index_dbxref (length_joined_row lr kv H)).
  now rewrite (joined_row_dbxref lr kv H).
Qed.

Lemma joined_rows_shape (r : list cell) :
  r ∈ unique [] (joined_rows i (grouped i (rows df)) items) ->
  exists lr kv, In lr (rows df) /\ In kv items
                /\ cell_at i lr = Str (dbxref_code (fst kv))
                /\ length lr = length (columns df)
                /\ r = joined_row lr kv.
Proof.
  rewrite elem_of_unique_nil, elem_of_joined_rows.
  intros (lr & kv & Hlr & Hkv & Hm & ->). apply In_grouped in Hlr.
  exists lr, kv. repeat split; auto.
  unfold rectangular in Hrect. rewrite List.Forall_forall in Hrect. auto.
Qed.

Lemma dbxref_mapper_frame_value :
  is_empty df = false ->
  dbxref_mapper_frame items df
  = inr (mkFrame (matched_columns (columns df))
                 (unique [] (map (finish_row (columns df))
                                 (unique [] (joined_rows i (grouped i (rows df)) items))))).
Proof.
  intros Hne. unfold dbxref_mapper_frame.
  rewrite (merge_on_code df items i Hcode Hnodup Hd Hu Hne). cbn [rbind].
  set (J := unique [] (joined_rows i (grouped i (rows df)) items)).
  assert (HJ : drop_duplicates
                 (mkFrame (joined_columns (columns df)) (joined_rows i (grouped i (rows df)) items))
               = mkFrame (joined_columns (columns df)) J) by reflexivity.
  rewrite HJ. unfold getitem at 1. cbn [columns rows].
  rewrite joined_index_uri. cbn [rbind].
  rewrite apply_on_text_cells.
  2:{ apply List.Forall_forall. intros x Hx. apply in_map_iff in Hx as (r & <- & Hr).
      apply list_elem_of_In, joined_rows_shape in Hr
        as (lr & kv & _ & _ & _ & Hlen & ->).
      rewrite (joined_row_uri lr kv Hlen). eauto. }
  cbn [rbind]. rewrite map_map.
  rewrite setitem_rows.
  destruct (column_index_set_label_ne (joined_columns (columns df)) "ONT" "DBXREF")
    as [Hidx Hkeep]; [discriminate|].
  unfold getitem at 1. cbn [columns rows].
  rewrite Hidx, joined_index_dbxref. cbn [rbind].
  rewrite apply_on_text_cells.
  2:{ apply List.Forall_forall. intros x Hx. apply in_map_iff in Hx as (r1 & <- & Hr1).
      apply in_map_iff in Hr1 as (r & <- & Hr).
      apply list_elem_of_In, joined_rows_shape in Hr
        as (lr & kv & _ & _ & _ & Hlen & ->).
      rewrite (Hkeep _ _ _ joined_index_dbxref (length_joined_row lr kv Hlen)).
      rewrite (joined_row_dbxref lr kv Hlen). eauto. }
  cbn [rbind]. rewrite map_map.
  rewrite setitem_rows.
  unfold drop_duplicates. cbn [columns rows].
  rewrite map_map. reflexivity.
Qed.

Lemma elem_of_mapper_rows (r' : list cell) :
  r' ∈ unique [] (map (finish_row (columns df))
                      (unique [] (joined_rows i (grouped i (rows df)) items)))
  <-> exists lr kv, In lr (rows df) /\ In kv items
                    /\ cell_at i lr = Str (dbxref_code (fst kv))
                    /\ r' = matched_row (columns df) lr kv.
Proof.
  rewrite elem_of_unique_nil, list_elem_of_In, in_map_iff. split.
  - intros (r & <- & Hr).
    apply list_elem_of_In, joined_rows_shape in Hr
      as (lr & kv & Hlr & Hkv & Hm & Hlen & ->).
    exists lr, kv. repeat split; auto. now apply finish_joined_row.
  - intros (lr & kv & Hlr & Hkv & Hm & ->).
    assert (Hlen : length lr = length (columns df)).
    { unfold rectangular in Hrect. rewrite List.Forall_forall in Hrect. auto. }
    exists (joined_row lr kv). split; [now apply finish_joined_row|].
    apply list_elem_of_In, elem_of_unique_nil, elem_of_joined_rows.
    exists lr, kv. rewrite In_grouped. auto.
Qed.

Lemma dbxref_mapper_frame_empty :
  rows df = [] ->
  dbxref_mapper_frame items df = inr (mkFrame (empty_columns (columns df) i) []).
Proof.
  intros Hnil. unfold dbxref_mapper_frame.
  rewrite (merge_on_code_empty df items i Hcode Hnodup Hd Hu Hnil). cbn [rbind].
  rewrite !drop_duplicates_nil.
  pose proof (key_removed "CODE" (columns df) i Hnodup Hcode) as Hkey.
  set (lcols := remove_nth i (columns df)) in *.
  assert (Hl : forall c, c <> "CODE" -> ~ In c (columns df) ->
                 column_index c lcols = None).
  { intros c _ Hc. apply column_index_None. intros Hin.
    apply Hc. now apply in_remove_nth in Hin. }
  unfold getitem at 1. cbn [columns rows].
  rewrite (column_index_app_r "ONT_URI" lcols) by (apply Hl; [discriminate|exact Hu]).
  cbn [column_index String.eqb Ascii.eqb Bool.eqb option_map map apply rbind].
  rewrite setitem_nil.
  destruct (column_index_set_label_ne (lcols ++ ["DBXREF"; "ONT_URI"; "CODE"])
              "ONT" "DBXREF") as [Hidx _]; [discriminate|].
  unfold getitem at 1. cbn [columns rows]. rewrite Hidx.
  rewrite (column_index_app_r "DBXREF" lcols) by (apply Hl; [discriminate|exact Hd]).
  cbn [column_index String.eqb Ascii.eqb Bool.eqb option_map map apply rbind].
  rewrite setitem_nil. reflexivity.
Qed.

(** What [dbxref_mapper] computes from a table, in one statement. *)
Lemma dbxref_mapper_frame_result :
  exists out,
    dbxref_mapper_frame items df = inr out
    /\ NoDup (rows out)
    /\ (forall r, r ∈ rows out
                  <-> exists lr kv, In lr (rows df) /\ In kv items
                                    /\ cell_at i lr = Str (dbxref_code (fst kv))
                                    /\ r = matched_row (columns df) lr kv)
    /\ (is_empty df = false -> columns out = matched_columns (columns df))
    /\ (is_empty df = true
        -> columns out = empty_columns (columns df) i /\ rows out = []).
Proof.
  destruct (is_empty df) eqn:E.
  - pose proof (is_empty_true df E) as Hnil.
    exists (mkFrame (empty_columns (columns df) i) []).
    split; [now apply dbxref_mapper_frame_empty|]. cbn [columns rows].
    split; [constructor|]. split; [|split; [discriminate|auto]].
    intros r. split; [intros Hr; inversion Hr|].
    intros (lr & kv & Hlr & _). rewrite Hnil in Hlr. destruct Hlr.
  - eexists. split; [now apply dbxref_mapper_frame_value|]. cbn [columns rows].
    split; [apply NoDup_unique|].
    split; [apply elem_of_mapper_rows|]. split; [reflexivity|discriminate].
Qed.


Lemma value_matched_row (out : DataFrame) (lr : list cell) (kv : string * string) :
  columns out = matched_columns (columns df) ->
  length lr = length (columns df) ->
  let r := matched_row (columns df) lr kv in
  value out r "CODE" = Some (cell_at i lr)
  /\ value out r "DBXREF" = Some (Str (fst kv))
  /\ value out r "ONT_URI" = Some (Str (snd kv))
  /\ value out r "ONT" = Some (Str (uri_ontology (snd kv)))
  /\ value out r "EVIDENCE" = Some (Str (dbxref_evidence (fst kv))).
Proof.
  intros Hcols Hlen r. subst r. unfold value. rewrite Hcols.
  unfold matched_columns, matched_row.
  set (cols1 := joined_columns (columns df)).
  set (cols2 := set_label cols1 "ONT").
  set (r0 := joined_row lr kv).
  set (r1 := set_cell cols1 "ONT" (Str (uri_ontology (snd kv))) r0).
  assert (Hr0 : length r0 = length cols1) by now apply length_joined_row.
  assert (Hr1 : length r1 = length cols2) by now apply length_set_cell.
  assert (Hother : forall c k, c <> "ONT" -> c <> "EVIDENCE" ->
            column_index c cols1 = Some k ->
            option_map (fun j => cell_at j (set_cell cols2 "EVIDENCE"
                                     (Str (dbxref_evidence (fst kv))) r1))
                       (column_index c (set_label cols2 "EVIDENCE"))
            = Some (cell_at k r0)).
  { intros c k Hc1 Hc2 Hk.
    destruct (column_index_set_label_ne cols1 "ONT" c Hc1) as [E1 K1].
    destruct (column_index_set_label_ne cols2 "EVIDENCE" c Hc2) as [E2 K2].
    assert (Hk2 : column_index c cols2 = Some k)
      by (unfold cols2; now rewrite E1).
    rewrite E2, Hk2. simpl. f_equal.
    rewrite (K2 k _ _ Hk2 Hr1).
    now apply K1. }
  repeat split.
  - rewrite (Hother "CODE" i); try discriminate; [|apply joined_index_code].
    f_equal. now apply joined_row_code.
  - rewrite (Hother "DBXREF" (length (columns df))); try discriminate;
      [|apply joined_index_dbxref].
    f_equal. now apply joined_row_dbxref.
  - rewrite (Hother "ONT_URI" (length (columns df) + 1)); try discriminate;
      [|apply joined_index_uri].
    f_equal. now apply joined_row_uri.
  - destruct (column_index_set_label_eq cols1 "ONT") as (k & Hk & Hx).
    destruct (column_index_set_label_ne cols2 "EVIDENCE" "ONT") as [E2 K2];
      [discriminate|].
    rewrite E2. fold cols2 in Hk. rewrite Hk. simpl. f_equal.
    rewrite (K2 k _ _ Hk Hr1). now apply Hx.
  - destruct (column_index_set_label_eq cols2 "EVIDENCE") as (k & Hk & Hx).
    rewrite Hk. simpl. f_equal. now apply Hx.
Qed.

End MapperFacts.

(** ** The thesaurus joins on frames *)

Lemma flat_map_map {A B C : Type} (f : B -> list C) (g : A -> B) (l : list A) :
  flat_map f (map g l) = flat_map (fun x => f (g x)) l.
Proof. induction l as [|x l IH]; simpl; [reflexivity|]. now rewrite IH. Qed.

Lemma map_flat_map {A B C : Type} (g : B -> C) (f : A -> list B) (l : list A) :
  map g (flat_map f l) = flat_map (fun x => map g (f x)) l.
Proof.
  induction l as [|x l IH]; simpl; [reflexivity|]. now rewrite map_app, IH.
Qed.

Lemma flat_map_ext_in {A B : Type} (f g : A -> list B) (l : list A) :
  (forall x, In x l -> f x = g x) -> flat_map f l = flat_map g l.
Proof.
  intros H. induction l as [|x l IH]; simpl; [reflexivity|].
  rewrite H by now left. f_equal. apply IH. intros y Hy. apply H. now right.
Qed.

Lemma row_of_three (r : list cell) :
  length r = 3 -> r = [cell_at 0 r; cell_at 1 r; cell_at 2 r].
Proof. destruct r as [|a [|b [|c [|d r]]]]; simpl; intros; try lia. reflexivity. Qed.

Lemma row_of_two (r : list cell) :
  length r = 2 -> r = [cell_at 0 r; cell_at 1 r].
Proof. destruct r as [|a [|b [|c r]]]; simpl; intros; try lia. reflexivity. Qed.

Lemma pair_cells_inj (p q : cell * cell) : pair_cells p = pair_cells q -> p = q.
Proof. destruct p, q. unfold pair_cells. simpl. congruence. Qed.

Lemma enriched_cells_inj (e e' : cell * cell * ConceptRow * cell) :
  enriched_cells e = enriched_cells e' -> e = e'.
Proof.
  destruct e as [[[a b] [[c d] f]] g], e' as [[[a' b'] [[c' d'] f']] g'].
  unfold enriched_cells, concept_id, source_vocab, source_code. simpl. congruence.
Qed.

Lemma first_merge_columns (pk cl : string) :
  pk <> "CUI" -> cl <> "CUI" ->
  column_index "CUI"
    (map (suffixed "_x" ["CUI"; "SAB"; "CODE"]) [pk; cl]
     ++ map (suffixed "_y" [pk; cl]) ["CUI"; "SAB"; "CODE"]) = Some 2.
Proof.
  intros Hpk Hcl.
  assert (Hx : forall c, c <> "CUI" ->
             String.eqb "CUI" (suffixed "_x" ["CUI"; "SAB"; "CODE"] c) = false).
  { intros c Hc. unfold suffixed, has_column. cbn [column_index].
    destruct (String.eqb_spec c "CUI"); [contradiction|].
    destruct (String.eqb_spec c "SAB") as [->|]; [reflexivity|].
    destruct (String.eqb_spec c "CODE") as [->|]; [reflexivity|].
    cbn [option_map]. apply String.eqb_neq. congruence. }
  assert (Hy : suffixed "_y" [pk; cl] "CUI" = "CUI").
  { unfold suffixed, has_column. cbn [column_index].
    destruct (String.eqb_spec "CUI" pk); [congruence|].
    destruct (String.eqb_spec "CUI" cl); [congruence|]. reflexivity. }
  cbn [map app column_index]. rewrite (Hx pk Hpk), (Hx cl Hcl), Hy.
  reflexivity.
Qed.

Section EnricherFacts.

Variables (clinical cui tui : DataFrame) (pk cl : string) (i j : nat).
Hypothesis Hpk : column_index pk (columns clinical) = Some i.
Hypothesis Hcl : column_index cl (columns clinical) = Some j.
Hypothesis Hdistinct : pk <> cl.
Hypothesis Hcode : cl <> "CODE".
Hypothesis Hpk_cui : pk <> "CUI".
Hypothesis Hcl_cui : cl <> "CUI".
Hypothesis Hcui_columns : columns cui = ["CUI"; "SAB"; "CODE"].
Hypothesis Hcui_rows : Forall (fun r => length r = 3) (rows cui).
Hypothesis Htui_columns : columns tui = ["CUI"; "STY"].
Hypothesis Htui_rows : Forall (fun r => length r = 2) (rows tui).

Lemma selected_frame :
  getitem_list clinical [pk; cl]
  = inr (mkFrame [pk; cl] (map pair_cells (key_pairs i j clinical))).
Proof.
  unfold getitem_list, column_indices. rewrite Hpk, Hcl. simpl.
  unfold key_pairs. now rewrite map_map.
Qed.

Lemma concept_join (P : list (cell * cell)) :
  flat_map (fun lr =>
              map (fun rr => lr ++ rr)
                  (List.filter (fun rr => bool_decide (cell_at 2 rr = cell_at 1 lr))
                               (rows cui)))
           (map pair_cells P)
  = map joined_cells (join_concepts P (concept_rows cui)).
Proof.
  unfold join_concepts, concept_rows.
  rewrite flat_map_map, map_flat_map. apply flat_map_ext. intros p.
  rewrite filter_map_comm, !map_map.
  apply map_ext_in. intros rr Hrr. apply filter_In in Hrr as [Hrr _].
  rewrite List.Forall_forall in Hcui_rows.
  rewrite (row_of_three rr (Hcui_rows rr Hrr)) at 1. reflexivity.
Qed.

Lemma semantic_type_join (J : list (cell * cell * ConceptRow)) :
  flat_map (fun row =>
              match List.filter (fun tr => bool_decide (cell_at 0 tr = cell_at 2 row))
                                (rows tui) with
              | [] => [row ++ repeat NaN 1]
              | ps => map (fun tr => row ++ remove_nth 0 tr) ps
              end)
           (map joined_cells J)
  = map enriched_cells (join_semantic_types J (semantic_type_rows tui)).
Proof.
  unfold join_semantic_types, semantic_type_rows.
  rewrite flat_map_map, map_flat_map. apply flat_map_ext. intros pc.
  rewrite filter_map_comm.
  change (fun a : list cell =>
            bool_decide ((cell_at 0 a, cell_at 1 a).1 = concept_id pc.2))
    with (fun tr : list cell =>
            bool_decide (cell_at 0 tr = cell_at 2 (joined_cells pc))).
  assert (Hsub : forall tr,
            In tr (List.filter
                     (fun tr => bool_decide (cell_at 0 tr = cell_at 2 (joined_cells pc)))
                     (rows tui)) -> length tr = 2).
  { intros tr Htr. apply filter_In in Htr as [Htr _].
    rewrite List.Forall_forall in Htui_rows. auto. }
  destruct (List.filter _ (rows tui)) as [|t ts]; [now destruct pc as [[a b] c]|].
  cbn [map]. rewrite !map_map. f_equal.
  - rewrite (row_of_two t) by (apply Hsub; now left).
    now destruct pc as [[a b] c].
  - apply map_ext_in. intros tr Htr.
    rewrite (row_of_two tr) by (apply Hsub; now right).
    now destruct pc as [[a b] c].
Qed.

Lemma selected_key : key_index cl [pk; cl] = inr 1.
Proof.
  unfold key_index. cbn [column_index].
  destruct (String.eqb_spec cl pk); [congruence|].
  now rewrite String.eqb_refl.
Qed.

Lemma first_merge_key :
  key_index "CUI"
    (map (suffixed "_x" ["CUI"; "SAB"; "CODE"]) [pk; cl]
     ++ map (suffixed "_y" [pk; cl]) ["CUI"; "SAB"; "CODE"]) = inr 2.
Proof.
  unfold key_index. rewrite (first_merge_columns pk cl Hpk_cui Hcl_cui).
  cbn [map app skipn has_column column_index].
  assert (Hy : forall c, c <> "CUI" ->
             String.eqb "CUI" (suffixed "_y" [pk; cl] c) = false).
  { intros c Hc. unfold suffixed. apply String.eqb_neq.
    destruct (has_column c [pk; cl]); [|congruence].
    intros Heq.
    destruct c as [|a [|b [|d [|e c]]]]; cbn in Heq; discriminate. }
  unfold has_column. cbn [column_index].
  rewrite (Hy "SAB"), (Hy "CODE") by discriminate. reflexivity.
Qed.

Lemma second_merge (cols1 : list string) (R1 : list (list cell)) :
  key_index "CUI" cols1 = inr 2 -> length cols1 = 5 ->
  exists cols,
    merge (mkFrame cols1 R1) tui Left "CUI" "CUI"
    = inr (mkFrame cols (flat_map (with_semantic_types tui) R1))
    /\ length cols = 6.
Proof.
  intros Hkey Hlen. unfold merge. cbn [columns rows].
  rewrite Htui_columns.
  change (key_index "CUI" ["CUI"; "STY"]) with (@inr exn nat 0).
  cbn [rbind]. rewrite Hkey. cbn [rbind].
  change (String.eqb "CUI" "CUI") with true.
  destruct R1 as [|row R1'].
  - cbn [is_empty rows andb negb flat_map]. eexists. split; [reflexivity|].
    rewrite length_app, !length_map.
    destruct cols1 as [|c1 [|c2 [|c3 [|c4 [|c5 [|c6 cols1]]]]]]; try discriminate.
    reflexivity.
  - cbn [is_empty rows andb negb].
    change (remove_nth 0 ["CUI"; "STY"]) with ["STY"].
    eexists. split; [reflexivity|].
    rewrite length_app, !length_map, Hlen. reflexivity.
Qed.

Lemma first_merge_rows (r : list cell) :
  In r (flat_map (fun lr =>
                    match List.filter
                            (fun rr => bool_decide (cell_at 2 rr = cell_at 1 lr))
                            (rows cui) with
                    | [] => map (fun rr : list cell => lr ++ rr) []
                    | ps => map (fun rr : list cell => lr ++ rr) ps
                    end)
                 (grouped 1 (map pair_cells (unique [] (key_pairs i j clinical)))))
  <-> In r (map joined_cells
              (join_concepts (distinct_pairs (key_pairs i j clinical))
                             (concept_rows cui))).
Proof.
  rewrite <- concept_join. rewrite !in_flat_map. split.
  - intros (lr & Hlr & Hr). apply In_grouped in Hlr. exists lr.
    split; [exact Hlr|]. now rewrite inner_partners in Hr.
  - intros (lr & Hlr & Hr). exists lr. rewrite In_grouped.
    split; [exact Hlr|]. now rewrite inner_partners.
Qed.

Lemma umls_cui_annotator_frame_value :
  exists body,
    umls_cui_annotator_frame clinical cui tui pk cl
    = inr (mkFrame [pk; cl; "UMLS_CUI"; "UMLS_SAB"; "UMLS_CODE"; "UMLS_SEM_TYPE"]
                   body)
    /\ NoDup body
    /\ forall r,
         r ∈ body
         <-> r ∈ map enriched_cells
                   (annotate_with_thesaurus (key_pairs i j clinical)
                      (concept_rows cui) (semantic_type_rows tui)).
Proof.
  unfold umls_cui_annotator_frame. rewrite selected_frame. cbn [rbind].
  unfold drop_duplicates at 1. cbn [columns rows].
  rewrite (unique_map pair_cells [] (key_pairs i j clinical) pair_cells_inj).
  (* first merge *)
  unfold merge at 1. cbn [columns rows].
  rewrite Hcui_columns.
  change (key_index "CODE" ["CUI"; "SAB"; "CODE"]) with (@inr exn nat 2).
  cbn [rbind]. rewrite selected_key. cbn [rbind].
  destruct (String.eqb_spec cl "CODE") as [|_]; [contradiction|].
  cbn [andb].
  match goal with
  | |- context [mkFrame _ (flat_map ?f ?l)] => set (R1 := flat_map f l)
  end.
  assert (HR1 : forall r, In r R1
                  <-> In r (map joined_cells
                              (join_concepts (distinct_pairs (key_pairs i j clinical))
                                             (concept_rows cui))))
    by apply first_merge_rows.
  clearbody R1. cbn [rbind].
  (* second merge *)
  destruct (second_merge _ R1 first_merge_key) as (cols & -> & Hcols).
  { rewrite length_app, !length_map. reflexivity. }
  cbn [rbind]. unfold drop_duplicates, set_columns. cbn [columns rows].
  rewrite Hcols. cbn [length Nat.eqb].
  eexists. split; [reflexivity|]. split; [apply NoDup_unique|].
  intros r. rewrite elem_of_unique_nil. unfold annotate_with_thesaurus.
  rewrite <- (unique_map enriched_cells [] _ enriched_cells_inj).
  rewrite elem_of_unique_nil, <- semantic_type_join.
  rewrite !list_elem_of_In, !in_flat_map. split.
  - intros (row & Hrow & Hr). exists row. split; [now apply HR1|exact Hr].
  - intros (row & Hrow & Hr). exists row. split; [now apply HR1|exact Hr].
Qed.

End EnricherFacts.

(** ** Runs *)

Lemma bind_ok {A B : Type} (m : M A) (k : A -> M B) (st : state) (b : B) :
  fst ((m ≫= k) st) = inr b ->
  exists a, fst (m st) = inr a
            /\ fst (k a (snd (m st))) = inr b
            /\ snd ((m ≫= k) st) = snd (k a (snd (m st))).
Proof.
  unfold mbind, M_bind. destruct (m st) as [[e|a] st1]; simpl; [discriminate|].
  eauto.
Qed.

Lemma setattr_run (name : string) (v : object) (st : state) :
  setattr name v st = (inr tt, mkState (<[name := v]> (self st)) (heap st)).
Proof. reflexivity. Qed.

Lemma raises_bind_l {A B : Type} (m : M A) (k : A -> M B) (st : state) :
  raises m st -> raises (m ≫= k) st.
Proof.
  intros [e He]. exists e. unfold mbind, M_bind.
  destruct (m st) as [[e'|a] st1]; simpl in *; congruence.
Qed.

Lemma raises_bind_r {A B : Type} (m : M A) (k : A -> M B) (st : state) :
  (forall a, fst (m st) = inr a -> raises (k a) (snd (m st))) ->
  raises (m ≫= k) st.
Proof.
  intros Hk. unfold raises, mbind, M_bind in *.
  destruct (m st) as [[e|a] st1]; simpl in *; [eauto|]. now apply Hk.
Qed.

(** ** Which exceptions a computation can raise *)

Section RaisesOnly.

Variable P : exn -> Prop.

Lemma raises_only_ret {A : Type} (a : A) : raises_only P (mret a).
Proof. intros st e. discriminate. Qed.

Lemma raises_only_raise {A : Type} (e : exn) : P e -> raises_only P (@raise A e).
Proof. intros He st e' [= <-]. exact He. Qed.

Lemma raises_only_lift {A : Type} (r : result A) :
  (forall e, r = inl e -> P e) -> raises_only P (lift r).
Proof. intros Hr st e. simpl. apply Hr. Qed.

Lemma raises_only_bind {A B : Type} (m : M A) (k : A -> M B) :
  raises_only P m -> (forall a, raises_only P (k a)) -> raises_only P (m ≫= k).
Proof.
  intros Hm Hk st e. unfold mbind, M_bind.
  pose proof (Hm st) as Hm'.
  destruct (m st) as [[e'|a] st1]; simpl in *.
  - intros [= <-]. now apply Hm'.
  - apply Hk.
Qed.

Lemma raises_only_at {A : Type} (f : state -> M A) :
  (forall st', raises_only P (f st')) -> raises_only P (fun st => f st st).
Proof. intros Hf st e. apply Hf. Qed.

Lemma raises_only_new_frame (df : DataFrame) : raises_only P (new_frame df).
Proof. intros st e. discriminate. Qed.

Lemma raises_only_store_frame (l : loc) (df : DataFrame) :
  raises_only P (store_frame l df).
Proof. intros st e. discriminate. Qed.

End RaisesOnly.

Lemma column_indices_error (cs cols : list string) (e : exn) :
  Pandas.column_indices cs cols = inl e -> runtime_error e.
Proof.
  induction cs as [|c cs IH]; simpl; [discriminate|].
  destruct (Pandas.column_index c cols); [|now intros [= <-]].
  destruct (Pandas.column_indices cs cols); simpl; [|discriminate].
  intros [= <-]. now apply IH.
Qed.

Lemma getitem_list_error (df : DataFrame) (cs : list string) (e : exn) :
  Pandas.getitem_list df cs = inl e -> runtime_error e.
Proof.
  unfold Pandas.getitem_list.
  destruct (Pandas.column_indices cs (columns df)) eqn:E; simpl; [|discriminate].
  intros [= <-]. now apply column_indices_error in E.
Qed.

Lemma key_index_error (k : string) (cols : list string) (e : exn) :
  Pandas.key_index k cols = inl e -> runtime_error e.
Proof.
  unfold Pandas.key_index.
  destruct (Pandas.column_index k cols) as [i|]; [|now intros [= <-]].
  destruct (Pandas.has_column k (skipn (S i) cols)); [|discriminate].
  now intros [= <-].
Qed.

Lemma merge_error (left right : DataFrame) (h : Pandas.how) (lk rk : string)
    (e : exn) :
  Pandas.merge left right h lk rk = inl e -> runtime_error e.
Proof.
  unfold Pandas.merge.
  destruct (Pandas.key_index rk (columns right)) as [e'|j] eqn:Er; cbn [rbind].
  - intros [= <-]. now apply key_index_error in Er.
  - destruct (Pandas.key_index lk (columns left)) as [e'|i] eqn:El; cbn [rbind];
      [|discriminate].
    intros [= <-]. now apply key_index_error in El.
Qed.

Lemma set_columns_error (df : DataFrame) (names : list string) (e : exn) :
  Pandas.set_columns df names = inl e -> runtime_error e.
Proof.
  unfold Pandas.set_columns. destruct (Nat.eqb _ _); [discriminate|].
  now intros [= <-].
Qed.

Lemma raises_only_getattr (name : string) : raises_only runtime_error (getattr name).
Proof.
  intros st e. unfold getattr. destruct (self st !! name); simpl; [discriminate|].
  now intros [= <-].
Qed.

Lemma raises_only_receiver (method : string) (v : object) :
  raises_only runtime_error (receiver method v).
Proof.
  intros st e. destruct v; simpl; [|discriminate]. now intros [= <-].
Qed.

Lemma raises_only_subscripted (v : object) :
  raises_only runtime_error (subscripted v).
Proof.
  intros st e. destruct v; simpl; [|discriminate]. now intros [= <-].
Qed.

Lemma raises_only_df_getitem_list (v : object) (cs : list string) :
  raises_only runtime_error (df_getitem_list v cs).
Proof.
  unfold df_getitem_list.
  apply raises_only_bind; [apply raises_only_subscripted|]. intros df.
  apply raises_only_bind; [|intros out; apply raises_only_new_frame].
  apply raises_only_lift. apply getitem_list_error.
Qed.

Lemma raises_only_df_drop_duplicates (v : object) :
  raises_only runtime_error (df_drop_duplicates v).
Proof.
  unfold df_drop_duplicates.
  apply raises_only_bind; [apply raises_only_receiver|]. intros df.
  apply raises_only_new_frame.
Qed.

Lemma raises_only_df_merge (left right : object) (h : Pandas.how) (lk rk : string) :
  raises_only runtime_error (df_merge left right h lk rk).
Proof.
  unfold df_merge.
  apply raises_only_bind; [apply raises_only_receiver|]. intros ldf.
  destruct right as [p|r]; [now apply raises_only_raise|].
  apply (raises_only_at runtime_error
           (fun st' => out ← lift (Pandas.merge ldf (deref (heap st') r) h lk rk);
                       new_frame out)).
  intros st'.
  apply raises_only_bind; [|intros out; apply raises_only_new_frame].
  apply raises_only_lift. apply merge_error.
Qed.

Lemma raises_only_df_set_columns (v : object) (names : list string) :
  raises_only runtime_error (df_set_columns v names).
Proof.
  destruct v as [p|l]; simpl; [now apply raises_only_raise|].
  apply (raises_only_at runtime_error
           (fun st' => df ← lift (Pandas.set_columns (deref (heap st') l) names);
                       store_frame l df)).
  intros st'.
  apply raises_only_bind; [|intros out; apply raises_only_store_frame].
  apply raises_only_lift. apply set_columns_error.
Qed.

Lemma raises_only_umls_cui_annotator (pk cl : string) :
  raises_only runtime_error (umls_cui_annotator pk cl).
Proof.
  unfold umls_cui_annotator.
  apply raises_only_bind; [apply raises_only_getattr|]. intros clinical.
  apply raises_only_bind; [apply raises_only_df_getitem_list|]. intros selected.
  apply raises_only_bind; [apply raises_only_df_drop_duplicates|]. intros ids.
  apply raises_only_bind; [apply raises_only_getattr|]. intros cui.
  apply raises_only_bind; [apply raises_only_df_merge|]. intros umls_cui.
  apply raises_only_bind; [apply raises_only_getattr|]. intros tui.
  apply raises_only_bind; [apply raises_only_df_merge|]. intros merged.
  apply raises_only_bind; [apply raises_only_df_drop_duplicates|]. intros final.
  apply raises_only_bind; [apply raises_only_df_set_columns|]. intros _.
  apply raises_only_ret.
Qed.

Lemma raises_bind_keeps {A B : Type} (P : A -> Prop) (m : M A) (k : A -> M B)
    (st : state) :
  keeps 0 P m ->
  (forall a st1, self st1 = self st -> raises (k a) st1) ->
  raises (m ≫= k) st.
Proof.
  intros Hm Hk. apply raises_bind_r. intros a _. apply Hk.
  now destruct (Hm st (Nat.le_0_l _)) as (Hs & _).
Qed.

Lemma raises_getattr_none {B : Type} (name : string) (k : object -> M B)
    (st : state) :
  self st !! name = None -> raises (getattr name ≫= k) st.
Proof.
  intros Hn. apply raises_bind_l. unfold raises, getattr. rewrite Hn. eauto.
Qed.

Lemma raises_getattr_some {B : Type} (name : string) (v : object)
    (k : object -> M B) (st : state) :
  self st !! name = Some v -> raises (k v) st -> raises (getattr name ≫= k) st.
Proof.
  intros Hn Hk. unfold raises, mbind, M_bind, getattr in *. now rewrite Hn.
Qed.

Lemma raises_merge_plain {B : Type} (left : object) (p : pyval) (h : Pandas.how)
    (lk rk : string) (k : object -> M B) (st : state) :
  raises (df_merge left (Plain p) h lk rk ≫= k) st.
Proof.
  apply raises_bind_l. unfold df_merge. apply raises_bind_r. intros ldf _.
  unfold raises, raise. simpl. eauto.
Qed.

Lemma umls_cui_annotator_raises (st : state) (pk cl : string) :
  self st !! "umls_cui_data" = None
  \/ (exists p, self st !! "umls_tui_data" = Some (Plain p)) ->
  raises (umls_cui_annotator pk cl) st.
Proof.
  intros Hmissing. unfold umls_cui_annotator.
  apply (raises_bind_keeps anything); [apply keeps_getattr|].
  intros clinical s1 E1.
  apply (raises_bind_keeps (fresh_from 0)); [apply keeps_df_getitem_list|].
  intros selected s2 E2.
  apply (raises_bind_keeps (fresh_from 0)); [apply keeps_df_drop_duplicates|].
  intros ids s3 E3.
  destruct (self s3 !! "umls_cui_data") as [cui|] eqn:Ecui;
    [|now apply raises_getattr_none].
  apply (raises_getattr_some _ cui); [exact Ecui|].
  apply (raises_bind_keeps (fresh_from 0)); [apply keeps_df_merge|].
  intros umls_cui s4 E4.
  destruct Hmissing as [Hnone|[p Hp]]; [congruence|].
  apply (raises_getattr_some _ (Plain p)); [congruence|].
  apply raises_merge_plain.
Qed.

(** ** More frame rules *)

Section MoreFrameRules.

Variable n : nat.

Lemma keeps_df_astype_str (v : object) :
  keeps n (fresh_from n) (df_astype_str v).
Proof.
  unfold df_astype_str.
  eapply keeps_bind; [apply keeps_receiver|]. intros df _.
  apply keeps_new_frame.
Qed.

Lemma keeps_pd_read_csv (env : Env) (f sep : string) :
  keeps n (fresh_from n) (pd_read_csv env f sep).
Proof.
  unfold pd_read_csv.
  eapply keeps_bind; [apply keeps_lift|]. intros df _. apply keeps_new_frame.
Qed.

Lemma keeps_pd_read_csv_names (env : Env) (f sep : string) (names : list string)
    (usecols : list nat) :
  keeps n (fresh_from n) (pd_read_csv_names env f sep names usecols).
Proof.
  unfold pd_read_csv_names.
  eapply keeps_bind; [apply keeps_lift|]. intros df _. apply keeps_new_frame.
Qed.

Lemma keeps_load_clinical (env : Env) (f : string) :
  keeps n (fresh_from n) (load_clinical env f).
Proof.
  assert (Hread : forall sep,
            keeps n (fresh_from n) (raw ← pd_read_csv env f sep; df_astype_str raw)).
  { intros sep. eapply keeps_bind; [apply keeps_pd_read_csv|]. intros raw _.
    apply keeps_df_astype_str. }
  intros st Hn. unfold load_clinical.
  destruct (Hread "," st Hn) as (Hs & Hh & Hl & HP).
  destruct ((raw ← pd_read_csv env f ","; df_astype_str raw) st)
    as [[e|v] st1] eqn:E; simpl in *.
  - destruct e; simpl; try (repeat split; auto; discriminate).
    destruct (Hread tab st1 Hl) as (Hs' & Hh' & Hl' & HP').
    repeat split; auto; congruence.
  - repeat split; auto.
Qed.

End MoreFrameRules.

(** ** What a computation leaves in place *)

Section Retains.

Variable name : string.

Lemma retains_keeps {A : Type} (P : nat -> A -> Prop) (m : M A) :
  (forall n, keeps n (P n) m) -> retains name m.
Proof.
  intros Hm st. destruct (keeps_unchanged (P _) m st (Hm _)) as [Hs Hh].
  split; [now rewrite Hs | exact Hh].
Qed.

Lemma retains_raise {A : Type} (e : exn) : retains name (@raise A e).
Proof. intros st. split; auto. Qed.

Lemma retains_setattr (attr : string) (v : object) :
  name <> attr -> retains name (setattr attr v).
Proof.
  intros Hne st. split; [|auto]. simpl. apply lookup_insert_ne. congruence.
Qed.

Lemma retains_bind {A B : Type} (m : M A) (k : A -> M B) :
  retains name m -> (forall a, retains name (k a)) -> retains name (m ≫= k).
Proof.
  intros Hm Hk st. unfold mbind, M_bind.
  destruct (Hm st) as [Hs Hh].
  destruct (m st) as [[e|a] st1]; simpl in *; [auto|].
  destruct (Hk a st1) as [Hs' Hh']. split; [congruence|auto].
Qed.

Lemma retains_optional_list (attr : string) (v : pyval) :
  name <> attr -> retains name (optional_list attr v).
Proof.
  intros Hne. unfold optional_list.
  destruct (negb (truthy v)); [now apply retains_setattr|].
  destruct v; try apply retains_raise. now apply retains_setattr.
Qed.

Variable env : Env.

Lemma retains_check_clinical_file (a : Args) :
  name <> "clinical_data" -> retains name (check_clinical_file env a).
Proof.
  intros Hne. unfold check_clinical_file.
  destruct (clinical_file a) as [| |f| |]; try apply retains_raise.
  destruct (negb (path_exists env f)); [apply retains_raise|].
  destruct (Nat.eqb (st_size env f) 0); [apply retains_raise|].
  apply retains_bind.
  - apply (retains_keeps fresh_from). intros n. apply keeps_load_clinical.
  - intros df. now apply retains_setattr.
Qed.

Lemma retains_check_primary_key (a : Args) :
  name <> "primary_key" -> retains name (check_primary_key a).
Proof.
  intros Hne. unfold check_primary_key.
  destruct (primary_key a); try apply retains_raise. now apply retains_setattr.
Qed.

Lemma retains_check_concept_codes (a : Args) :
  name <> "concept_codes" -> retains name (check_concept_codes a).
Proof.
  intros Hne. unfold check_concept_codes.
  destruct (concept_codes a); try apply retains_raise. now apply retains_setattr.
Qed.

Lemma retains_check_ontology_dictionary (a : Args) :
  name <> "ontology_dictionary" -> retains name (check_ontology_dictionary a).
Proof.
  intros Hne. unfold check_ontology_dictionary.
  destruct (ontology_dictionary a); try apply retains_raise.
  now apply retains_setattr.
Qed.

Lemma retains_read_names (f sep : string) (names : list string) (usecols : list nat)
    {B : Type} (k : object -> M B) :
  (forall v, retains name (k v)) ->
  retains name (pd_read_csv_names env f sep names usecols ≫= k).
Proof.
  intros Hk. apply retains_bind; [|exact Hk].
  apply (retains_keeps fresh_from). intros n. apply keeps_pd_read_csv_names.
Qed.

Lemma retains_drop_duplicates (v : object) {B : Type} (k : object -> M B) :
  (forall w, retains name (k w)) -> retains name (df_drop_duplicates v ≫= k).
Proof.
  intros Hk. apply retains_bind; [|exact Hk].
  apply (retains_keeps fresh_from). intros n. apply keeps_df_drop_duplicates.
Qed.

Lemma retains_astype_str (v : object) {B : Type} (k : object -> M B) :
  (forall w, retains name (k w)) -> retains name (df_astype_str v ≫= k).
Proof.
  intros Hk. apply retains_bind; [|exact Hk].
  apply (retains_keeps fresh_from). intros n. apply keeps_df_astype_str.
Qed.

Lemma retains_load_mrsty (a : Args) :
  name <> "umls_tui_data" -> retains name (load_mrsty env a).
Proof.
  intros Hne. unfold load_mrsty.
  destruct (negb (truthy (umls_mrsty_file a))); [now apply retains_setattr|].
  destruct (umls_mrsty_file a) as [| |f| |]; try apply retains_raise.
  destruct (negb (path_exists env f)); [apply retains_raise|].
  destruct (Nat.eqb (st_size env f) 0); [apply retains_raise|].
  apply retains_read_names. intros raw.
  apply retains_drop_duplicates. intros distinct.
  apply retains_astype_str. intros text.
  now apply retains_setattr.
Qed.

Lemma retains_load_mrconso_absent (a : Args) :
  truthy (umls_mrconso_file a) = false ->
  name <> "umls_data" -> retains name (load_mrconso env a).
Proof.
  intros Hfalsy Hne. unfold load_mrconso. rewrite Hfalsy. simpl.
  now apply retains_setattr.
Qed.

End Retains.

(** ** Facts about dictionaries *)

Section DictFacts.






End DictFacts.

(** ** Facts about the flattener *)

Module FlattenerFacts.
Import Flattener.

Lemma lookup_union_entries (a b : AnnotationMap) (text : string) :
  union_entries a b !! text
  = match a !! text, b !! text with
    | Some x, Some y => Some (x ∪ y)
    | Some x, None => Some x
    | None, other => other
    end.
Proof.
  unfold union_entries. rewrite lookup_union_with.
  now destruct (a !! text), (b !! text).
Qed.

Lemma union_entries_is_Some (a b : AnnotationMap) (text : string) :
  is_Some (union_entries a b !! text) <-> is_Some (a !! text) \/ is_Some (b !! text).
Proof.
  rewrite lookup_union_entries.
  destruct (a !! text), (b !! text); split; intros H; eauto;
    destruct H as [[x Hx]|[x Hx]]; discriminate.
Qed.

Lemma union_entries_keeps (a b : AnnotationMap) (text uri : string) :
  keeps_uri (union_entries a b) text uri
  <-> keeps_uri a text uri \/ keeps_uri b text uri.
Proof.
  unfold keeps_uri. rewrite lookup_union_entries.
  destruct (a !! text) as [x|], (b !! text) as [y|]; split.
  - intros (u & [= <-] & Hu). apply elem_of_union in Hu as [Hu|Hu]; eauto.
  - intros [(u & [= <-] & Hu)|(u & [= <-] & Hu)]; eexists; split; eauto;
      set_solver.
  - intros (u & [= <-] & Hu). eauto.
  - intros [H|(u & Hn & _)]; [exact H|discriminate].
  - intros (u & [= <-] & Hu). eauto.
  - intros [(u & Hn & _)|H]; [discriminate|exact H].
  - intros (u & Hn & _). discriminate.
  - intros [(u & Hn & _)|(u & Hn & _)]; discriminate.
Qed.

Lemma combine_from_nil (acc : AnnotationMap) (ty : string) :
  combine_from acc [] ty = acc.
Proof. reflexivity. Qed.

Lemma combine_from_cons (acc : AnnotationMap) (o : string * OntologyRecord)
    (d : OntologyDictionary) (ty : string) :
  combine_from acc (o :: d) ty
  = combine_from (union_entries acc (sub_mapping ty o)) d ty.
Proof. reflexivity. Qed.

Lemma combine_from_is_Some (d : OntologyDictionary) (ty : string)
    (acc : AnnotationMap) (text : string) :
  is_Some (combine_from acc d ty !! text)
  <-> is_Some (acc !! text)
      \/ exists o, o ∈ d /\ is_Some (sub_mapping ty o !! text).
Proof.
  revert acc. induction d as [|o d IH]; intros acc.
  - rewrite combine_from_nil. split; [auto|].
    intros [H|(o & Ho & _)]; [exact H|]. inversion Ho.
  - rewrite combine_from_cons, IH, union_entries_is_Some. split.
    + intros [[H|H]|(o' & Ho' & H)]; [auto| |].
      * right. exists o. split; [left|exact H].
      * right. exists o'. split; [now right|exact H].
    + intros [H|(o' & Ho' & H)]; [auto|].
      apply elem_of_cons in Ho' as [->|Ho']; [auto|].
      right. eauto.
Qed.

Lemma combine_from_keeps (d : OntologyDictionary) (ty : string)
    (acc : AnnotationMap) (text uri : string) :
  keeps_uri (combine_from acc d ty) text uri
  <-> keeps_uri acc text uri
      \/ exists o, o ∈ d /\ keeps_uri (sub_mapping ty o) text uri.
Proof.
  revert acc. induction d as [|o d IH]; intros acc.
  - rewrite combine_from_nil. split; [auto|].
    intros [H|(o & Ho & _)]; [exact H|]. inversion Ho.
  - rewrite combine_from_cons, IH, union_entries_keeps. split.
    + intros [[H|H]|(o' & Ho' & H)]; [auto| |].
      * right. exists o. split; [left|exact H].
      * right. exists o'. split; [now right|exact H].
    + intros [H|(o' & Ho' & H)]; [auto|].
      apply elem_of_cons in Ho' as [->|Ho']; [auto|].
      right. eauto.
Qed.

Lemma annotation_map_eq (m1 m2 : AnnotationMap) :
  (forall text, is_Some (m1 !! text) <-> is_Some (m2 !! text)) ->
  (forall text uri, keeps_uri m1 text uri <-> keeps_uri m2 text uri) ->
  m1 = m2.
Proof.
  intros Hdom Hkeeps. apply map_eq. intros text.
  specialize (Hdom text). pose proof (Hkeeps text) as Hk. unfold keeps_uri in Hk.
  destruct (m1 !! text) as [x|], (m2 !! text) as [y|].
  - f_equal. apply set_eq. intros uri. split; intros Hu.
    + destruct (proj1 (Hk uri)) as (u & [= <-] & Hu'); eauto.
    + destruct (proj2 (Hk uri)) as (u & [= <-] & Hu'); eauto.
  - destruct (proj1 Hdom) as [z Hz]; [eauto|discriminate].
  - destruct (proj2 Hdom) as [z Hz]; [eauto|discriminate].
  - reflexivity.
Qed.

Lemma combine_all_is_Some (d : OntologyDictionary) (ty text : string) :
  is_Some (combine_all d ty !! text)
  <-> exists o, o ∈ d /\ is_Some (sub_mapping ty o !! text).
Proof.
  change (combine_all d ty) with (combine_from ∅ d ty).
  rewrite combine_from_is_Some, lookup_empty. split; [|auto].
  intros [[x Hx]|H]; [discriminate|exact H].
Qed.

Lemma combine_all_keeps (d : OntologyDictionary) (ty text uri : string) :
  keeps_uri (combine_all d ty) text uri
  <-> exists o, o ∈ d /\ keeps_uri (sub_mapping ty o) text uri.
Proof.
  change (combine_all d ty) with (combine_from ∅ d ty).
  rewrite combine_from_keeps. split; [|auto].
  intros [(u & Hu & _)|H]; [|exact H]. rewrite lookup_empty in Hu. discriminate.
Qed.

Lemma combine_all_same (d d' : OntologyDictionary) (ty : string) :
  (forall o, o ∈ d <-> o ∈ d') -> combine_all d ty = combine_all d' ty.
Proof.
  intros Hsame. apply annotation_map_eq.
  - intros text. rewrite !combine_all_is_Some.
    split; intros (o & Ho & H); exists o; (split; [now apply Hsame|exact H]).
  - intros text uri. rewrite !combine_all_keeps.
    split; intros (o & Ho & H); exists o; (split; [now apply Hsame|exact H]).
Qed.

Lemma has_type_same (d d' : OntologyDictionary) (ty : string) :
  (forall o, o ∈ d <-> o ∈ d') ->
  existsb (has_type ty) d = existsb (has_type ty) d'.
Proof.
  intros Hsame. apply eq_true_iff_eq. rewrite !existsb_exists.
  split; intros (o & Ho & H); exists o;
    (split; [now apply list_elem_of_In, Hsame, list_elem_of_In|exact H]).
Qed.

Lemma flatten_same (d d' : OntologyDictionary) (ty : string) :
  (forall o, o ∈ d <-> o ∈ d') -> flatten d ty = flatten d' ty.
Proof.
  intros Hsame. unfold flatten.
  now rewrite (has_type_same d d' ty Hsame), (combine_all_same d d' ty Hsame).
Qed.

Lemma flatten_single (name ty : string) (m : AnnotationMap) :
  flatten [(name, {[ty := m]})] ty = inr m.
Proof.
  unfold flatten, has_type, combine_all, sub_mapping. simpl.
  rewrite lookup_singleton_eq. simpl. f_equal.
  apply map_eq. intros text. rewrite lookup_union_entries, lookup_empty.
  now destruct (m !! text).
Qed.

End FlattenerFacts.

(** ** Running the methods on the store *)

#[local] Arguments df_set_columns : simpl never.
#[local] Arguments df_setitem : simpl never.
#[local] Arguments df_merge : simpl never.
#[local] Arguments df_getitem : simpl never.
#[local] Arguments df_getitem_list : simpl never.
#[local] Arguments df_drop_duplicates : simpl never.

Lemma deref_old (h k : list DataFrame) (l : loc) :
  l < length h -> deref (h ++ k) l = deref h l.
Proof. intros Hl. unfold deref. now rewrite lookup_app_l. Qed.

Lemma deref_new (h : list DataFrame) (df : DataFrame) (k : list DataFrame) :
  deref (h ++ df :: k) (length h) = df.
Proof. unfold deref. now rewrite list_lookup_middle. Qed.

Lemma deref_fresh (h k : list DataFrame) (i : nat) :
  deref (h ++ k) (length h + i) = deref k i.
Proof. unfold deref. rewrite lookup_app_r by lia. do 2 f_equal. lia. Qed.

Lemma store_fresh (h k : list DataFrame) (i : nat) (df : DataFrame) :
  <[length h + i := df]> (h ++ k) = h ++ <[i := df]> k.
Proof. apply insert_app_r. Qed.

Lemma store_new (h : list DataFrame) (df df' : DataFrame) :
  <[length h := df']> (h ++ [df]) = h ++ [df'].
Proof.
  rewrite insert_app_r_alt by lia. now rewrite Nat.sub_diag.
Qed.

Lemma bind_inr {A B : Type} (m : M A) (k : A -> M B) (st st' : state) (a : A) :
  m st = (inr a, st') -> (m ≫= k) st = k a st'.
Proof. intros H. unfold mbind, M_bind. now rewrite H. Qed.

Lemma bind_inl {A B : Type} (m : M A) (k : A -> M B) (st st' : state) (e : exn) :
  m st = (inl e, st') -> (m ≫= k) st = (inl e, st').
Proof. intros H. unfold mbind, M_bind. now rewrite H. Qed.

Lemma bind_run {A B : Type} (m : M A) (k : A -> M B) (st : state) :
  (m ≫= k) st
  = match m st with
    | (inl e, st') => (inl e, st')
    | (inr a, st') => k a st'
    end.
Proof. reflexivity. Qed.

Lemma lift_run {A : Type} (r : result A) (st : state) : lift r st = (r, st).
Proof. reflexivity. Qed.

Lemma new_frame_run (df : DataFrame) (st : state) :
  new_frame df st
  = (inr (Frame (length (heap st))), mkState (self st) (heap st ++ [df])).
Proof. reflexivity. Qed.

Lemma getattr_run (s : gmap string object) (h : list DataFrame) (name : string)
    (v : object) :
  s !! name = Some v -> getattr name (mkState s h) = (inr v, mkState s h).
Proof. intros H. unfold getattr. simpl. now rewrite H. Qed.

Lemma df_getitem_list_run (st : state) (l : loc) (cs : list string) :
  df_getitem_list (Frame l) cs st
  = match Pandas.getitem_list (deref (heap st) l) cs with
    | inl e => (inl e, st)
    | inr out => (inr (Frame (length (heap st))),
                  mkState (self st) (heap st ++ [out]))
    end.
Proof.
  unfold df_getitem_list. rewrite bind_run. simpl. rewrite bind_run.
  unfold lift. now destruct (Pandas.getitem_list _ _).
Qed.

Lemma df_getitem_run (st : state) (l : loc) (c : string) :
  df_getitem (Frame l) c st = (Pandas.getitem (deref (heap st) l) c, st).
Proof. unfold df_getitem. rewrite bind_run. reflexivity. Qed.

Lemma df_setitem_run (st : state) (l : loc) (c : string) (s : list cell) :
  df_setitem (Frame l) c s st
  = (inr tt, mkState (self st)
                     (<[l := Pandas.setitem (deref (heap st) l) c s]> (heap st))).
Proof. reflexivity. Qed.

Lemma df_drop_duplicates_run (st : state) (l : loc) :
  df_drop_duplicates (Frame l) st
  = (inr (Frame (length (heap st))),
     mkState (self st) (heap st ++ [Pandas.drop_duplicates (deref (heap st) l)])).
Proof. reflexivity. Qed.

Lemma df_astype_str_run (st : state) (l : loc) :
  df_astype_str (Frame l) st
  = (inr (Frame (length (heap st))),
     mkState (self st) (heap st ++ [Pandas.astype_str (deref (heap st) l)])).
Proof. reflexivity. Qed.

Lemma df_filter_ne_run (st : state) (l : loc) (c text : string) :
  df_filter_ne (Frame l) c text st
  = match Pandas.filter_ne (deref (heap st) l) c text with
    | inl e => (inl e, st)
    | inr out => (inr (Frame (length (heap st))),
                  mkState (self st) (heap st ++ [out]))
    end.
Proof.
  unfold df_filter_ne. rewrite bind_run. simpl. rewrite bind_run.
  unfold lift. now destruct (Pandas.filter_ne _ _ _).
Qed.

Lemma df_merge_run (st : state) (l r : loc) (h : Pandas.how) (lk rk : string) :
  df_merge (Frame l) (Frame r) h lk rk st
  = match Pandas.merge (deref (heap st) l) (deref (heap st) r) h lk rk with
    | inl e => (inl e, st)
    | inr out => (inr (Frame (length (heap st))),
                  mkState (self st) (heap st ++ [out]))
    end.
Proof.
  unfold df_merge. rewrite bind_run. simpl. rewrite bind_run.
  unfold lift. now destruct (Pandas.merge _ _ _ _ _).
Qed.

Lemma df_set_columns_run (st : state) (l : loc) (names : list string) :
  df_set_columns (Frame l) names st
  = match Pandas.set_columns (deref (heap st) l) names with
    | inl e => (inl e, st)
    | inr df => (inr tt, mkState (self st) (<[l := df]> (heap st)))
    end.
Proof.
  unfold df_set_columns. rewrite bind_run.
  unfold lift. now destruct (Pandas.set_columns _ _).
Qed.

Lemma deref_head (df : DataFrame) (k : list DataFrame) : deref (df :: k) 0 = df.
Proof. reflexivity. Qed.

Lemma deref_tail (df : DataFrame) (k : list DataFrame) (i : nat) :
  deref (df :: k) (S i) = deref k i.
Proof. reflexivity. Qed.

Ltac heap_norm :=
  repeat first
    [ rewrite <- app_assoc
    | rewrite length_app
    | rewrite deref_new
    | rewrite deref_fresh
    | rewrite deref_head
    | rewrite deref_tail
    | progress simpl ].

Lemma umls_cui_annotator_run (st : state) (pk cl : string) (lc lu lt : loc) :
  self st !! "clinical_data" = Some (Frame lc) ->
  self st !! "umls_cui_data" = Some (Frame lu) ->
  self st !! "umls_tui_data" = Some (Frame lt) ->
  lu < length (heap st) -> lt < length (heap st) ->
  match umls_cui_annotator_frame (deref (heap st) lc) (deref (heap st) lu)
          (deref (heap st) lt) pk cl with
  | inl e => fst (umls_cui_annotator pk cl st) = inl e
  | inr out =>
      exists l, fst (umls_cui_annotator pk cl st) = inr (Frame l)
                /\ heap (snd (umls_cui_annotator pk cl st)) !! l = Some out
  end.
Proof.
  intros Hc Hu Ht Hlu Hlt. destruct st as [s h]. simpl in *.
  unfold umls_cui_annotator, umls_cui_annotator_frame.
  rewrite bind_run, (getattr_run _ _ _ _ Hc).
  rewrite bind_run, df_getitem_list_run. simpl.
  destruct (Pandas.getitem_list (deref h lc) [pk; cl]) as [e|selected];
    simpl; [reflexivity|].
  rewrite bind_run, df_drop_duplicates_run. heap_norm.
  rewrite bind_run, (getattr_run _ _ _ _ Hu).
  rewrite bind_run, df_merge_run. heap_norm.
  rewrite (deref_old h) by exact Hlu.
  destruct (Pandas.merge (Pandas.drop_duplicates selected) (deref h lu)
              Pandas.Inner cl "CODE") as [e|umls_cui]; simpl; [reflexivity|].
  rewrite bind_run, (getattr_run _ _ _ _ Ht).
  rewrite bind_run, df_merge_run. heap_norm.
  rewrite (deref_old h) by exact Hlt.
  destruct (Pandas.merge umls_cui (deref h lt) Pandas.Left "CUI" "CUI")
    as [e|merged]; simpl; [reflexivity|].
  rewrite bind_run, df_drop_duplicates_run. heap_norm.
  rewrite bind_run, df_set_columns_run. heap_norm.
  destruct (Pandas.set_columns (Pandas.drop_duplicates merged) _) as [e|out];
    simpl; [reflexivity|].
  exists (length h + 4). split; [reflexivity|].
  rewrite store_fresh. rewrite lookup_app_r by lia.
  replace (length h + 4 - length h) with 4 by lia. reflexivity.
Qed.

Lemma combine_map_same {A B C : Type} (f : A -> B) (g : A -> C) (l : list A) :
  combine (map f l) (map g l) = map (fun x => (f x, g x)) l.
Proof. induction l as [|x l IH]; simpl; [reflexivity|]. now rewrite IH. Qed.

Lemma apply_on_text_map {A : Type} (method : string) (f : string -> string)
    (g : A -> string) (l : list A) :
  Pandas.apply (on_text method f) (map (fun x => Str (g x)) l)
  = inr (map (fun x => Str (f (g x))) l).
Proof. induction l as [|x l IH]; simpl; [reflexivity|]. now rewrite IH. Qed.

Lemma combo_dict_frame_built (items : list (string * string)) :
  Pandas.setitem
    (mkFrame ["DBXREF"; "ONT_URI"] (map (fun kv => [Str (fst kv); Str (snd kv)]) items))
    "CODE" (map (fun kv => Str (dbxref_code (fst kv))) items)
  = combo_dict_frame items.
Proof.
  unfold Pandas.setitem, combo_dict_frame. simpl.
  rewrite combine_map_same, map_map. reflexivity.
Qed.

#[local] Arguments Pandas.setitem : simpl never.
#[local] Arguments Pandas.merge : simpl never.
#[local] Arguments Pandas.getitem : simpl never.
#[local] Arguments Pandas.drop_duplicates : simpl never.
#[local] Arguments Pandas.apply : simpl never.

Lemma dbxref_mapper_run
    (md : object -> string -> result (list (string * string)))
    (st : state) (ld : loc) (d : object) (combined : list (string * string)) :
  self st !! "ontology_dictionary" = Some d ->
  md d "dbxref" = inr combined ->
  ld < length (heap st) ->
  match dbxref_mapper_frame (dict_items combined) (deref (heap st) ld) with
  | inl e => fst (dbxref_mapper md (Frame ld) st) = inl e
  | inr out =>
      exists l, fst (dbxref_mapper md (Frame ld) st) = inr (Frame l)
                /\ heap (snd (dbxref_mapper md (Frame ld) st)) !! l = Some out
  end.
Proof.
  intros Hd Hmd Hld. destruct st as [s h]. simpl in *.
  unfold dbxref_mapper, dbxref_mapper_frame, frame_of_items.
  rewrite bind_run, (getattr_run _ _ _ _ Hd).
  rewrite bind_run, Hmd, lift_run.
  generalize (dict_items combined). intros items.
  rewrite bind_run, new_frame_run. heap_norm.
  rewrite bind_run, df_getitem_run. heap_norm.
  change (Pandas.getitem
            (mkFrame ["DBXREF"; "ONT_URI"]
                     (map (fun kv => [Str (fst kv); Str (snd kv)]) items)) "DBXREF")
    with (inr (B:=list cell) (A:=exn)
              (map (Pandas.cell_at 0)
                   (map (fun kv : string * string => [Str (fst kv); Str (snd kv)]) items))).
  rewrite map_map. unfold Pandas.cell_at. simpl.
  rewrite bind_run, lift_run.
  rewrite (apply_on_text_map "split" dbxref_code fst items).
  rewrite bind_run, df_setitem_run. heap_norm.
  rewrite store_new, combo_dict_frame_built.
  rewrite bind_run, df_merge_run. heap_norm.
  rewrite (deref_old h) by exact Hld.
  destruct (Pandas.merge (deref h ld) (combo_dict_frame items) Pandas.Inner
              "CODE" "CODE") as [e|joined]; simpl; [reflexivity|].
  rewrite bind_run, df_drop_duplicates_run. heap_norm.
  rewrite bind_run, df_getitem_run. heap_norm.
  destruct (Pandas.getitem (Pandas.drop_duplicates joined) "ONT_URI")
    as [e|uris]; simpl; [reflexivity|].
  rewrite bind_run, lift_run.
  destruct (Pandas.apply (on_text "split" uri_ontology) uris)
    as [e|onts]; simpl; [reflexivity|].
  rewrite bind_run, df_setitem_run. heap_norm.
  rewrite store_fresh. simpl.
  rewrite bind_run, df_getitem_run. heap_norm.
  destruct (Pandas.getitem _ "DBXREF") as [e|matched]; simpl; [reflexivity|].
  rewrite bind_run, lift_run.
  destruct (Pandas.apply (on_text "split" dbxref_evidence) matched)
    as [e|evidence]; simpl; [reflexivity|].
  heap_norm. rewrite !store_fresh. heap_norm.
  exists (length h + 3). split; [reflexivity|].
  rewrite lookup_app_r by lia.
  replace (length h + 3 - length h) with 3 by lia. reflexivity.
Qed.

#[local] Arguments df_drop_duplicates : simpl never.
#[local] Arguments df_astype_str : simpl never.
#[local] Arguments df_filter_ne : simpl never.
#[local] Arguments Pandas.drop_duplicates : simpl never.
#[local] Arguments Pandas.astype_str : simpl never.
#[local] Arguments Pandas.filter_ne : simpl never.

Lemma init_without_mrconso (env : Env) (a : Args) :
  truthy (umls_mrconso_file a) = false -> retains "umls_cui_data" (init env a).
Proof.
  intros Hfalsy. unfold init.
  apply retains_bind; [now apply retains_check_clinical_file|]. intros _.
  apply retains_bind; [now apply retains_check_primary_key|]. intros _.
  apply retains_bind; [now apply retains_check_concept_codes|]. intros _.
  apply retains_bind; [now apply retains_optional_list|]. intros _.
  apply retains_bind; [now apply retains_optional_list|]. intros _.
  apply retains_bind; [now apply retains_optional_list|]. intros _.
  apply retains_bind; [now apply retains_check_ontology_dictionary|]. intros _.
  apply retains_bind; [now apply retains_load_mrconso_absent|]. intros _.
  now apply retains_load_mrsty.
Qed.

Lemma init_ok (env : Env) (a : Args) (st : state) :
  fst (init env a st) = inr tt ->
  exists st7,
    fst (load_mrconso env a st7) = inr tt
    /\ fst (load_mrsty env a (snd (load_mrconso env a st7))) = inr tt
    /\ snd (init env a st) = snd (load_mrsty env a (snd (load_mrconso env a st7))).
Proof.
  unfold init. intros H.
  apply bind_ok in H as ([] & _ & H & ->).
  apply bind_ok in H as ([] & _ & H & ->).
  apply bind_ok in H as ([] & _ & H & ->).
  apply bind_ok in H as ([] & _ & H & ->).
  apply bind_ok in H as ([] & _ & H & ->).
  apply bind_ok in H as ([] & _ & H & ->).
  apply bind_ok in H as ([] & _ & H & ->).
  apply bind_ok in H as ([] & H8 & H & ->).
  eauto.
Qed.

Lemma load_mrconso_run (env : Env) (f : string) (a : Args) (st : state) :
  umls_mrconso_file a = PyStr f ->
  truthy (PyStr f) = true ->
  path_exists env f = true ->
  Nat.eqb (st_size env f) 0 = false ->
  load_mrconso env a st
  = match read_csv_positional env f "|" [0; 11; 13] with
    | inl e => (inl e, st)
    | inr body =>
        (inr tt,
         mkState (<["umls_cui_data" := Frame (length (heap st) + 4)]>
                    (<["umls_cui_data" := Frame (length (heap st) + 2)]> (self st)))
                 (heap st
                  ++ [mkFrame ["CUI"; "SAB"; "CODE"] body;
                      Pandas.drop_duplicates (mkFrame ["CUI"; "SAB"; "CODE"] body);
                      mrconso_text body;
                      mrconso_coded body;
                      mrconso_frame body]))
    end.
Proof.
  intros Hfile Htruthy Hexists Hsize. destruct st as [s h].
  unfold load_mrconso. rewrite Hfile, Htruthy, Hexists, Hsize. cbn [negb].
  unfold pd_read_csv_names.
  rewrite bind_run, bind_run, lift_run.
  destruct (read_csv_positional env f "|" [0; 11; 13]) as [e|body];
    [reflexivity|].
  rewrite new_frame_run. cbn [self heap].
  rewrite bind_run, df_drop_duplicates_run. heap_norm.
  rewrite bind_run, df_astype_str_run. heap_norm.
  rewrite bind_run, setattr_run. cbn [self heap].
  rewrite bind_run, (getattr_run _ _ _ (Frame (length h + 2)))
    by apply lookup_insert_eq.
  rewrite bind_run, df_filter_ne_run. heap_norm.
  rewrite bind_run, df_drop_duplicates_run. heap_norm.
  rewrite setattr_run. reflexivity.
Qed.

(** ** From the runs to the statements *)

Ltac feed H :=
  repeat match type of H with
         | ?P -> _ =>
             let X := fresh in
             assert (X : P) by assumption; specialize (H X); clear X
         end.

Section MapperClaims.

Variable md : object -> string -> result (list (string * string)).
Variables (st : state) (ld : loc) (df : DataFrame) (items : list (string * string)).
Hypothesis Hready : mapper_ready md st ld df items.

Lemma mapper_code_index : exists i, column_index "CODE" (columns df) = Some i.
Proof.
  destruct Hready as (_ & _ & _ & Hin & _).
  destruct (column_index "CODE" (columns df)) as [i|] eqn:E; [eauto|].
  now apply column_index_None in E.
Qed.

Lemma mapper_result (i : nat) :
  column_index "CODE" (columns df) = Some i ->
  exists out,
    returns (dbxref_mapper md (Frame ld)) st out
    /\ NoDup (rows out)
    /\ (forall r, r ∈ rows out
                  <-> exists lr kv, In lr (rows df) /\ In kv items
                                    /\ cell_at i lr = Str (dbxref_code (fst kv))
                                    /\ r = matched_row (columns df) lr kv)
    /\ (is_empty df = false -> columns out = matched_columns (columns df))
    /\ (is_empty df = true
        -> columns out = empty_columns (columns df) i /\ rows out = []).
Proof.
  intros Hi.
  destruct Hready
    as ((d & combined & Hd & Hmd & Hitems) & Hdf & [Hnodup Hrect] & _ & Hnd & Hnu).
  pose proof (dbxref_mapper_run md st ld d combined Hd Hmd
                (lookup_lt_Some _ _ _ Hdf)) as Hrun.
  assert (Hderef : deref (heap st) ld = df) by (unfold deref; now rewrite Hdf).
  rewrite Hderef, Hitems in Hrun.
  destruct (dbxref_mapper_frame_result df items i Hi Hnd Hnu Hrect Hnodup)
    as (out & Hout & Hres).
  rewrite Hout in Hrun. exists out. split; [exact Hrun|exact Hres].
Qed.

(** The rows of the result carry, under the five labels the method works
    with, the cells of the pair they are built from. *)
Lemma mapper_row_values (i : nat) (out : DataFrame) (lr : list cell)
    (kv : string * string) :
  column_index "CODE" (columns df) = Some i ->
  (is_empty df = false -> columns out = matched_columns (columns df)) ->
  In lr (rows df) ->
  let r := matched_row (columns df) lr kv in
  value out r "CODE" = Some (cell_at i lr)
  /\ value out r "DBXREF" = Some (Str (fst kv))
  /\ value out r "ONT_URI" = Some (Str (snd kv))
  /\ value out r "ONT" = Some (Str (uri_ontology (snd kv)))
  /\ value out r "EVIDENCE" = Some (Str (dbxref_evidence (fst kv))).
Proof.
  intros Hi Hcols Hlr.
  destruct Hready as (_ & _ & [Hnodup Hrect] & _ & Hnd & Hnu).
  apply (value_matched_row df i Hi Hnd Hnu).
  - apply Hcols. now apply (is_empty_false df lr).
  - unfold rectangular in Hrect. rewrite List.Forall_forall in Hrect. auto.
Qed.




End MapperClaims.



Lemma elem_of_join_concepts (pairs : list (cell * cell)) (concepts : list ConceptRow)
    (p : cell * cell) (c : ConceptRow) :
  (p, c) ∈ join_concepts pairs concepts
  <-> p ∈ pairs /\ c ∈ concepts /\ source_code c = snd p.
Proof.
  unfold join_concepts. rewrite !list_elem_of_In, in_flat_map. split.
  - intros (q & Hq & Hin). apply in_map_iff in Hin as (c' & [= <- <-] & Hc).
    apply filter_In in Hc as [Hc Hm]. apply bool_decide_eq_true in Hm.
    auto.
  - intros (Hp & Hc & Hm). exists p. split; [exact Hp|].
    apply in_map. apply filter_In. split; [exact Hc|].
    now apply bool_decide_eq_true.
Qed.

Lemma null_semantic_type (joined : list (cell * cell * ConceptRow))
    (semtypes : list SemanticTypeRow) (pc : cell * cell * ConceptRow) :
  pc ∈ joined ->
  (forall t, t ∈ semtypes -> fst t <> concept_id (snd pc)) ->
  (pc, NaN) ∈ join_semantic_types joined semtypes.
Proof.
  intros Hpc Hnone. unfold join_semantic_types.
  rewrite list_elem_of_In, in_flat_map. exists pc.
  split; [now apply list_elem_of_In|].
  destruct (List.filter _ semtypes) as [|t ts] eqn:E; [now left|].
  assert (Ht : In t (List.filter
                       (fun t => bool_decide (fst t = concept_id (snd pc))) semtypes))
    by (rewrite E; now left).
  apply filter_In in Ht as [Ht Hm]. apply bool_decide_eq_true in Hm.
  apply list_elem_of_In in Ht. now apply Hnone in Ht.
Qed.

Lemma load_mrconso_loaded (env : Env) (a : Args) (st : state) :
  truthy (umls_mrconso_file a) = true ->
  fst (load_mrconso env a st) = inr tt ->
  exists f body,
    umls_mrconso_file a = PyStr f
    /\ read_csv_positional env f "|" [0; 11; 13] = inr body
    /\ self (snd (load_mrconso env a st)) !! "umls_cui_data"
       = Some (Frame (length (heap st) + 4))
    /\ heap (snd (load_mrconso env a st)) !! (length (heap st) + 4)
       = Some (mrconso_frame body).
Proof.
  intros Htruthy Hok.
  destruct (umls_mrconso_file a) as [| |f| |] eqn:Hfile;
    try (unfold load_mrconso in Hok; rewrite Hfile, Htruthy in Hok;
         discriminate).
  destruct (path_exists env f) eqn:Hexists;
    [|unfold load_mrconso in Hok; rewrite Hfile, Htruthy, Hexists in Hok;
      discriminate].
  destruct (Nat.eqb (st_size env f) 0) eqn:Hsize;
    [unfold load_mrconso in Hok; rewrite Hfile, Htruthy, Hexists, Hsize in Hok;
     discriminate|].
  rewrite (load_mrconso_run env f a st Hfile Htruthy Hexists Hsize) in Hok |- *.
  destruct (read_csv_positional env f "|" [0; 11; 13]) as [e|body] eqn:Hread;
    [discriminate|].
  exists f, body. cbn [snd self heap].
  split; [reflexivity|]. split; [exact Hread|]. split.
  - apply lookup_insert_eq.
  - rewrite lookup_app_r by lia.
    replace (length (heap st) + 4 - length (heap st)) with 4 by lia. reflexivity.
Qed.

Lemma elem_of_mrconso_frame (body : list (list cell)) (r : list cell) :
  r ∈ rows (mrconso_frame body)
  <-> (exists r0, r0 ∈ body /\ r = map Pandas.astype_str_cell r0)
      /\ Pandas.cell_at 2 r <> Str "NOCODE".
Proof.
  unfold mrconso_frame, mrconso_coded, mrconso_text, Pandas.drop_duplicates,
    Pandas.astype_str.
  cbn [rows columns].
  rewrite elem_of_unique_nil, list_elem_of_In, filter_In, in_map_iff.
  rewrite negb_true_iff, bool_decide_eq_false.
  split.
  - intros [(r0 & <- & Hr0) Hne]. split; [|exact Hne]. exists r0.
    split; [|reflexivity]. now apply elem_of_unique_nil, list_elem_of_In.
  - intros [(r0 & Hr0 & ->) Hne]. split; [|exact Hne]. exists r0.
    split; [reflexivity|]. now apply list_elem_of_In, elem_of_unique_nil.
Qed.

(** ** The constructor's checks, one by one *)

Lemma bind_fst_ok {A B : Type} (m : M A) (k : A -> M B) (st : state) (a : A) :
  fst (m st) = inr a -> fst ((m ≫= k) st) = fst (k a (snd (m st))).
Proof.
  unfold mbind, M_bind. destruct (m st) as [[e|a'] st1]; simpl; [discriminate|].
  now intros [= ->].
Qed.

Lemma bind_fst_raise {A B : Type} (m : M A) (k : A -> M B) (st : state) (e : exn) :
  fst (m st) = inl e -> fst ((m ≫= k) st) = inl e.
Proof.
  unfold mbind, M_bind. destruct (m st) as [[e'|a] st1]; simpl; [|discriminate].
  now intros [= ->].
Qed.

Lemma truthy_path (f : string) : f <> "" -> truthy (PyStr f) = true.
Proof.
  intros Hf. simpl. destruct (String.eqb_spec f ""); [contradiction|reflexivity].
Qed.

Section Checks.

Variables (env : Env) (a : Args).

Lemma check_clinical_file_empty (f : string) (st : state) :
  clinical_file a = PyStr f -> path_exists env f = true -> st_size env f = 0 ->
  fst (check_clinical_file env a st) = inl (empty_file f).
Proof.
  intros Hfile Hexists Hsize. unfold check_clinical_file.
  now rewrite Hfile, Hexists, Hsize.
Qed.

Lemma check_clinical_file_ok (st : state) :
  clinical_loads env a st -> fst (check_clinical_file env a st) = inr tt.
Proof.
  intros (f & Hfile & Hexists & Hsize & v & Hload). unfold check_clinical_file.
  rewrite Hfile, Hexists, Hsize. cbn [negb].
  now rewrite (bind_fst_ok _ _ _ v Hload).
Qed.

Lemma check_primary_key_ok (st : state) :
  (exists k, primary_key a = PyStr k) -> fst (check_primary_key a st) = inr tt.
Proof. intros [k Hk]. unfold check_primary_key. now rewrite Hk. Qed.

Lemma check_concept_codes_ok (st : state) :
  (exists l, concept_codes a = PyList l) -> fst (check_concept_codes a st) = inr tt.
Proof. intros [l Hl]. unfold check_concept_codes. now rewrite Hl. Qed.

Lemma check_concept_codes_raises (st : state) :
  (forall l, concept_codes a <> PyList l) ->
  fst (check_concept_codes a st) = inl (TypeError "concept_codes must be type list.").
Proof.
  intros Hl. unfold check_concept_codes.
  destruct (concept_codes a) as [| | |l|]; try reflexivity. now destruct (Hl l).
Qed.

Lemma optional_list_ok (name : string) (v : pyval) (st : state) :
  optional_ok v -> fst (optional_list name v st) = inr tt.
Proof.
  intros [Hfalsy|[l ->]]; unfold optional_list.
  - now rewrite Hfalsy.
  - now destruct (negb (truthy (PyList l))).
Qed.

Lemma check_ontology_dictionary_ok (st : state) :
  (exists d, ontology_dictionary a = PyDict d) ->
  fst (check_ontology_dictionary a st) = inr tt.
Proof. intros [d Hd]. unfold check_ontology_dictionary. now rewrite Hd. Qed.

Lemma load_mrconso_missing (f : string) (st : state) :
  umls_mrconso_file a = PyStr f -> f <> "" -> path_exists env f = false ->
  fst (load_mrconso env a st) = inl (missing_file f).
Proof.
  intros Hfile Hf Hexists. unfold load_mrconso.
  now rewrite Hfile, (truthy_path f Hf), Hexists.
Qed.

Lemma load_mrconso_ok (st : state) :
  mrconso_loads env a -> fst (load_mrconso env a st) = inr tt.
Proof.
  intros [Hfalsy|(f & body & Hfile & Hf & Hexists & Hsize & Hread)].
  - unfold load_mrconso. now rewrite Hfalsy.
  - rewrite (load_mrconso_run env f a st Hfile (truthy_path f Hf) Hexists Hsize).
    now rewrite Hread.
Qed.

Lemma load_mrsty_missing (f : string) (st : state) :
  umls_mrsty_file a = PyStr f -> f <> "" -> path_exists env f = false ->
  fst (load_mrsty env a st) = inl (missing_file f).
Proof.
  intros Hfile Hf Hexists. unfold load_mrsty.
  now rewrite Hfile, (truthy_path f Hf), Hexists.
Qed.

Lemma init_after_checks (st : state) :
  clinical_loads env a st -> checks_pass a ->
  exists st7,
    fst (init env a st)
    = fst ((load_mrconso env a ≫= fun _ => load_mrsty env a) st7).
Proof.
  intros Hclinical (Hkey & Hcodes & Hstrings & Hacodes & Hastrings & Hdict).
  unfold init.
  rewrite (bind_fst_ok _ _ _ tt) by now apply check_clinical_file_ok.
  rewrite (bind_fst_ok _ _ _ tt) by now apply check_primary_key_ok.
  rewrite (bind_fst_ok _ _ _ tt) by now apply check_concept_codes_ok.
  rewrite (bind_fst_ok _ _ _ tt) by now apply optional_list_ok.
  rewrite (bind_fst_ok _ _ _ tt) by now apply optional_list_ok.
  rewrite (bind_fst_ok _ _ _ tt) by now apply optional_list_ok.
  rewrite (bind_fst_ok _ _ _ tt) by now apply check_ontology_dictionary_ok.
  eauto.
Qed.

End Checks.

Lemma annotator_frames (st : state) (clinical cui tui : DataFrame)
    (pk cl : string) :
  thesaurus_ready st clinical cui tui ->
  match umls_cui_annotator_frame clinical cui tui pk cl with
  | inl e => fst (umls_cui_annotator pk cl st) = inl e
  | inr out => returns (umls_cui_annotator pk cl) st out
  end.
Proof.
  intros ((lc & Hc & Hlc) & (lu & Hu & Hlu) & (lt & Ht & Hlt) & _).
  pose proof (umls_cui_annotator_run st pk cl lc lu lt Hc Hu Ht
                (lookup_lt_Some _ _ _ Hlu) (lookup_lt_Some _ _ _ Hlt)) as Hrun.
  assert (Dc : deref (heap st) lc = clinical) by (unfold deref; now rewrite Hlc).
  assert (Du : deref (heap st) lu = cui) by (unfold deref; now rewrite Hlu).
  assert (Dt : deref (heap st) lt = tui) by (unfold deref; now rewrite Hlt).
  rewrite Dc, Du, Dt in Hrun. exact Hrun.
Qed.

Lemma annotator_result (st : state) (clinical cui tui : DataFrame)
    (pk cl : string) (i j : nat) :
  thesaurus_ready st clinical cui tui ->
  column_index pk (columns clinical) = Some i ->
  column_index cl (columns clinical) = Some j ->
  pk <> cl -> cl <> "CODE" -> pk <> "CUI" -> cl <> "CUI" ->
  exists out,
    returns (umls_cui_annotator pk cl) st out
    /\ columns out = [pk; cl; "UMLS_CUI"; "UMLS_SAB"; "UMLS_CODE"; "UMLS_SEM_TYPE"]
    /\ NoDup (rows out)
    /\ forall r,
         r ∈ rows out
         <-> r ∈ map enriched_cells
                   (annotate_with_thesaurus (key_pairs i j clinical)
                      (concept_rows cui) (semantic_type_rows tui)).
Proof.
  intros Hready Hi Hj Hne Hcode Hpk Hcl.
  pose proof (annotator_frames st clinical cui tui pk cl Hready) as Hrun.
  destruct Hready as (_ & _ & _ & Hcc & Hcr & Htc & Htr).
  destruct (umls_cui_annotator_frame_value clinical cui tui pk cl i j
              Hi Hj Hne Hcode Hpk Hcl Hcc Hcr Htc Htr)
    as (body & Hval & Hnodup & Hrows).
  rewrite Hval in Hrun. eexists. split; [exact Hrun|].
  cbn [columns rows]. auto.
Qed.

Import Flattener.
Import FlattenerFacts.

(** ** The examples *)

Ltac distinct_labels := apply (bool_decide_unpack _); vm_compute; exact I.

Lemma example_mapper_ready_code (rs : list (list cell))
    (combined : list (string * string)) :
  Forall (fun r => length r = 2) rs ->
  mapper_ready (Example.items_of combined) (Example.annotator rs) 0
    (Example.long_table rs) (dict_items combined).
Proof.
  intros Hrs. unfold mapper_ready. split; [|split; [|split; [|split; [|split]]]].
  - exists (Plain (PyDict [Example.hp])), combined. split; [|split].
    + vm_compute. reflexivity.
    + reflexivity.
    + reflexivity.
  - reflexivity.
  - split; [distinct_labels|exact Hrs].
  - simpl. auto.
  - simpl. intuition discriminate.
  - simpl. intuition discriminate.
Qed.

Lemma example_clinical_loads (codes conso sty : pyval) (st : state) :
  clinical_loads Example.env (Example.args "clinical.csv" codes conso sty) st.
Proof.
  exists "clinical.csv". split; [reflexivity|]. split; [reflexivity|].
  split; [reflexivity|]. eexists. reflexivity.
Qed.

Lemma example_checks_pass (path : string) (conso sty : pyval) :
  checks_pass (Example.args path Example.codes conso sty).
Proof.
  unfold checks_pass. simpl.
  split; [eauto|]. split; [unfold Example.codes; eauto|].
  split; [now left|]. split; [now left|]. split; [now left|]. eauto.
Qed.

(** * The specification's claims *)

(** C1.  For every row of the table given to [dbxref_mapper] whose [CODE]
    equals the code of a dictionary item (the text after the last colon of
    its cross-reference), the method returns a table with a row for that
    pair: [ONT] is the last path segment of the URI up to its first
    underscore, upper-cased, and [EVIDENCE] is ["DbXRef_"] followed by the
    text of the cross-reference before its first colon. *)
Theorem dbxref_mapper_match
    (md : object -> string -> result (list (string * string)))
    (st : state) (ld : loc) (df : DataFrame) (items : list (string * string))
    (lr : list cell) (code dbxref uri : string) :
  mapper_ready md st ld df items ->
  In lr (rows df) ->
  value df lr "CODE" = Some (Str code) ->
  In (dbxref, uri) items ->
  PyStr.item_last (PyStr.split ":" dbxref) = code ->
  exists out r,
    returns (dbxref_mapper md (Frame ld)) st out
    /\ r ∈ rows out
    /\ value out r "CODE" = Some (Str code)
    /\ value out r "DBXREF" = Some (Str dbxref)
    /\ value out r "ONT_URI" = Some (Str uri)
    /\ value out r "ONT"
       = Some (Str (PyStr.upper
                      (PyStr.item_first
                         (PyStr.split "_"
                            (PyStr.item_last (PyStr.split "/" uri))))))
    /\ value out r "EVIDENCE"
       = Some (Str ("DbXRef_" +:+ PyStr.item_first (PyStr.split ":" dbxref))).
Proof.
  intros Hready Hlr Hcode Hkv Hm.
  destruct (mapper_code_index md st ld df items Hready) as [i Hi].
  destruct (mapper_result md st ld df items Hready i Hi)
    as (out & Hret & _ & Hrows & Hcols & _).
  unfold value in Hcode. rewrite Hi in Hcode. simpl in Hcode.
  injection Hcode as Hcell.
  exists out, (matched_row (columns df) lr (dbxref, uri)).
  split; [exact Hret|]. split.
  - apply Hrows.
    exists lr, (dbxref, uri). repeat split; auto.
    simpl. now rewrite Hcell, <- Hm.
  - destruct (mapper_row_values md st ld df items Hready i out lr (dbxref, uri)
                Hi Hcols Hlr) as (V1 & V2 & V3 & V4 & V5).
    rewrite Hcell in V1. auto.
Qed.

Lemma dbxref_mapper_match_witness :
  exists out r,
    returns (dbxref_mapper (Example.items_of [("ICD9:123", "http://x/HP_001")])
                           (Frame 0))
            (Example.annotator [[Str "1"; Str "123"]]) out
    /\ r ∈ rows out
    /\ value out r "CODE" = Some (Str "123")
    /\ value out r "DBXREF" = Some (Str "ICD9:123")
    /\ value out r "ONT_URI" = Some (Str "http://x/HP_001")
    /\ value out r "ONT" = Some (Str "HP")
    /\ value out r "EVIDENCE" = Some (Str "DbXRef_ICD9").
Proof.
  apply (dbxref_mapper_match (Example.items_of [("ICD9:123", "http://x/HP_001")])
           (Example.annotator [[Str "1"; Str "123"]]) 0
           (Example.long_table [[Str "1"; Str "123"]])
           [("ICD9:123", "http://x/HP_001")]
           [Str "1"; Str "123"] "123" "ICD9:123" "http://x/HP_001").
  - apply (example_mapper_ready_code _ [("ICD9:123", "http://x/HP_001")]).
    repeat constructor.
  - simpl. auto.
  - reflexivity.
  - simpl. auto.
  - reflexivity.
Defined.

(** C2, as the code has it.  For a primary key and a code column that are
    two different columns of the clinical table, the code column not named
    [CODE] and neither named [CUI], [umls_cui_annotator] computes what the
    specification's four steps compute: the distinct (primary key, code)
    pairs, inner-joined with the concept table on the code, left-joined with
    the semantic types on the concept identifier, deduplicated.  The rows
    are those of the four steps, in some order.  A concept without semantic
    type is in the result with a missing semantic type. *)
Theorem umls_cui_annotator_enriches (st : state) (clinical cui tui : DataFrame)
    (pk cl : string) (i j : nat) :
  thesaurus_ready st clinical cui tui ->
  column_index pk (columns clinical) = Some i ->
  column_index cl (columns clinical) = Some j ->
  pk <> cl -> cl <> "CODE" -> pk <> "CUI" -> cl <> "CUI" ->
  exists out,
    returns (umls_cui_annotator pk cl) st out
    /\ columns out
       = [pk; cl; "UMLS_CUI"; "UMLS_SAB"; "UMLS_CODE"; "UMLS_SEM_TYPE"]
    /\ rows out
       ≡ₚ map enriched_cells
            (annotate_with_thesaurus (key_pairs i j clinical) (concept_rows cui)
                                     (semantic_type_rows tui))
    /\ NoDup (rows out)
    /\ (forall p c,
          p ∈ key_pairs i j clinical -> c ∈ concept_rows cui ->
          source_code c = snd p ->
          (forall t, t ∈ semantic_type_rows tui -> fst t <> concept_id c) ->
          enriched_cells (p, c, NaN) ∈ rows out).
Proof.
  intros Hready Hi Hj Hne Hcode Hpk Hcl.
  destruct (annotator_result st clinical cui tui pk cl i j
              Hready Hi Hj Hne Hcode Hpk Hcl)
    as (out & Hret & Hcols & Hnodup & Hrows).
  exists out. split; [exact Hret|]. split; [exact Hcols|].
  split; [|split; [exact Hnodup|]].
  - apply NoDup_Permutation; [exact Hnodup| |exact Hrows].
    unfold annotate_with_thesaurus.
    rewrite <- (unique_map enriched_cells [] _ enriched_cells_inj).
    apply NoDup_unique.
  - intros p c Hp Hcin Hm Hnone. apply Hrows.
    apply list_elem_of_In, in_map, list_elem_of_In.
    unfold annotate_with_thesaurus. apply elem_of_unique_nil.
    apply (null_semantic_type _ _ (p, c)); [|exact Hnone].
    apply elem_of_join_concepts. split; [|auto].
    unfold distinct_pairs. now apply elem_of_unique_nil.
Qed.

(** C2 as stated fails for some primary keys and code columns: with the
    code column named [CODE], with one column given as primary key and as
    code column, or with one of them named [CUI], the method raises where
    the four steps have a row. *)
Lemma umls_cui_annotator_label_clash :
  fst (umls_cui_annotator "CONCEPT_ID" "CODE"
         (constructed
            (world_of (mkFrame ["CONCEPT_ID"; "CODE"] [[Str "1"; Str "123"]]))
            with_thesaurus []))
  = inl (ValueError "Length mismatch")
  /\ fst (umls_cui_annotator "CONCEPT_SOURCE_CODE" "CONCEPT_SOURCE_CODE"
            (constructed Example.env with_thesaurus []))
     = inl (ValueError "The column label 'CONCEPT_SOURCE_CODE' is not unique.")
  /\ fst (umls_cui_annotator "CUI" "CONCEPT_SOURCE_CODE"
            (constructed
               (world_of (mkFrame ["CUI"; "CONCEPT_SOURCE_CODE"]
                                  [[Str "1"; Str "123"]]))
               with_thesaurus []))
     = inl (KeyError "CUI")
  /\ fst (umls_cui_annotator "CONCEPT_ID" "CUI"
            (constructed
               (world_of (mkFrame ["CONCEPT_ID"; "CUI"] [[Str "1"; Str "123"]]))
               with_thesaurus []))
     = inl (KeyError "CUI")
  /\ annotate_with_thesaurus [(Str "1", Str "123")]
       (concept_rows (mrconso_frame Example.mrconso_rows))
       (semantic_type_rows (mkFrame ["CUI"; "STY"] Example.mrsty_rows))
     = [((Str "1", Str "123"), (Str "CUI1", Str "SAB1", Str "123"), NaN)].
Proof. repeat split; vm_compute; reflexivity. Qed.

Lemma umls_cui_annotator_enriches_witness :
  exists out,
    returns (umls_cui_annotator "CONCEPT_ID" "CONCEPT_SOURCE_CODE")
            (constructed Example.env with_thesaurus []) out
    /\ columns out
       = ["CONCEPT_ID"; "CONCEPT_SOURCE_CODE"; "UMLS_CUI"; "UMLS_SAB"; "UMLS_CODE";
          "UMLS_SEM_TYPE"]
    /\ rows out = [[Str "1"; Str "123"; Str "CUI1"; Str "SAB1"; Str "123"; NaN]].
Proof.
  destruct (umls_cui_annotator_enriches
              (constructed Example.env with_thesaurus [])
              Example.clinical
              (mrconso_frame Example.mrconso_rows)
              (mkFrame ["CUI"; "STY"] Example.mrsty_rows)
              "CONCEPT_ID" "CONCEPT_SOURCE_CODE" 0 1)
    as (out & Hret & Hcols & Hrows & _).
  - unfold thesaurus_ready. split; [|split; [|split; [|split; [|split; [|split]]]]].
    + exists 1. split; vm_compute; reflexivity.
    + exists 6. split; vm_compute; reflexivity.
    + exists 9. split; vm_compute; reflexivity.
    + reflexivity.
    + vm_compute. repeat constructor.
    + reflexivity.
    + repeat constructor.
  - reflexivity.
  - reflexivity.
  - discriminate.
  - discriminate.
  - discriminate.
  - discriminate.
  - exists out. split; [exact Hret|]. split; [exact Hcols|].
    apply Permutation_singleton_r. rewrite Hrows. vm_compute. reflexivity.
Defined.

(** C3, as the code has it.  On an annotator constructed without the MRCONSO
    file or without the MRSTY file, [umls_cui_annotator] returns no table:
    for every primary key and code column it ends in an exception, and that
    exception is never a configuration error.  The method has no guard of
    its own. *)
Theorem umls_cui_annotator_without_thesaurus (env : Env) (a : Args)
    (h : list DataFrame) (pk cl : string) :
  fst (init env a (fresh_object h)) = inr tt ->
  truthy (umls_mrconso_file a) = false \/ truthy (umls_mrsty_file a) = false ->
  exists e,
    fst (umls_cui_annotator pk cl (constructed env a h)) = inl e
    /\ is_configuration_error e = false.
Proof.
  intros Hok Hmissing.
  assert (Hraises : raises (umls_cui_annotator pk cl) (constructed env a h)).
  { apply umls_cui_annotator_raises. unfold constructed.
    destruct Hmissing as [Hconso|Hsty].
    - left. destruct (init_without_mrconso env a Hconso (fresh_object h)) as [-> _].
      apply lookup_empty.
    - right. exists PyNone.
      destruct (init_ok env a _ Hok) as (st7 & _ & _ & ->).
      unfold load_mrsty. rewrite Hsty. apply lookup_insert_eq. }
  destruct Hraises as [e He]. exists e. split; [exact He|].
  exact (raises_only_umls_cui_annotator pk cl _ e He).
Qed.

(** C3 as stated fails: constructed with the MRCONSO file and without the
    MRSTY file, the method runs into the merge with the missing table and
    raises the [TypeError] of pandas; constructed without both files it
    raises as well, and not a configuration error either. *)
Lemma umls_cui_annotator_merges_none :
  fst (init Example.env without_semantic_types (fresh_object [])) = inr tt
  /\ fst (umls_cui_annotator "CONCEPT_ID" "CONCEPT_SOURCE_CODE"
            (constructed Example.env without_semantic_types []))
     = inl (TypeError "Can only merge Series or DataFrame objects")
  /\ fst (init Example.env without_thesaurus (fresh_object [])) = inr tt
  /\ exists e,
       fst (umls_cui_annotator "CONCEPT_ID" "CONCEPT_SOURCE_CODE"
              (constructed Example.env without_thesaurus [])) = inl e
       /\ forall msg, e <> ConfigurationError msg.
Proof.
  split; [vm_compute; reflexivity|]. split; [vm_compute; reflexivity|].
  split; [vm_compute; reflexivity|].
  eexists. split; [vm_compute; reflexivity|]. discriminate.
Qed.

Lemma umls_cui_annotator_without_thesaurus_witness :
  exists e,
    fst (umls_cui_annotator "CONCEPT_ID" "CONCEPT_SOURCE_CODE"
           (constructed Example.env without_semantic_types [])) = inl e
    /\ is_configuration_error e = false.
Proof.
  apply (umls_cui_annotator_without_thesaurus Example.env without_semantic_types []
           "CONCEPT_ID" "CONCEPT_SOURCE_CODE").
  - vm_compute. reflexivity.
  - right. reflexivity.
Defined.




(** C5, as the code has it.  The constructor's checks run in order and the
    first failure decides the exception: an existing clinical file of size 0
    always raises the empty-input [TypeError]; a [concept_codes] that is not a
    list raises its [TypeError] when the clinical file loads and the primary
    key is a string; a thesaurus path that does not exist raises [OSError]
    when every earlier check passes. *)
Theorem init_error_order (env : Env) (a : Args) (st : state) :
  (forall f, clinical_file a = PyStr f -> path_exists env f = true ->
             st_size env f = 0 ->
             fst (init env a st) = inl (empty_file f))
  /\ (clinical_loads env a st -> (exists k, primary_key a = PyStr k) ->
      (forall l, concept_codes a <> PyList l) ->
      fst (init env a st) = inl (TypeError "concept_codes must be type list."))
  /\ (clinical_loads env a st -> checks_pass a ->
      forall f, umls_mrconso_file a = PyStr f -> f <> "" ->
                path_exists env f = false ->
                fst (init env a st) = inl (missing_file f))
  /\ (clinical_loads env a st -> checks_pass a -> mrconso_loads env a ->
      forall f, umls_mrsty_file a = PyStr f -> f <> "" ->
                path_exists env f = false ->
                fst (init env a st) = inl (missing_file f)).
Proof.
  repeat split.
  - intros f Hfile Hexists Hsize. unfold init. apply bind_fst_raise.
    now apply check_clinical_file_empty.
  - intros Hclinical Hkey Hcodes. unfold init.
    rewrite (bind_fst_ok _ _ _ tt) by now apply check_clinical_file_ok.
    rewrite (bind_fst_ok _ _ _ tt) by now apply check_primary_key_ok.
    apply bind_fst_raise. now apply check_concept_codes_raises.
  - intros Hclinical Hchecks f Hfile Hf Hexists.
    destruct (init_after_checks env a st Hclinical Hchecks) as [st7 ->].
    apply bind_fst_raise. now apply load_mrconso_missing.
  - intros Hclinical Hchecks Hconso f Hfile Hf Hexists.
    destruct (init_after_checks env a st Hclinical Hchecks) as [st7 ->].
    rewrite (bind_fst_ok _ _ _ tt) by now apply load_mrconso_ok.
    now apply load_mrsty_missing.
Qed.

(** C5 as stated fails: with a thesaurus path that does not exist and a
    [concept_codes] that is not a list, the constructor raises the
    [TypeError] of [concept_codes], not the path error. *)
Lemma init_type_check_before_path_check :
  umls_mrconso_file missing_thesaurus_and_codes = PyStr "absent.RRF"
  /\ path_exists Example.env "absent.RRF" = false
  /\ fst (init Example.env missing_thesaurus_and_codes (fresh_object []))
     = inl (TypeError "concept_codes must be type list.")
  /\ fst (init Example.env missing_thesaurus_and_codes (fresh_object []))
     <> inl (missing_file "absent.RRF").
Proof.
  assert (Hrun : fst (init Example.env missing_thesaurus_and_codes (fresh_object []))
                 = inl (TypeError "concept_codes must be type list."))
    by (vm_compute; reflexivity).
  split; [reflexivity|]. split; [reflexivity|]. split; [exact Hrun|].
  rewrite Hrun. discriminate.
Qed.

Lemma init_error_order_witness :
  fst (init Example.env
         (Example.args "empty.csv" Example.codes PyNone PyNone) (fresh_object []))
  = inl (empty_file "empty.csv")
  /\ fst (init Example.env
            (Example.args "clinical.csv" (PyStr "CONCEPT_SOURCE_CODE") PyNone PyNone)
            (fresh_object []))
     = inl (TypeError "concept_codes must be type list.")
  /\ fst (init Example.env
            (Example.args "clinical.csv" Example.codes (PyStr "absent.RRF") PyNone)
            (fresh_object []))
     = inl (missing_file "absent.RRF")
  /\ fst (init Example.env
            (Example.args "clinical.csv" Example.codes (PyStr "MRCONSO.RRF")
                          (PyStr "absent.RRF"))
            (fresh_object []))
     = inl (missing_file "absent.RRF").
Proof.
  split; [|split; [|split]].
  - apply (proj1 (init_error_order Example.env
                    (Example.args "empty.csv" Example.codes PyNone PyNone)
                    (fresh_object [])));
      reflexivity.
  - apply (proj1 (proj2 (init_error_order Example.env
                    (Example.args "clinical.csv" (PyStr "CONCEPT_SOURCE_CODE")
                                  PyNone PyNone)
                    (fresh_object [])))).
    + apply example_clinical_loads.
    + simpl. eauto.
    + intros l. discriminate.
  - apply (proj1 (proj2 (proj2 (init_error_order Example.env
                    (Example.args "clinical.csv" Example.codes (PyStr "absent.RRF")
                                  PyNone)
                    (fresh_object []))))).
    + apply example_clinical_loads.
    + apply example_checks_pass.
    + reflexivity.
    + discriminate.
    + reflexivity.
  - apply (proj2 (proj2 (proj2 (init_error_order Example.env
                    (Example.args "clinical.csv" Example.codes (PyStr "MRCONSO.RRF")
                                  (PyStr "absent.RRF"))
                    (fresh_object []))))).
    + apply example_clinical_loads.
    + apply example_checks_pass.
    + right. exists "MRCONSO.RRF", Example.mrconso_rows.
      split; [reflexivity|]. split; [discriminate|]. split; [reflexivity|].
      split; reflexivity.
    + reflexivity.
    + discriminate.
    + reflexivity.
Defined.

(** C6.  A code that no dictionary item has produces no row and no error:
    [dbxref_mapper] returns a table, and none of its rows carries that
    code. *)
Theorem dbxref_mapper_unmatched
    (md : object -> string -> result (list (string * string)))
    (st : state) (ld : loc) (df : DataFrame) (items : list (string * string))
    (code : string) :
  mapper_ready md st ld df items ->
  (forall dbxref uri, In (dbxref, uri) items ->
                      PyStr.item_last (PyStr.split ":" dbxref) <> code) ->
  exists out,
    returns (dbxref_mapper md (Frame ld)) st out
    /\ forall r, r ∈ rows out -> value out r "CODE" <> Some (Str code).
Proof.
  intros Hready Hnone.
  destruct (mapper_code_index md st ld df items Hready) as [i Hi].
  destruct (mapper_result md st ld df items Hready i Hi)
    as (out & Hret & _ & Hrows & Hcols & _).
  exists out. split; [exact Hret|].
  intros r Hr.
  apply Hrows in Hr as (lr & [dbxref uri] & Hlr & Hkv & Hm & ->).
  destruct (mapper_row_values md st ld df items Hready i out lr (dbxref, uri)
              Hi Hcols Hlr) as (V1 & _).
  rewrite V1, Hm. simpl. intros [= Heq]. exact (Hnone dbxref uri Hkv Heq).
Qed.

Lemma dbxref_mapper_unmatched_witness :
  exists out,
    returns (dbxref_mapper (Example.items_of [("A", "URI1")]) (Frame 0))
            (Example.annotator [[Str "1"; Str "A"]; [Str "1"; Str "B"]]) out
    /\ (forall r, r ∈ rows out -> value out r "CODE" <> Some (Str "B"))
    /\ rows out
       = [[Str "1"; Str "A"; Str "A"; Str "URI1"; Str "URI1"; Str "DbXRef_A"]].
Proof.
  destruct (dbxref_mapper_unmatched (Example.items_of [("A", "URI1")])
              (Example.annotator [[Str "1"; Str "A"]; [Str "1"; Str "B"]]) 0
              (Example.long_table [[Str "1"; Str "A"]; [Str "1"; Str "B"]])
              [("A", "URI1")] "B")
    as (out & Hret & Hnone).
  - apply example_mapper_ready_code. repeat constructor.
  - intros dbxref uri [[= <- <-]|[]]. discriminate.
  - exists out. split; [exact Hret|]. split; [exact Hnone|].
    destruct Hret as (l & Hl & Hout).
    vm_compute in Hl. injection Hl as <-.
    vm_compute in Hout. injection Hout as <-. reflexivity.
Defined.

(** C7.  After a construction with an MRCONSO file, [umls_cui_data] is a
    table without duplicate rows and without a row whose [CODE] is
    ["NOCODE"]; its rows are the rows of the file, as text, except
    those. *)
Theorem init_concept_table (env : Env) (a : Args) (h : list DataFrame) :
  fst (init env a (fresh_object h)) = inr tt ->
  truthy (umls_mrconso_file a) = true ->
  exists l df f body,
    self (constructed env a h) !! "umls_cui_data" = Some (Frame l)
    /\ heap (constructed env a h) !! l = Some df
    /\ umls_mrconso_file a = PyStr f
    /\ read_csv_positional env f "|" [0; 11; 13] = inr body
    /\ columns df = ["CUI"; "SAB"; "CODE"]
    /\ NoDup (rows df)
    /\ (forall r, r ∈ rows df -> Pandas.value df r "CODE" <> Some (Str "NOCODE"))
    /\ (forall r, r ∈ rows df
                  <-> (exists r0, r0 ∈ body /\ r = map Pandas.astype_str_cell r0)
                      /\ Pandas.value df r "CODE" <> Some (Str "NOCODE")).
Proof.
  intros Hok Htruthy. unfold constructed.
  destruct (init_ok env a _ Hok) as (st7 & H8 & H9 & ->).
  destruct (load_mrconso_loaded env a st7 Htruthy H8)
    as (f & body & Hfile & Hread & Hattr & Hframe).
  destruct (retains_load_mrsty "umls_cui_data" env a ltac:(discriminate)
              (snd (load_mrconso env a st7))) as [Hs Hh].
  exists (length (heap st7) + 4), (mrconso_frame body), f, body.
  assert (Hvalue : forall r,
            Pandas.value (mrconso_frame body) r "CODE" = Some (Pandas.cell_at 2 r))
    by reflexivity.
  split; [now rewrite Hs|]. split; [now apply Hh|].
  split; [exact Hfile|]. split; [exact Hread|]. split; [reflexivity|].
  split; [apply NoDup_unique|]. split.
  - intros r Hr. rewrite Hvalue. apply elem_of_mrconso_frame in Hr as [_ Hne].
    congruence.
  - intros r. rewrite Hvalue, elem_of_mrconso_frame.
    split; intros [Hr Hne]; (split; [exact Hr|congruence]).
Qed.

Lemma init_concept_table_witness :
  exists l df,
    self (constructed Example.env with_thesaurus []) !! "umls_cui_data"
    = Some (Frame l)
    /\ heap (constructed Example.env with_thesaurus []) !! l = Some df
    /\ NoDup (rows df)
    /\ (forall r, r ∈ rows df -> value df r "CODE" <> Some (Str "NOCODE"))
    /\ rows df = [[Str "CUI1"; Str "SAB1"; Str "123"]].
Proof.
  destruct (init_concept_table Example.env with_thesaurus [])
    as (l & df & f & body & Hattr & Hframe & _ & _ & _ & Hnodup & Hnocode & _).
  - vm_compute. reflexivity.
  - reflexivity.
  - exists l, df. split; [exact Hattr|]. split; [exact Hframe|].
    split; [exact Hnodup|]. split; [exact Hnocode|].
    vm_compute in Hattr. injection Hattr as <-.
    vm_compute in Hframe. injection Hframe as <-. reflexivity.
Defined.

(** C8.  Flattening does not depend on the order of the ontologies, and
    flattening again changes nothing: a dictionary listed twice, or the
    flattened mapping put back as a single ontology, flattens to the same
    mapping. *)
Theorem flatten_order_independent (A B : string * OntologyRecord)
    (d d' : OntologyDictionary) (ty name : string) (m : AnnotationMap) :
  flatten [A; B] ty = flatten [B; A] ty
  /\ (d ≡ₚ d' -> flatten d ty = flatten d' ty)
  /\ flatten (d ++ d) ty = flatten d ty
  /\ flatten [(name, {[ty := m]})] ty = inr m.
Proof.
  split; [|split; [|split]].
  - apply flatten_same. intros o. rewrite !elem_of_cons. tauto.
  - intros Hperm. apply flatten_same. intros o. now rewrite Hperm.
  - apply flatten_same. intros o. rewrite elem_of_app. tauto.
  - apply flatten_single.
Qed.

Lemma flatten_order_independent_witness :
  Flattener.flatten [Example.hp; Example.mondo] "dbxref"
  = Flattener.flatten [Example.mondo; Example.hp] "dbxref"
  /\ Flattener.flatten ([Example.hp; Example.mondo] ++ [Example.hp; Example.mondo])
       "dbxref"
     = Flattener.flatten [Example.hp; Example.mondo] "dbxref".
Proof.
  destruct (flatten_order_independent Example.hp Example.mondo
              [Example.hp; Example.mondo] [Example.mondo; Example.hp]
              "dbxref" "merged" ∅)
    as (_ & Hperm & Hidem & _).
  split; [apply Hperm; apply perm_swap|exact Hidem].
Defined.



(** C10.  The join key of [dbxref_mapper] is the text after the last colon
    of the cross-reference and the evidence prefix the text before its first
    colon: every returned row has a cross-reference whose last segment is
    the row's [CODE], so a [CODE] never contains a colon. *)
Theorem dbxref_mapper_join_key
    (md : object -> string -> result (list (string * string)))
    (st : state) (ld : loc) (df : DataFrame) (items : list (string * string)) :
  mapper_ready md st ld df items ->
  exists out,
    returns (dbxref_mapper md (Frame ld)) st out
    /\ (forall r, r ∈ rows out ->
          exists dbxref,
            value out r "DBXREF" = Some (Str dbxref)
            /\ value out r "CODE"
               = Some (Str (PyStr.item_last (PyStr.split ":" dbxref)))
            /\ value out r "EVIDENCE"
               = Some (Str ("DbXRef_" +:+ PyStr.item_first (PyStr.split ":" dbxref))))
    /\ (forall r code, r ∈ rows out -> value out r "CODE" = Some (Str code) ->
          PyStr.occurs ":" code = false)
    /\ (forall front rest,
          PyStr.occurs ":" rest = false ->
          PyStr.item_last (PyStr.split ":" (front +:+ String ":" rest)) = rest)
    /\ (forall front rest,
          PyStr.occurs ":" front = false ->
          PyStr.item_first (PyStr.split ":" (front +:+ String ":" rest)) = front).
Proof.
  intros Hready.
  destruct (mapper_code_index md st ld df items Hready) as [i Hi].
  destruct (mapper_result md st ld df items Hready i Hi)
    as (out & Hret & _ & Hrows & Hcols & _).
  exists out. split; [exact Hret|].
  assert (Hrow : forall r,
            r ∈ rows out ->
            exists dbxref,
              value out r "DBXREF" = Some (Str dbxref)
              /\ value out r "CODE"
                 = Some (Str (PyStr.item_last (PyStr.split ":" dbxref)))
              /\ value out r "EVIDENCE"
                 = Some (Str ("DbXRef_"
                              +:+ PyStr.item_first (PyStr.split ":" dbxref)))).
  { intros r Hr.
    apply Hrows in Hr as (lr & [dbxref uri] & Hlr & Hkv & Hm & ->).
    destruct (mapper_row_values md st ld df items Hready i out lr (dbxref, uri)
                Hi Hcols Hlr) as (V1 & V2 & _ & _ & V5).
    exists dbxref. rewrite Hm in V1. auto. }
  repeat split.
  - exact Hrow.
  - intros r code Hr Hcode.
    destruct (Hrow r Hr) as (dbxref & _ & Hc & _).
    rewrite Hc in Hcode. injection Hcode as <-. apply item_last_clean.
  - intros front rest. apply item_last_after.
  - intros front rest. apply item_first_before.
Qed.

Lemma dbxref_mapper_join_key_witness :
  exists out,
    returns (dbxref_mapper (Example.items_of [("ICD9:123:4", "http://x/HP_001")])
                           (Frame 0))
            (Example.annotator [[Str "1"; Str "4"]; [Str "2"; Str "ICD9:123"]]) out
    /\ (forall r code, r ∈ rows out -> value out r "CODE" = Some (Str code) ->
          PyStr.occurs ":" code = false)
    /\ rows out
       = [[Str "1"; Str "4"; Str "ICD9:123:4"; Str "http://x/HP_001"; Str "HP";
           Str "DbXRef_ICD9"]].
Proof.
  destruct (dbxref_mapper_join_key
              (Example.items_of [("ICD9:123:4", "http://x/HP_001")])
              (Example.annotator [[Str "1"; Str "4"]; [Str "2"; Str "ICD9:123"]]) 0
              (Example.long_table [[Str "1"; Str "4"]; [Str "2"; Str "ICD9:123"]])
              [("ICD9:123:4", "http://x/HP_001")])
    as (out & Hret & _ & Hclean & _).
  - apply example_mapper_ready_code. repeat constructor.
  - exists out. split; [exact Hret|]. split; [exact Hclean|].
    destruct Hret as (l & Hl & Hout).
    vm_compute in Hl. injection Hl as <-.
    vm_compute in Hout. injection Hout as <-. reflexivity.
Defined.

(** * Further properties of the class *)

(** ** [dbxref_mapper] *)



(** X1.  The rows [dbxref_mapper] returns are exactly the rows built from a
    data row and a dictionary item whose code, the text after the last colon
    of the cross-reference, is the row's [CODE]: nothing else is in the
    result and no such pair is missing. *)
Theorem dbxref_mapper_rows
    (md : object -> string -> result (list (string * string)))
    (st : state) (ld : loc) (df : DataFrame) (items : list (string * string)) :
  mapper_ready md st ld df items ->
  exists out i,
    returns (dbxref_mapper md (Frame ld)) st out
    /\ column_index "CODE" (columns df) = Some i
    /\ forall r,
         r ∈ rows out
         <-> exists lr dbxref uri,
               In lr (rows df) /\ In (dbxref, uri) items
               /\ cell_at i lr = Str (PyStr.item_last (PyStr.split ":" dbxref))
               /\ r = matched_row (columns df) lr (dbxref, uri).
Proof.
  intros Hready.
  destruct (mapper_code_index md st ld df items Hready) as [i Hi].
  destruct (mapper_result md st ld df items Hready i Hi)
    as (out & Hret & _ & Hrows & _).
  exists out, i. split; [exact Hret|]. split; [exact Hi|].
  intros r. rewrite Hrows. split.
  - intros (lr & [dbxref uri] & H). exists lr, dbxref, uri. exact H.
  - intros (lr & dbxref & uri & H). exists lr, (dbxref, uri). exact H.
Qed.

Lemma dbxref_mapper_rows_witness :
  exists out i,
    returns (dbxref_mapper (Example.items_of [("A", "URI1")]) (Frame 0))
            (Example.annotator [[Str "1"; Str "A"]; [Str "1"; Str "B"]]) out
    /\ column_index "CODE" ["CONCEPT_ID"; "CODE"] = Some i
    /\ matched_row ["CONCEPT_ID"; "CODE"] [Str "1"; Str "A"] ("A", "URI1")
       ∈ rows out.
Proof.
  destruct (dbxref_mapper_rows (Example.items_of [("A", "URI1")])
              (Example.annotator [[Str "1"; Str "A"]; [Str "1"; Str "B"]]) 0
              (Example.long_table [[Str "1"; Str "A"]; [Str "1"; Str "B"]])
              [("A", "URI1")])
    as (out & i & Hret & Hi & Hrows).
  - apply example_mapper_ready_code. repeat constructor.
  - exists out, i. split; [exact Hret|]. split; [exact Hi|].
    apply Hrows. exists [Str "1"; Str "A"], "A", "URI1".
    vm_compute in Hi. injection Hi as <-.
    split; [simpl; auto|]. split; [simpl; auto|]. split; reflexivity.
Defined.




Lemma merge_without_code (df : DataFrame) (items : list (string * string)) :
  ~ In "CODE" (columns df) ->
  merge df (combo_dict_frame items) Inner "CODE" "CODE" = inl (KeyError "CODE").
Proof.
  intros Hcode. unfold merge. rewrite code_key. cbn [rbind].
  now rewrite (key_index_missing "CODE" (columns df) Hcode).
Qed.

(** X3.  Given a table without a [CODE] column, [dbxref_mapper] raises
    [KeyError] on [CODE]. *)
Theorem dbxref_mapper_without_code
    (md : object -> string -> result (list (string * string)))
    (st : state) (ld : loc) (df : DataFrame) (d : object)
    (items : list (string * string)) :
  self st !! "ontology_dictionary" = Some d ->
  md d "dbxref" = inr items ->
  heap st !! ld = Some df ->
  ~ In "CODE" (columns df) ->
  fst (dbxref_mapper md (Frame ld) st) = inl (KeyError "CODE").
Proof.
  intros Hd Hmd Hdf Hcode.
  pose proof (dbxref_mapper_run md st ld d items Hd Hmd
                (lookup_lt_Some _ _ _ Hdf)) as Hrun.
  assert (Hderef : deref (heap st) ld = df) by (unfold deref; now rewrite Hdf).
  rewrite Hderef in Hrun. unfold dbxref_mapper_frame in Hrun.
  rewrite (merge_without_code df _ Hcode) in Hrun.
  exact Hrun.
Qed.

Lemma dbxref_mapper_without_code_witness :
  fst (dbxref_mapper (Example.items_of [("A", "URI1")]) (Frame 1)
         (constructed Example.env without_thesaurus []))
  = inl (KeyError "CODE").
Proof.
  apply (dbxref_mapper_without_code (Example.items_of [("A", "URI1")])
           (constructed Example.env without_thesaurus []) 1 Example.clinical
           (Plain (PyDict [Example.hp; Example.mondo])) [("A", "URI1")]).
  - vm_compute. reflexivity.
  - reflexivity.
  - vm_compute. reflexivity.
  - simpl. intuition discriminate.
Defined.

(** X4.  When [merge_dictionaries] raises, [dbxref_mapper] raises the same
    exception before it builds any table: the state is left as it was. *)
Theorem dbxref_mapper_propagates
    (md : object -> string -> result (list (string * string)))
    (st : state) (data d : object) (e : exn) :
  self st !! "ontology_dictionary" = Some d ->
  md d "dbxref" = inl e ->
  dbxref_mapper md data st = (inl e, st).
Proof.
  intros Hd Hmd. destruct st as [s h]. simpl in Hd.
  unfold dbxref_mapper.
  rewrite bind_run, (getattr_run _ _ _ _ Hd).
  rewrite bind_run, Hmd, lift_run. reflexivity.
Qed.

Lemma dbxref_mapper_propagates_witness :
  dbxref_mapper (fun _ _ => inl (KeyError "dbxref")) (Frame 0)
    (Example.annotator [[Str "1"; Str "A"]])
  = (inl (KeyError "dbxref"), Example.annotator [[Str "1"; Str "A"]]).
Proof.
  apply (dbxref_mapper_propagates (fun _ _ => inl (KeyError "dbxref"))
           (Example.annotator [[Str "1"; Str "A"]]) (Frame 0)
           (Plain (PyDict [Example.hp])) (KeyError "dbxref")).
  - vm_compute. reflexivity.
  - reflexivity.
Defined.

Lemma in_remove_nth_other (k c : string) (cols : list string) (i : nat) :
  column_index k cols = Some i -> c <> k -> In c cols -> In c (remove_nth i cols).
Proof.
  intros Hi Hne Hin. rewrite (column_index_split k cols i Hi) in Hin.
  rewrite remove_nth_split. apply in_or_app.
  apply in_app_or in Hin as [Hin|[Heq|Hin]]; [now left|congruence|now right].
Qed.

Lemma not_suffixed_uri (c : string) : c +:+ "_x" <> "ONT_URI".
Proof.
  intros Heq.
  do 8 (destruct c as [|? c]; [cbn in Heq; discriminate|]).
  cbn in Heq. discriminate.
Qed.

Lemma left_label_renamed (others : list string) (c : string) :
  In "ONT_URI" others -> suffixed "_x" others c <> "ONT_URI".
Proof.
  intros Hin. unfold suffixed.
  destruct (has_column c others) eqn:E; [apply not_suffixed_uri|].
  apply has_column_false in E. intros ->. contradiction.
Qed.

Lemma right_label_renamed (cols : list string) (c : string) :
  In "ONT_URI" cols -> In c ["DBXREF"; "ONT_URI"; "CODE"] ->
  suffixed "_y" cols c <> "ONT_URI".
Proof.
  intros Hin [<-|[<-|[<-|[]]]]; unfold suffixed.
  - destruct (has_column "DBXREF" cols); discriminate.
  - destruct (has_column "ONT_URI" cols) eqn:E; [discriminate|].
    apply has_column_false in E. contradiction.
  - destruct (has_column "CODE" cols); discriminate.
Qed.

Lemma merged_without_uri (lcols rcols : list string) :
  In "ONT_URI" lcols -> In "ONT_URI" rcols ->
  (forall c, In c rcols -> In c ["DBXREF"; "ONT_URI"; "CODE"]) ->
  column_index "ONT_URI"
    (map (suffixed "_x" rcols) lcols ++ map (suffixed "_y" lcols) rcols) = None.
Proof.
  intros Hl Hr Hsub. apply column_index_None. rewrite in_app_iff, !in_map_iff.
  intros [(c & Hc & _)|(c & Hc & Hc')].
  - revert Hc. now apply left_label_renamed.
  - revert Hc. apply right_label_renamed; [exact Hl|]. now apply Hsub.
Qed.

Lemma dbxref_mapper_frame_clash (items : list (string * string)) (df : DataFrame) :
  NoDup (columns df) ->
  In "CODE" (columns df) -> In "ONT_URI" (columns df) ->
  dbxref_mapper_frame items df = inl (KeyError "ONT_URI").
Proof.
  intros Hnodup Hcode Huri.
  destruct (column_index "CODE" (columns df)) as [i|] eqn:Hi;
    [|apply column_index_None in Hi; contradiction].
  unfold dbxref_mapper_frame, merge.
  rewrite code_key, (key_index_found "CODE" (columns df) i Hnodup Hi).
  cbn [rbind].
  change (String.eqb "CODE" "CODE") with true.
  change (columns (combo_dict_frame items)) with ["DBXREF"; "ONT_URI"; "CODE"].
  destruct (is_empty df); cbn [andb negb remove_nth];
    unfold getitem at 1, drop_duplicates at 1; cbn [columns rbind].
  - rewrite merged_without_uri; [reflexivity| | |].
    + apply (in_remove_nth_other "CODE"); [exact Hi|discriminate|exact Huri].
    + simpl. auto.
    + auto.
  - rewrite merged_without_uri; [reflexivity|exact Huri| |].
    + simpl. auto.
    + simpl. intuition.
Qed.

(** X5.  [dbxref_mapper] cannot be applied to a table that already has an
    [ONT_URI] column, its own result for one: the merge renames the clashing
    columns with [_x] and [_y], and reading [ONT_URI] raises [KeyError].
    The labels of the table are distinct. *)
Theorem dbxref_mapper_on_mapped
    (md : object -> string -> result (list (string * string)))
    (st : state) (ld : loc) (df : DataFrame) (d : object)
    (items : list (string * string)) :
  self st !! "ontology_dictionary" = Some d ->
  md d "dbxref" = inr items ->
  heap st !! ld = Some df ->
  NoDup (columns df) ->
  In "CODE" (columns df) -> In "ONT_URI" (columns df) ->
  fst (dbxref_mapper md (Frame ld) st) = inl (KeyError "ONT_URI").
Proof.
  intros Hd Hmd Hdf Hnodup Hcode Huri.
  pose proof (dbxref_mapper_run md st ld d items Hd Hmd
                (lookup_lt_Some _ _ _ Hdf)) as Hrun.
  assert (Hderef : deref (heap st) ld = df) by (unfold deref; now rewrite Hdf).
  rewrite Hderef, (dbxref_mapper_frame_clash _ df Hnodup Hcode Huri) in Hrun.
  exact Hrun.
Qed.

Lemma dbxref_mapper_on_mapped_witness :
  fst (dbxref_mapper (Example.items_of [("A", "URI1")]) (Frame 0)
         (Example.annotator [[Str "1"; Str "A"]]))
  = inr (Frame 4)
  /\ fst (dbxref_mapper (Example.items_of [("A", "URI1")]) (Frame 4)
            (snd (dbxref_mapper (Example.items_of [("A", "URI1")]) (Frame 0)
                    (Example.annotator [[Str "1"; Str "A"]]))))
     = inl (KeyError "ONT_URI").
Proof.
  split; [vm_compute; reflexivity|].
  apply (dbxref_mapper_on_mapped (Example.items_of [("A", "URI1")]) _ 4
           (mkFrame ["CONCEPT_ID"; "CODE"; "DBXREF"; "ONT_URI"; "ONT"; "EVIDENCE"]
                    [[Str "1"; Str "A"; Str "A"; Str "URI1"; Str "URI1";
                      Str "DbXRef_A"]])
           (Plain (PyDict [Example.hp])) [("A", "URI1")]).
  - vm_compute. reflexivity.
  - reflexivity.
  - vm_compute. reflexivity.
  - distinct_labels.
  - simpl. auto.
  - simpl. auto.
Defined.

(** ** The three lambdas *)

Lemma upper_ascii_idempotent (c : ascii) :
  PyStr.upper_ascii (PyStr.upper_ascii c) = PyStr.upper_ascii c.
Proof. destruct c as [[] [] [] [] [] [] [] []]; reflexivity. Qed.

Lemma upper_idempotent (s : string) : PyStr.upper (PyStr.upper s) = PyStr.upper s.
Proof.
  induction s as [|c s IH]; simpl; [reflexivity|].
  now rewrite upper_ascii_idempotent, IH.
Qed.

Lemma upper_ascii_slash (c : ascii) :
  Ascii.eqb (PyStr.upper_ascii c) "/" = Ascii.eqb c "/".
Proof. destruct c as [[] [] [] [] [] [] [] []]; reflexivity. Qed.

Lemma upper_ascii_underscore (c : ascii) :
  Ascii.eqb (PyStr.upper_ascii c) "_" = Ascii.eqb c "_".
Proof. destruct c as [[] [] [] [] [] [] [] []]; reflexivity. Qed.

Lemma occurs_upper_slash (s : string) :
  PyStr.occurs "/" (PyStr.upper s) = PyStr.occurs "/" s.
Proof.
  induction s as [|c s IH]; simpl; [reflexivity|].
  now rewrite upper_ascii_slash, IH.
Qed.

Lemma occurs_upper_underscore (s : string) :
  PyStr.occurs "_" (PyStr.upper s) = PyStr.occurs "_" s.
Proof.
  induction s as [|c s IH]; simpl; [reflexivity|].
  now rewrite upper_ascii_underscore, IH.
Qed.

Lemma split_keeps_clean (c sep : ascii) (s : string) :
  PyStr.occurs c s = false ->
  Forall (fun piece => PyStr.occurs c piece = false) (PyStr.split sep s).
Proof.
  induction s as [|d s IH]; simpl; intros H.
  - repeat constructor.
  - apply orb_false_iff in H as [Hd Hs]. specialize (IH Hs).
    destruct (Ascii.eqb d sep).
    + constructor; [reflexivity|exact IH].
    + destruct (PyStr.split sep s) as [|piece pieces].
      * repeat constructor. simpl. now rewrite Hd.
      * inversion IH; subst. constructor; [|assumption].
        simpl. rewrite Hd. assumption.
Qed.

Lemma item_first_in (l : list string) :
  l <> [] -> In (PyStr.item_first l) l.
Proof. destruct l; [congruence|]. intros _. now left. Qed.

Lemma uri_ontology_clean (x : string) :
  PyStr.occurs "/" (uri_ontology x) = false
  /\ PyStr.occurs "_" (uri_ontology x) = false
  /\ PyStr.upper (uri_ontology x) = uri_ontology x.
Proof.
  unfold uri_ontology. split; [|split].
  - rewrite occurs_upper_slash.
    pose proof (split_keeps_clean "/" "_" _ (item_last_clean "/" x)) as Hall.
    rewrite List.Forall_forall in Hall. apply Hall.
    apply item_first_in, split_nonempty.
  - rewrite occurs_upper_underscore. apply item_first_clean.
  - apply upper_idempotent.
Qed.

(** X6.  The [ONT] cell of every row [dbxref_mapper] returns is text without
    slash and without underscore, and upper-casing it changes nothing. *)
Theorem dbxref_mapper_acronym
    (md : object -> string -> result (list (string * string)))
    (st : state) (ld : loc) (df : DataFrame) (items : list (string * string)) :
  mapper_ready md st ld df items ->
  exists out,
    returns (dbxref_mapper md (Frame ld)) st out
    /\ forall r, r ∈ rows out ->
         exists ont,
           value out r "ONT" = Some (Str ont)
           /\ PyStr.occurs "/" ont = false
           /\ PyStr.occurs "_" ont = false
           /\ PyStr.upper ont = ont.
Proof.
  intros Hready.
  destruct (mapper_code_index md st ld df items Hready) as [i Hi].
  destruct (mapper_result md st ld df items Hready i Hi)
    as (out & Hret & _ & Hrows & Hcols & _).
  exists out. split; [exact Hret|]. intros r Hr.
  apply Hrows in Hr as (lr & kv & Hlr & Hkv & Hm & ->).
  destruct (mapper_row_values md st ld df items Hready i out lr kv Hi Hcols Hlr)
    as (_ & _ & _ & V4 & _).
  exists (uri_ontology (snd kv)). split; [exact V4|]. apply uri_ontology_clean.
Qed.

Lemma dbxref_mapper_acronym_witness :
  exists out,
    returns (dbxref_mapper (Example.items_of [("ICD9:123", "http://x/hp_001")])
                           (Frame 0))
            (Example.annotator [[Str "1"; Str "123"]]) out
    /\ (forall r, r ∈ rows out ->
          exists ont,
            value out r "ONT" = Some (Str ont)
            /\ PyStr.occurs "/" ont = false
            /\ PyStr.occurs "_" ont = false
            /\ PyStr.upper ont = ont)
    /\ rows out
       = [[Str "1"; Str "123"; Str "ICD9:123"; Str "http://x/hp_001"; Str "HP";
           Str "DbXRef_ICD9"]].
Proof.
  destruct (dbxref_mapper_acronym
              (Example.items_of [("ICD9:123", "http://x/hp_001")])
              (Example.annotator [[Str "1"; Str "123"]]) 0
              (Example.long_table [[Str "1"; Str "123"]])
              [("ICD9:123", "http://x/hp_001")])
    as (out & Hret & Hont).
  - apply example_mapper_ready_code. repeat constructor.
  - exists out. split; [exact Hret|]. split; [exact Hont|].
    destruct Hret as (l & Hl & Hout).
    vm_compute in Hl. injection Hl as <-.
    vm_compute in Hout. injection Hout as <-. reflexivity.
Defined.

(** X7.  A cross-reference without colon is its own code and its own
    vocabulary prefix: a row whose [CODE] is the whole cross-reference
    matches, and its [EVIDENCE] is ["DbXRef_"] followed by the whole
    cross-reference. *)
Theorem dbxref_mapper_plain_reference
    (md : object -> string -> result (list (string * string)))
    (st : state) (ld : loc) (df : DataFrame) (items : list (string * string))
    (lr : list cell) (dbxref uri : string) :
  mapper_ready md st ld df items ->
  In lr (rows df) -> In (dbxref, uri) items ->
  PyStr.occurs ":" dbxref = false ->
  value df lr "CODE" = Some (Str dbxref) ->
  exists out r,
    returns (dbxref_mapper md (Frame ld)) st out
    /\ r ∈ rows out
    /\ value out r "CODE" = Some (Str dbxref)
    /\ value out r "DBXREF" = Some (Str dbxref)
    /\ value out r "EVIDENCE" = Some (Str ("DbXRef_" +:+ dbxref)).
Proof.
  intros Hready Hlr Hkv Hplain Hcode.
  destruct (mapper_code_index md st ld df items Hready) as [i Hi].
  destruct (mapper_result md st ld df items Hready i Hi)
    as (out & Hret & _ & Hrows & Hcols & _).
  unfold value in Hcode. rewrite Hi in Hcode. simpl in Hcode.
  injection Hcode as Hcell.
  assert (Hlast : dbxref_code dbxref = dbxref)
    by (apply item_last_whole; exact Hplain).
  assert (Hfirst : dbxref_evidence dbxref = "DbXRef_" +:+ dbxref).
  { unfold dbxref_evidence. now rewrite (split_single ":" dbxref Hplain). }
  exists out, (matched_row (columns df) lr (dbxref, uri)).
  split; [exact Hret|]. split.
  - apply Hrows. exists lr, (dbxref, uri).
    repeat split; auto. cbn [fst]. now rewrite Hlast.
  - destruct (mapper_row_values md st ld df items Hready i out lr (dbxref, uri)
                Hi Hcols Hlr) as (V1 & V2 & _ & _ & V5).
    cbn [fst] in V2, V5. rewrite Hcell in V1. rewrite Hfirst in V5. auto.
Qed.

Lemma dbxref_mapper_plain_reference_witness :
  exists out r,
    returns (dbxref_mapper (Example.items_of [("A", "URI1")]) (Frame 0))
            (Example.annotator [[Str "1"; Str "A"]]) out
    /\ r ∈ rows out
    /\ value out r "CODE" = Some (Str "A")
    /\ value out r "DBXREF" = Some (Str "A")
    /\ value out r "EVIDENCE" = Some (Str "DbXRef_A").
Proof.
  apply (dbxref_mapper_plain_reference (Example.items_of [("A", "URI1")])
           (Example.annotator [[Str "1"; Str "A"]]) 0
           (Example.long_table [[Str "1"; Str "A"]]) [("A", "URI1")]
           [Str "1"; Str "A"] "A" "URI1").
  - apply example_mapper_ready_code. repeat constructor.
  - simpl. auto.
  - simpl. auto.
  - reflexivity.
  - reflexivity.
Defined.

(** ** [umls_cui_annotator] *)

Lemma elem_of_join_semantic_types (joined : list (cell * cell * ConceptRow))
    (semtypes : list SemanticTypeRow) (pc : cell * cell * ConceptRow) (sty : cell) :
  (pc, sty) ∈ join_semantic_types joined semtypes ->
  pc ∈ joined
  /\ ((sty = NaN /\ forall t, t ∈ semtypes -> fst t <> concept_id (snd pc))
      \/ (concept_id (snd pc), sty) ∈ semtypes).
Proof.
  unfold join_semantic_types. rewrite list_elem_of_In, in_flat_map.
  intros (pc' & Hpc & Hin).
  destruct (List.filter (fun t => bool_decide (fst t = concept_id (snd pc')))
                        semtypes) as [|t ts] eqn:E.
  - destruct Hin as [[= <- <-]|[]]. split; [now apply list_elem_of_In|].
    left. split; [reflexivity|]. intros t Ht Heq.
    assert (Hf : In t (List.filter
                         (fun t => bool_decide (fst t = concept_id (snd pc')))
                         semtypes)).
    { apply filter_In. split; [now apply list_elem_of_In|].
      now apply bool_decide_eq_true. }
    rewrite E in Hf. destruct Hf.
  - apply in_map_iff in Hin as (t' & [= <- <-] & Ht').
    rewrite <- E in Ht'. apply filter_In in Ht' as [Ht' Hm].
    apply bool_decide_eq_true in Hm.
    split; [now apply list_elem_of_In|]. right.
    apply list_elem_of_In. rewrite <- Hm. now destruct t'.
Qed.

Lemma elem_of_annotated (pairs : list (cell * cell)) (concepts : list ConceptRow)
    (semtypes : list SemanticTypeRow) (r : list cell) :
  r ∈ map enriched_cells (annotate_with_thesaurus pairs concepts semtypes) ->
  exists k code cui sab sty,
    r = [k; code; cui; sab; code; sty]
    /\ (k, code) ∈ pairs
    /\ (cui, sab, code) ∈ concepts
    /\ ((sty = NaN /\ forall t, t ∈ semtypes -> fst t <> cui)
        \/ (cui, sty) ∈ semtypes).
Proof.
  rewrite list_elem_of_In, in_map_iff.
  intros ([[[k code] [[cui sab] code']] sty] & <- & Hin).
  apply list_elem_of_In in Hin. unfold annotate_with_thesaurus in Hin.
  apply elem_of_unique_nil, elem_of_join_semantic_types in Hin as [Hpc Hsty].
  apply elem_of_join_concepts in Hpc as (Hp & Hc & Hm).
  unfold distinct_pairs in Hp. rewrite elem_of_unique_nil in Hp.
  cbn in Hm. subst code'.
  exists k, code, cui, sab, sty.
  split; [reflexivity|]. split; [exact Hp|]. split; [exact Hc|]. exact Hsty.
Qed.

(** X8.  Every row [umls_cui_annotator] returns is made of a (primary key,
    code) pair of the clinical table and a concept row of the thesaurus with
    that same code, so [UMLS_CODE] repeats the code; its semantic type is one
    the thesaurus lists for the concept, or missing when it lists none. *)
Theorem umls_cui_annotator_rows (st : state) (clinical cui tui : DataFrame)
    (pk cl : string) (i j : nat) :
  thesaurus_ready st clinical cui tui ->
  column_index pk (columns clinical) = Some i ->
  column_index cl (columns clinical) = Some j ->
  pk <> cl -> cl <> "CODE" -> pk <> "CUI" -> cl <> "CUI" ->
  exists out,
    returns (umls_cui_annotator pk cl) st out
    /\ forall r, r ∈ rows out ->
         exists k code cui_id sab sty,
           r = [k; code; cui_id; sab; code; sty]
           /\ (exists lr, In lr (rows clinical)
                          /\ cell_at i lr = k /\ cell_at j lr = code)
           /\ In [cui_id; sab; code] (rows cui)
           /\ ((sty = NaN /\ forall tr, In tr (rows tui) -> cell_at 0 tr <> cui_id)
               \/ In [cui_id; sty] (rows tui)).
Proof.
  intros Hready Hi Hj Hne Hcode Hpk Hcl.
  destruct (annotator_result st clinical cui tui pk cl i j
              Hready Hi Hj Hne Hcode Hpk Hcl)
    as (out & Hret & _ & _ & Hrows).
  destruct Hready as (_ & _ & _ & Hcc & Hcr & Htc & Htr).
  rewrite List.Forall_forall in Hcr, Htr.
  exists out. split; [exact Hret|]. intros r Hr.
  apply Hrows, elem_of_annotated in Hr
    as (k & code & cui_id & sab & sty & -> & Hp & Hc & Hsty).
  exists k, code, cui_id, sab, sty. split; [reflexivity|]. split; [|split].
  - unfold key_pairs in Hp. apply list_elem_of_In, in_map_iff in Hp
      as (lr & [= <- <-] & Hlr). eauto.
  - unfold concept_rows in Hc. apply list_elem_of_In, in_map_iff in Hc
      as (cr & [= <- <- <-] & Hcr'). now rewrite <- (row_of_three cr (Hcr cr Hcr')).
  - destruct Hsty as [[-> Hnone]|Hsome].
    + left. split; [reflexivity|]. intros tr Htr' Heq.
      apply (Hnone (cell_at 0 tr, cell_at 1 tr)); [|exact Heq].
      unfold semantic_type_rows. apply list_elem_of_In, in_map_iff. eauto.
    + right. unfold semantic_type_rows in Hsome.
      apply list_elem_of_In, in_map_iff in Hsome as (tr & [= <- <-] & Htr').
      now rewrite <- (row_of_two tr (Htr tr Htr')).
Qed.

Lemma example_thesaurus_ready :
  thesaurus_ready (constructed Example.env with_thesaurus []) Example.clinical
    (mrconso_frame Example.mrconso_rows) (mkFrame ["CUI"; "STY"] Example.mrsty_rows).
Proof.
  unfold thesaurus_ready. split; [|split; [|split; [|split; [|split; [|split]]]]].
  - exists 1. split; vm_compute; reflexivity.
  - exists 6. split; vm_compute; reflexivity.
  - exists 9. split; vm_compute; reflexivity.
  - reflexivity.
  - vm_compute. repeat constructor.
  - reflexivity.
  - repeat constructor.
Qed.

Lemma umls_cui_annotator_rows_witness :
  exists out,
    returns (umls_cui_annotator "CONCEPT_ID" "CONCEPT_SOURCE_CODE")
            (constructed Example.env with_thesaurus []) out
    /\ forall r, r ∈ rows out ->
         exists k code cui_id sab sty,
           r = [k; code; cui_id; sab; code; sty]
           /\ (exists lr, In lr (rows Example.clinical)
                          /\ cell_at 0 lr = k /\ cell_at 1 lr = code)
           /\ In [cui_id; sab; code] (rows (mrconso_frame Example.mrconso_rows))
           /\ ((sty = NaN
                /\ forall tr, In tr Example.mrsty_rows -> cell_at 0 tr <> cui_id)
               \/ In [cui_id; sty] Example.mrsty_rows).
Proof.
  apply (umls_cui_annotator_rows (constructed Example.env with_thesaurus [])
           Example.clinical (mrconso_frame Example.mrconso_rows)
           (mkFrame ["CUI"; "STY"] Example.mrsty_rows)
           "CONCEPT_ID" "CONCEPT_SOURCE_CODE" 0 1).
  - apply example_thesaurus_ready.
  - reflexivity.
  - reflexivity.
  - discriminate.
  - discriminate.
  - discriminate.
  - discriminate.
Defined.

(** X9.  For a primary key and a code column as in C2, a code that no row
    of the concept table has yields no row in the result of
    [umls_cui_annotator], and the call returns a table all the same. *)
Theorem umls_cui_annotator_unmatched (st : state) (clinical cui tui : DataFrame)
    (pk cl : string) (i j : nat) (code : cell) :
  thesaurus_ready st clinical cui tui ->
  column_index pk (columns clinical) = Some i ->
  column_index cl (columns clinical) = Some j ->
  pk <> cl -> cl <> "CODE" -> pk <> "CUI" -> cl <> "CUI" ->
  (forall cr, In cr (rows cui) -> cell_at 2 cr <> code) ->
  exists out,
    returns (umls_cui_annotator pk cl) st out
    /\ forall r, r ∈ rows out -> cell_at 1 r <> code.
Proof.
  intros Hready Hi Hj Hne Hcode Hpk Hcl Hnone.
  destruct (annotator_result st clinical cui tui pk cl i j
              Hready Hi Hj Hne Hcode Hpk Hcl)
    as (out & Hret & _ & _ & Hrows).
  exists out. split; [exact Hret|]. intros r Hr.
  apply Hrows, elem_of_annotated in Hr
    as (k & code' & cui_id & sab & sty & -> & _ & Hc & _).
  unfold concept_rows in Hc. apply list_elem_of_In, in_map_iff in Hc
    as (cr & [= _ _ <-] & Hcr').
  cbn. now apply Hnone.
Qed.

Lemma umls_cui_annotator_unmatched_witness :
  exists out,
    returns (umls_cui_annotator "CONCEPT_ID" "CONCEPT_SOURCE_CODE")
            (constructed
               (world_of (mkFrame ["CONCEPT_ID"; "CONCEPT_SOURCE_CODE"]
                                  [[Str "1"; Str "123"]; [Str "2"; Str "999"]]))
               with_thesaurus []) out
    /\ (forall r, r ∈ rows out -> cell_at 1 r <> Str "999")
    /\ rows out = [[Str "1"; Str "123"; Str "CUI1"; Str "SAB1"; Str "123"; NaN]].
Proof.
  destruct (umls_cui_annotator_unmatched
              (constructed
                 (world_of (mkFrame ["CONCEPT_ID"; "CONCEPT_SOURCE_CODE"]
                                    [[Str "1"; Str "123"]; [Str "2"; Str "999"]]))
                 with_thesaurus [])
              (mkFrame ["CONCEPT_ID"; "CONCEPT_SOURCE_CODE"]
                       [[Str "1"; Str "123"]; [Str "2"; Str "999"]])
              (mrconso_frame Example.mrconso_rows)
              (mkFrame ["CUI"; "STY"] Example.mrsty_rows)
              "CONCEPT_ID" "CONCEPT_SOURCE_CODE" 0 1 (Str "999"))
    as (out & Hret & Hnone).
  - unfold thesaurus_ready. split; [|split; [|split; [|split; [|split; [|split]]]]].
    + exists 1. split; vm_compute; reflexivity.
    + exists 6. split; vm_compute; reflexivity.
    + exists 9. split; vm_compute; reflexivity.
    + reflexivity.
    + vm_compute. repeat constructor.
    + reflexivity.
    + repeat constructor.
  - reflexivity.
  - reflexivity.
  - discriminate.
  - discriminate.
  - discriminate.
  - discriminate.
  - vm_compute. intros cr [<-|[]]. discriminate.
  - exists out. split; [exact Hret|]. split; [exact Hnone|].
    destruct Hret as (l & Hl & Hout).
    vm_compute in Hl. injection Hl as <-.
    vm_compute in Hout. injection Hout as <-. reflexivity.
Defined.

(** ** [umls_cui_annotator] *)










Lemma getitem_list_missing_first (df : DataFrame) (c c' : string) :
  ~ In c (columns df) -> getitem_list df [c; c'] = inl (KeyError c).
Proof.
  intros Hc. apply column_index_None in Hc.
  unfold getitem_list. cbn [column_indices]. now rewrite Hc.
Qed.

Lemma getitem_list_missing_second (df : DataFrame) (c c' : string) :
  In c (columns df) -> ~ In c' (columns df) ->
  getitem_list df [c; c'] = inl (KeyError c').
Proof.
  intros Hc Hc'. apply column_index_None in Hc'.
  destruct (column_index c (columns df)) as [i|] eqn:Hi;
    [|apply column_index_None in Hi; contradiction].
  unfold getitem_list. cbn [column_indices]. now rewrite Hi, Hc'.
Qed.

Lemma umls_cui_annotator_selection (st : state) (lc : loc) (clinical : DataFrame)
    (pk cl : string) (e : exn) :
  self st !! "clinical_data" = Some (Frame lc) ->
  heap st !! lc = Some clinical ->
  getitem_list clinical [pk; cl] = inl e ->
  umls_cui_annotator pk cl st = (inl e, st).
Proof.
  intros Hc Hlc Hsel. destruct st as [s h]. cbn [self heap] in *.
  assert (Hderef : deref h lc = clinical) by (unfold deref; now rewrite Hlc).
  unfold umls_cui_annotator.
  rewrite bind_run, (getattr_run _ _ _ _ Hc).
  rewrite bind_run, df_getitem_list_run. cbn [heap].
  now rewrite Hderef, Hsel.
Qed.

(** X11.  When the clinical table lacks the primary key column or the code
    column, [umls_cui_annotator] raises [KeyError] on the first missing one
    and leaves the state as it was. *)
Theorem umls_cui_annotator_missing_column (st : state) (lc : loc)
    (clinical : DataFrame) (pk cl : string) :
  self st !! "clinical_data" = Some (Frame lc) ->
  heap st !! lc = Some clinical ->
  (~ In pk (columns clinical) ->
   umls_cui_annotator pk cl st = (inl (KeyError pk), st))
  /\ (In pk (columns clinical) -> ~ In cl (columns clinical) ->
      umls_cui_annotator pk cl st = (inl (KeyError cl), st)).
Proof.
  intros Hc Hlc. split.
  - intros Hpk. apply (umls_cui_annotator_selection st lc clinical); auto.
    now apply getitem_list_missing_first.
  - intros Hpk Hcl. apply (umls_cui_annotator_selection st lc clinical); auto.
    now apply getitem_list_missing_second.
Qed.

Lemma umls_cui_annotator_missing_column_witness :
  fst (umls_cui_annotator "ID" "CODE" coded_annotator) = inl (KeyError "ID")
  /\ fst (umls_cui_annotator "CONCEPT_ID" "SOURCE" coded_annotator)
     = inl (KeyError "SOURCE").
Proof.
  destruct (umls_cui_annotator_missing_column coded_annotator 0
              (mkFrame ["CONCEPT_ID"; "CODE"] [[Str "1"; Str "123"]])
              "ID" "CODE") as [H1 _]; [vm_compute; reflexivity|reflexivity|].
  destruct (umls_cui_annotator_missing_column coded_annotator 0
              (mkFrame ["CONCEPT_ID"; "CODE"] [[Str "1"; Str "123"]])
              "CONCEPT_ID" "SOURCE") as [_ H2]; [vm_compute; reflexivity|reflexivity|].
  split.
  - rewrite H1; [reflexivity|]. simpl. intuition discriminate.
  - rewrite H2; [reflexivity| |].
    + simpl. auto.
    + simpl. intuition discriminate.
Defined.

Lemma umls_cui_annotator_frame_same (clinical cui tui : DataFrame) (pk : string) :
  In pk (columns clinical) ->
  columns cui = ["CUI"; "SAB"; "CODE"] ->
  umls_cui_annotator_frame clinical cui tui pk pk
  = inl (ValueError ("The column label '" +:+ pk +:+ "' is not unique.")).
Proof.
  intros Hpk Hcc.
  destruct (column_index pk (columns clinical)) as [i|] eqn:Hi;
    [|apply column_index_None in Hi; contradiction].
  unfold umls_cui_annotator_frame, getitem_list. cbn [column_indices].
  rewrite Hi. cbn [rbind].
  unfold merge, drop_duplicates. cbn [columns]. rewrite Hcc.
  change (key_index "CODE" ["CUI"; "SAB"; "CODE"]) with (@inr exn nat 2).
  cbn [rbind]. unfold key_index, has_column. cbn [column_index skipn].
  rewrite String.eqb_refl. cbn [skipn column_index].
  rewrite String.eqb_refl. reflexivity.
Qed.

(** X21.  Called with one column as primary key and as code column,
    [umls_cui_annotator] raises [ValueError]: the selection carries the
    label twice, and the merge refuses a key that several columns carry. *)
Theorem umls_cui_annotator_same_column (st : state) (clinical cui tui : DataFrame)
    (pk : string) :
  thesaurus_ready st clinical cui tui ->
  In pk (columns clinical) ->
  fst (umls_cui_annotator pk pk st)
  = inl (ValueError ("The column label '" +:+ pk +:+ "' is not unique.")).
Proof.
  intros Hready Hpk.
  pose proof (annotator_frames st clinical cui tui pk pk Hready) as Hrun.
  destruct Hready as (_ & _ & _ & Hcc & _).
  now rewrite (umls_cui_annotator_frame_same clinical cui tui pk Hpk Hcc) in Hrun.
Qed.

Lemma umls_cui_annotator_same_column_witness :
  fst (umls_cui_annotator "CONCEPT_ID" "CONCEPT_ID"
         (constructed Example.env with_thesaurus []))
  = inl (ValueError "The column label 'CONCEPT_ID' is not unique.").
Proof.
  apply (umls_cui_annotator_same_column
           (constructed Example.env with_thesaurus [])
           Example.clinical (mrconso_frame Example.mrconso_rows)
           (mkFrame ["CUI"; "STY"] Example.mrsty_rows) "CONCEPT_ID").
  - apply example_thesaurus_ready.
  - simpl. auto.
Defined.

(** X12.  A table returned by [umls_cui_annotator] or [dbxref_mapper] is a
    new object: it is none of the tables that existed before the call. *)
Theorem methods_return_new_tables
    (md : object -> string -> result (list (string * string)))
    (st : state) (pk cl : string) (data : object) (l : loc) :
  (fst (umls_cui_annotator pk cl st) = inr (Frame l) -> length (heap st) <= l)
  /\ (fst (dbxref_mapper md data st) = inr (Frame l) -> length (heap st) <= l).
Proof.
  split; intros Hret.
  - destruct (keeps_umls_cui_annotator (length (heap st)) pk cl st (le_n _))
      as (_ & _ & _ & Hfresh).
    exact (Hfresh (Frame l) Hret).
  - destruct (keeps_dbxref_mapper (length (heap st)) md data st (le_n _))
      as (_ & _ & _ & Hfresh).
    exact (Hfresh (Frame l) Hret).
Qed.

Lemma methods_return_new_tables_witness :
  length (heap (constructed Example.env with_thesaurus [])) <= 14
  /\ length (heap (Example.annotator [[Str "1"; Str "A"]])) <= 4.
Proof.
  destruct (methods_return_new_tables (Example.items_of [("A", "URI1")])
              (constructed Example.env with_thesaurus [])
              "CONCEPT_ID" "CONCEPT_SOURCE_CODE" (Frame 0) 14) as [H1 _].
  destruct (methods_return_new_tables (Example.items_of [("A", "URI1")])
              (Example.annotator [[Str "1"; Str "A"]])
              "CONCEPT_ID" "CONCEPT_SOURCE_CODE" (Frame 0) 4) as [_ H2].
  split; [apply H1|apply H2]; vm_compute; reflexivity.
Defined.

(** ** The constructor *)

Section ConstructorFacts.

Variables (env : Env) (a : Args).

Lemma keeps_df_filter_ne (n : nat) (v : object) (c text : string) :
  keeps n (fresh_from n) (df_filter_ne v c text).
Proof.
  unfold df_filter_ne.
  eapply keeps_bind; [apply keeps_subscripted|]. intros df _.
  eapply keeps_bind; [apply keeps_lift|]. intros out _.
  apply keeps_new_frame.
Qed.

Lemma retains_load_mrconso (name : string) :
  name <> "umls_data" -> name <> "umls_cui_data" ->
  retains name (load_mrconso env a).
Proof.
  intros Hd Hc. unfold load_mrconso.
  destruct (negb (truthy (umls_mrconso_file a))); [now apply retains_setattr|].
  destruct (umls_mrconso_file a) as [| |f| |]; try apply retains_raise.
  destruct (negb (path_exists env f)); [apply retains_raise|].
  destruct (Nat.eqb (st_size env f) 0); [apply retains_raise|].
  apply retains_read_names. intros raw.
  apply retains_drop_duplicates. intros distinct.
  apply retains_astype_str. intros text.
  apply retains_bind; [now apply retains_setattr|]. intros _.
  apply retains_bind.
  { apply (retains_keeps name (fun _ => anything)). intros n. apply keeps_getattr. }
  intros loaded.
  apply retains_bind.
  { apply (retains_keeps name fresh_from). intros n. apply keeps_df_filter_ne. }
  intros coded.
  apply retains_drop_duplicates. intros final.
  now apply retains_setattr.
Qed.

(** The states between the constructor's blocks. *)
Lemma init_stages (st : state) :
  fst (init env a st) = inr tt ->
  exists st1 st2 st3 st4 st5 st6 st7 st8,
    check_clinical_file env a st = (inr tt, st1)
    /\ check_primary_key a st1 = (inr tt, st2)
    /\ check_concept_codes a st2 = (inr tt, st3)
    /\ optional_list "concept_strings" (concept_strings a) st3 = (inr tt, st4)
    /\ optional_list "ancestor_codes" (ancestor_codes a) st4 = (inr tt, st5)
    /\ optional_list "ancestor_strings" (ancestor_strings a) st5 = (inr tt, st6)
    /\ check_ontology_dictionary a st6 = (inr tt, st7)
    /\ load_mrconso env a st7 = (inr tt, st8)
    /\ load_mrsty env a st8 = (inr tt, snd (init env a st)).
Proof.
  unfold init. intros H.
  apply bind_ok in H as ([] & H1 & H & ->).
  apply bind_ok in H as ([] & H2 & H & ->).
  apply bind_ok in H as ([] & H3 & H & ->).
  apply bind_ok in H as ([] & H4 & H & ->).
  apply bind_ok in H as ([] & H5 & H & ->).
  apply bind_ok in H as ([] & H6 & H & ->).
  apply bind_ok in H as ([] & H7 & H & ->).
  apply bind_ok in H as ([] & H8 & H & ->).
  do 8 eexists.
  repeat split; apply injective_projections; cbn [fst snd];
    first [eassumption | reflexivity].
Qed.

Lemma retained {A : Type} (name : string) (m : M A) (st st' : state) (r : result A) :
  retains name m -> m st = (r, st') -> self st' !! name = self st !! name.
Proof. intros Hm Hrun. destruct (Hm st) as [Hs _]. now rewrite Hrun in Hs. Qed.

Lemma check_primary_key_sets (st st' : state) :
  check_primary_key a st = (inr tt, st') ->
  (exists k, primary_key a = PyStr k)
  /\ self st' !! "primary_key" = Some (Plain (primary_key a)).
Proof.
  unfold check_primary_key.
  destruct (primary_key a) as [| |k| |]; try discriminate.
  intros [= <-]. split; [eauto|]. apply lookup_insert_eq.
Qed.

Lemma check_concept_codes_sets (st st' : state) :
  check_concept_codes a st = (inr tt, st') ->
  (exists l, concept_codes a = PyList l)
  /\ self st' !! "concept_codes" = Some (Plain (concept_codes a)).
Proof.
  unfold check_concept_codes.
  destruct (concept_codes a) as [| | |l|]; try discriminate.
  intros [= <-]. split; [eauto|]. apply lookup_insert_eq.
Qed.

Lemma optional_list_sets (name : string) (v : pyval) (st st' : state) :
  optional_list name v st = (inr tt, st') ->
  optional_ok v /\ self st' !! name = Some (Plain v).
Proof.
  unfold optional_list, optional_ok.
  destruct (truthy v) eqn:Hv; cbn [negb].
  - destruct v as [| | |l|]; try discriminate.
    intros [= <-]. split; [eauto|]. apply lookup_insert_eq.
  - intros [= <-]. split; [now left|]. apply lookup_insert_eq.
Qed.

Lemma check_ontology_dictionary_sets (st st' : state) :
  check_ontology_dictionary a st = (inr tt, st') ->
  (exists d, ontology_dictionary a = PyDict d)
  /\ self st' !! "ontology_dictionary" = Some (Plain (ontology_dictionary a)).
Proof.
  unfold check_ontology_dictionary.
  destruct (ontology_dictionary a) as [| | | |d]; try discriminate.
  intros [= <-]. split; [eauto|]. apply lookup_insert_eq.
Qed.

End ConstructorFacts.

(** X13.  When the constructor succeeds, [primary_key] is a string,
    [concept_codes] a list, [ontology_dictionary] a dictionary, each optional
    list argument is falsy or a list, and the attributes of these names hold
    the arguments unchanged. *)
Theorem init_stores_arguments (env : Env) (a : Args) (st : state) :
  fst (init env a st) = inr tt ->
  ((exists k, primary_key a = PyStr k)
   /\ self (snd (init env a st)) !! "primary_key" = Some (Plain (primary_key a)))
  /\ ((exists l, concept_codes a = PyList l)
      /\ self (snd (init env a st)) !! "concept_codes"
         = Some (Plain (concept_codes a)))
  /\ (optional_ok (concept_strings a)
      /\ self (snd (init env a st)) !! "concept_strings"
         = Some (Plain (concept_strings a)))
  /\ (optional_ok (ancestor_codes a)
      /\ self (snd (init env a st)) !! "ancestor_codes"
         = Some (Plain (ancestor_codes a)))
  /\ (optional_ok (ancestor_strings a)
      /\ self (snd (init env a st)) !! "ancestor_strings"
         = Some (Plain (ancestor_strings a)))
  /\ ((exists d, ontology_dictionary a = PyDict d)
      /\ self (snd (init env a st)) !! "ontology_dictionary"
         = Some (Plain (ontology_dictionary a))).
Proof.
  intros Hok.
  destruct (init_stages env a st Hok)
    as (st1 & st2 & st3 & st4 & st5 & st6 & st7 & st8
        & H1 & H2 & H3 & H4 & H5 & H6 & H7 & H8 & H9).
  destruct (check_primary_key_sets a st1 st2 H2) as [T2 S2].
  destruct (check_concept_codes_sets a st2 st3 H3) as [T3 S3].
  destruct (optional_list_sets _ _ st3 st4 H4) as [T4 S4].
  destruct (optional_list_sets _ _ st4 st5 H5) as [T5 S5].
  destruct (optional_list_sets _ _ st5 st6 H6) as [T6 S6].
  destruct (check_ontology_dictionary_sets a st6 st7 H7) as [T7 S7].
  assert (K9 : forall name, name <> "umls_tui_data" ->
             self (snd (init env a st)) !! name = self st8 !! name).
  { intros name Hn. exact (retained name _ _ _ _ (retains_load_mrsty name env a Hn) H9). }
  assert (K8 : forall name, name <> "umls_data" -> name <> "umls_cui_data" ->
             self st8 !! name = self st7 !! name).
  { intros name Hd Hc.
    exact (retained name _ _ _ _ (retains_load_mrconso env a name Hd Hc) H8). }
  assert (K7 : forall name, name <> "ontology_dictionary" ->
             self st7 !! name = self st6 !! name).
  { intros name Hn.
    exact (retained name _ _ _ _ (retains_check_ontology_dictionary name a Hn) H7). }
  assert (K6 : forall name, name <> "ancestor_strings" ->
             self st6 !! name = self st5 !! name).
  { intros name Hn.
    exact (retained name _ _ _ _ (retains_optional_list name _ _ Hn) H6). }
  assert (K5 : forall name, name <> "ancestor_codes" ->
             self st5 !! name = self st4 !! name).
  { intros name Hn.
    exact (retained name _ _ _ _ (retains_optional_list name _ _ Hn) H5). }
  assert (K4 : forall name, name <> "concept_strings" ->
             self st4 !! name = self st3 !! name).
  { intros name Hn.
    exact (retained name _ _ _ _ (retains_optional_list name _ _ Hn) H4). }
  assert (K3 : forall name, name <> "concept_codes" ->
             self st3 !! name = self st2 !! name).
  { intros name Hn.
    exact (retained name _ _ _ _ (retains_check_concept_codes name a Hn) H3). }
  repeat split; try assumption.
  - rewrite K9, K8, K7, K6, K5, K4, K3 by discriminate. exact S2.
  - rewrite K9, K8, K7, K6, K5, K4 by discriminate. exact S3.
  - rewrite K9, K8, K7, K6, K5 by discriminate. exact S4.
  - rewrite K9, K8, K7, K6 by discriminate. exact S5.
  - rewrite K9, K8, K7 by discriminate. exact S6.
  - rewrite K9, K8 by discriminate. exact S7.
Qed.

Lemma init_stores_arguments_witness :
  self (constructed Example.env with_thesaurus []) !! "primary_key"
  = Some (Plain (PyStr "CONCEPT_ID"))
  /\ self (constructed Example.env with_thesaurus []) !! "concept_strings"
     = Some (Plain PyNone).
Proof.
  destruct (init_stores_arguments Example.env with_thesaurus (fresh_object []))
    as ((_ & H1) & _ & (_ & H2) & _).
  - vm_compute. reflexivity.
  - split; [exact H1|exact H2].
Defined.

Lemma read_astype_run (env : Env) (f sep : string) (st : state) :
  (raw ← pd_read_csv env f sep; df_astype_str raw) st
  = match read_csv env f sep with
    | inl e => (inl e, st)
    | inr raw => loaded st raw
    end.
Proof.
  unfold pd_read_csv, loaded. rewrite bind_run, bind_run, lift_run.
  destruct (read_csv env f sep) as [e|raw]; [reflexivity|].
  rewrite new_frame_run, df_astype_str_run. cbn [self heap].
  rewrite deref_new, <- app_assoc. cbn [app]. rewrite length_app. reflexivity.
Qed.

Lemma load_clinical_run (env : Env) (f : string) (st : state) :
  load_clinical env f st
  = match read_csv env f "," with
    | inr raw => loaded st raw
    | inl (ParserError msg) =>
        match read_csv env f tab with
        | inr raw => loaded st raw
        | inl e => (inl e, st)
        end
    | inl e => (inl e, st)
    end.
Proof.
  unfold load_clinical. rewrite read_astype_run.
  destruct (read_csv env f ",") as [e|raw]; [|reflexivity].
  destruct e; try reflexivity. apply read_astype_run.
Qed.

Lemma retained_frame {A : Type} (name : string) (m : M A) (st st' : state)
    (r : result A) (l : loc) (df : DataFrame) :
  retains name m -> m st = (r, st') ->
  heap st !! l = Some df -> heap st' !! l = Some df.
Proof.
  intros Hm Hrun Hl. destruct (Hm st) as [_ Hh]. rewrite Hrun in Hh. now apply Hh.
Qed.

Lemma astype_str_text (raw : DataFrame) :
  Forall (Forall (fun x => x <> NaN)) (rows (astype_str raw)).
Proof.
  unfold astype_str. cbn [rows]. apply List.Forall_forall. intros r Hr.
  apply in_map_iff in Hr as (r0 & <- & _). apply List.Forall_forall.
  intros x Hx. apply in_map_iff in Hx as (x0 & <- & _). now destruct x0.
Qed.

Lemma check_clinical_file_sets (env : Env) (a : Args) (st st' : state) :
  check_clinical_file env a st = (inr tt, st') ->
  exists f raw,
    clinical_file a = PyStr f
    /\ path_exists env f = true
    /\ Nat.eqb (st_size env f) 0 = false
    /\ (read_csv env f "," = inr raw
        \/ ((exists msg, read_csv env f "," = inl (ParserError msg))
            /\ read_csv env f tab = inr raw))
    /\ self st' !! "clinical_data" = Some (Frame (length (heap st) + 1))
    /\ heap st' !! (length (heap st) + 1) = Some (astype_str raw).
Proof.
  unfold check_clinical_file.
  destruct (clinical_file a) as [| |f| |]; try discriminate.
  destruct (path_exists env f) eqn:Hexists; cbn [negb]; [|discriminate].
  destruct (Nat.eqb (st_size env f) 0) eqn:Hsize; [discriminate|].
  rewrite bind_run, load_clinical_run.
  assert (Hloaded : forall raw,
            (let (r, st1) := loaded st raw in
             match r with
             | inl e => (inl e, st1)
             | inr df => setattr "clinical_data" df st1
             end) = (inr tt, st') ->
            self st' !! "clinical_data" = Some (Frame (length (heap st) + 1))
            /\ heap st' !! (length (heap st) + 1) = Some (astype_str raw)).
  { intros raw Hrun. unfold loaded in Hrun. rewrite setattr_run in Hrun.
    injection Hrun as <-. cbn [self heap]. split; [apply lookup_insert_eq|].
    rewrite lookup_app_r by lia.
    replace (length (heap st) + 1 - length (heap st)) with 1 by lia. reflexivity. }
  destruct (read_csv env f ",") as [e|raw] eqn:Hcomma.
  - destruct e; try discriminate.
    destruct (read_csv env f tab) as [e|raw] eqn:Htab; [discriminate|].
    intros Hrun. exists f, raw. destruct (Hloaded raw Hrun) as [Ha Hf].
    split; [reflexivity|]. split; [exact Hexists|]. split; [exact Hsize|].
    split; [right; split; [exists msg; exact Hcomma|exact Htab]|].
    split; [exact Ha|exact Hf].
  - intros Hrun. exists f, raw. destruct (Hloaded raw Hrun) as [Ha Hf].
    split; [reflexivity|]. split; [exact Hexists|]. split; [exact Hsize|].
    split; [left; exact Hcomma|]. split; [exact Ha|exact Hf].
Qed.

Lemma clinical_frame_after_init (env : Env) (a : Args) (st : state) :
  fst (init env a st) = inr tt ->
  exists f raw l,
    clinical_file a = PyStr f
    /\ (read_csv env f "," = inr raw
        \/ ((exists msg, read_csv env f "," = inl (ParserError msg))
            /\ read_csv env f tab = inr raw))
    /\ self (snd (init env a st)) !! "clinical_data" = Some (Frame l)
    /\ heap (snd (init env a st)) !! l = Some (astype_str raw).
Proof.
  intros Hok.
  destruct (init_stages env a st Hok)
    as (st1 & st2 & st3 & st4 & st5 & st6 & st7 & st8
        & H1 & H2 & H3 & H4 & H5 & H6 & H7 & H8 & H9).
  destruct (check_clinical_file_sets env a st st1 H1)
    as (f & raw & Hfile & _ & _ & Hread & Hattr & Hframe).
  exists f, raw, (length (heap st) + 1).
  split; [exact Hfile|]. split; [exact Hread|].
  pose proof (retains_check_primary_key "clinical_data" a ltac:(discriminate)) as R2.
  pose proof (retains_check_concept_codes "clinical_data" a ltac:(discriminate)) as R3.
  pose proof (retains_optional_list "clinical_data" "concept_strings"
                (concept_strings a) ltac:(discriminate)) as R4.
  pose proof (retains_optional_list "clinical_data" "ancestor_codes"
                (ancestor_codes a) ltac:(discriminate)) as R5.
  pose proof (retains_optional_list "clinical_data" "ancestor_strings"
                (ancestor_strings a) ltac:(discriminate)) as R6.
  pose proof (retains_check_ontology_dictionary "clinical_data" a
                ltac:(discriminate)) as R7.
  pose proof (retains_load_mrconso env a "clinical_data" ltac:(discriminate)
                ltac:(discriminate)) as R8.
  pose proof (retains_load_mrsty "clinical_data" env a ltac:(discriminate)) as R9.
  split.
  - rewrite (retained _ _ _ _ _ R9 H9), (retained _ _ _ _ _ R8 H8),
      (retained _ _ _ _ _ R7 H7), (retained _ _ _ _ _ R6 H6),
      (retained _ _ _ _ _ R5 H5), (retained _ _ _ _ _ R4 H4),
      (retained _ _ _ _ _ R3 H3), (retained _ _ _ _ _ R2 H2).
    exact Hattr.
  - apply (retained_frame _ _ _ _ _ _ _ R9 H9), (retained_frame _ _ _ _ _ _ _ R8 H8),
      (retained_frame _ _ _ _ _ _ _ R7 H7), (retained_frame _ _ _ _ _ _ _ R6 H6),
      (retained_frame _ _ _ _ _ _ _ R5 H5), (retained_frame _ _ _ _ _ _ _ R4 H4),
      (retained_frame _ _ _ _ _ _ _ R3 H3), (retained_frame _ _ _ _ _ _ _ R2 H2).
    exact Hframe.
Qed.

(** X14.  After a successful construction [clinical_data] is the clinical
    file parsed with commas or, when that parse raised a parser error, with
    tabs, converted to text: it has no missing cell. *)
Theorem init_clinical_table (env : Env) (a : Args) (st : state) :
  fst (init env a st) = inr tt ->
  exists f raw l,
    clinical_file a = PyStr f
    /\ (read_csv env f "," = inr raw
        \/ ((exists msg, read_csv env f "," = inl (ParserError msg))
            /\ read_csv env f tab = inr raw))
    /\ self (snd (init env a st)) !! "clinical_data" = Some (Frame l)
    /\ heap (snd (init env a st)) !! l = Some (astype_str raw)
    /\ Forall (Forall (fun x => x <> NaN)) (rows (astype_str raw)).
Proof.
  intros Hok.
  destruct (clinical_frame_after_init env a st Hok)
    as (f & raw & l & Hfile & Hread & Hattr & Hframe).
  exists f, raw, l.
  split; [exact Hfile|]. split; [exact Hread|]. split; [exact Hattr|].
  split; [exact Hframe|]. apply astype_str_text.
Qed.

Lemma init_clinical_table_witness :
  exists l,
    self (constructed tab_separated without_thesaurus []) !! "clinical_data"
    = Some (Frame l)
    /\ heap (constructed tab_separated without_thesaurus []) !! l
       = Some Example.clinical.
Proof.
  destruct (init_clinical_table tab_separated without_thesaurus (fresh_object []))
    as (f & raw & l & Hfile & Hread & Hattr & Hframe & _).
  - vm_compute. reflexivity.
  - exists l. split; [exact Hattr|].
    injection Hfile as <-.
    destruct Hread as [Hcomma|[_ Htab]]; [discriminate|].
    injection Htab as <-. exact Hframe.
Defined.

(** X15.  Constructed without an MRCONSO file, the annotator has [umls_data]
    set to [None] and no attribute [umls_cui_data]; constructed with one, it
    has [umls_cui_data] and no [umls_data]; constructed without an MRSTY
    file, it has [umls_tui_data] set to [None]. *)
Theorem init_without_files (env : Env) (a : Args) (h : list DataFrame) :
  fst (init env a (fresh_object h)) = inr tt ->
  (truthy (umls_mrconso_file a) = false ->
   self (constructed env a h) !! "umls_data" = Some (Plain PyNone)
   /\ self (constructed env a h) !! "umls_cui_data" = None)
  /\ (truthy (umls_mrconso_file a) = true ->
      self (constructed env a h) !! "umls_data" = None
      /\ exists l, self (constructed env a h) !! "umls_cui_data" = Some (Frame l))
  /\ (truthy (umls_mrsty_file a) = false ->
      self (constructed env a h) !! "umls_tui_data" = Some (Plain PyNone)).
Proof.
  intros Hok. unfold constructed.
  destruct (init_stages env a _ Hok)
    as (st1 & st2 & st3 & st4 & st5 & st6 & st7 & st8
        & H1 & H2 & H3 & H4 & H5 & H6 & H7 & H8 & H9).
  assert (K9 : forall name, name <> "umls_tui_data" ->
             self (snd (init env a (fresh_object h))) !! name = self st8 !! name).
  { intros name Hn. exact (retained name _ _ _ _ (retains_load_mrsty name env a Hn) H9). }
  split; [|split].
  - intros Hfalsy. split.
    + rewrite K9 by discriminate.
      unfold load_mrconso in H8. rewrite Hfalsy in H8. cbn [negb] in H8.
      injection H8 as <-. apply lookup_insert_eq.
    + destruct (init_without_mrconso env a Hfalsy (fresh_object h)) as [-> _].
      apply lookup_empty.
  - intros Htruthy.
    assert (Hok8 : fst (load_mrconso env a st7) = inr tt) by now rewrite H8.
    destruct (load_mrconso_loaded env a st7 Htruthy Hok8)
      as (f & body & _ & _ & Hattr & _).
    rewrite H8 in Hattr. cbn [snd] in Hattr. split.
    + rewrite K9 by discriminate.
      assert (R : forall (m : M unit) st st', m st = (inr tt, st') ->
                    retains "umls_data" m ->
                    self st' !! "umls_data" = self st !! "umls_data").
      { intros m s s' Hm Hr. exact (retained _ _ _ _ _ Hr Hm). }
      assert (R8 : retains "umls_data" (load_mrconso env a)).
      { unfold load_mrconso. rewrite Htruthy. cbn [negb].
        destruct (umls_mrconso_file a) as [| |f'| |]; try apply retains_raise.
        destruct (negb (path_exists env f')); [apply retains_raise|].
        destruct (Nat.eqb (st_size env f') 0); [apply retains_raise|].
        apply retains_read_names. intros raw.
        apply retains_drop_duplicates. intros distinct.
        apply retains_astype_str. intros text.
        apply retains_bind; [now apply retains_setattr|]. intros _.
        apply retains_bind.
        { apply (retains_keeps _ (fun _ => anything)). intros n.
          apply keeps_getattr. }
        intros loaded'.
        apply retains_bind.
        { apply (retains_keeps _ fresh_from). intros n. apply keeps_df_filter_ne. }
        intros coded.
        apply retains_drop_duplicates. intros final.
        now apply retains_setattr. }
      rewrite (R _ _ _ H8 R8).
      rewrite (R _ _ _ H7 (retains_check_ontology_dictionary "umls_data" a ltac:(discriminate))).
      rewrite (R _ _ _ H6 (retains_optional_list "umls_data" "ancestor_strings" _
                              ltac:(discriminate))).
      rewrite (R _ _ _ H5 (retains_optional_list "umls_data" "ancestor_codes" _
                              ltac:(discriminate))).
      rewrite (R _ _ _ H4 (retains_optional_list "umls_data" "concept_strings" _
                              ltac:(discriminate))).
      rewrite (R _ _ _ H3 (retains_check_concept_codes "umls_data" a ltac:(discriminate))).
      rewrite (R _ _ _ H2 (retains_check_primary_key "umls_data" a ltac:(discriminate))).
      rewrite (R _ _ _ H1 (retains_check_clinical_file "umls_data" env a ltac:(discriminate))).
      apply lookup_empty.
    + exists (length (heap st7) + 4). rewrite K9 by discriminate. exact Hattr.
  - intros Hfalsy. unfold load_mrsty in H9. rewrite Hfalsy in H9. cbn [negb] in H9.
    rewrite setattr_run in H9. injection H9 as H9. rewrite <- H9.
    apply lookup_insert_eq.
Qed.

Lemma init_without_files_witness :
  self (constructed Example.env without_thesaurus []) !! "umls_data"
  = Some (Plain PyNone)
  /\ self (constructed Example.env without_thesaurus []) !! "umls_cui_data" = None
  /\ self (constructed Example.env without_thesaurus []) !! "umls_tui_data"
     = Some (Plain PyNone).
Proof.
  destruct (init_without_files Example.env without_thesaurus [])
    as (H1 & _ & H3).
  - vm_compute. reflexivity.
  - destruct H1 as [Ha Hb]; [reflexivity|].
    split; [exact Ha|]. split; [exact Hb|]. apply H3. reflexivity.
Defined.

Section ArgumentErrors.

Variables (env : Env) (a : Args).

Lemma check_clinical_file_type (st : state) :
  (forall f, clinical_file a <> PyStr f) ->
  fst (check_clinical_file env a st)
  = inl (TypeError "clinical_file must be type str.").
Proof.
  intros Hf. unfold check_clinical_file.
  destruct (clinical_file a) as [| |f| |]; try reflexivity. now destruct (Hf f).
Qed.

Lemma check_clinical_file_missing (f : string) (st : state) :
  clinical_file a = PyStr f -> path_exists env f = false ->
  fst (check_clinical_file env a st) = inl (missing_file f).
Proof.
  intros Hfile Hexists. unfold check_clinical_file. now rewrite Hfile, Hexists.
Qed.

Lemma check_primary_key_raises (st : state) :
  (forall k, primary_key a <> PyStr k) ->
  fst (check_primary_key a st) = inl (TypeError "primary_key must be type str.").
Proof.
  intros Hk. unfold check_primary_key.
  destruct (primary_key a) as [| |k| |]; try reflexivity. now destruct (Hk k).
Qed.

Lemma optional_list_raises (name : string) (v : pyval) (st : state) :
  truthy v = true -> (forall l, v <> PyList l) ->
  fst (optional_list name v st) = inl (TypeError (name +:+ " must be type list.")).
Proof.
  intros Hv Hl. unfold optional_list. rewrite Hv. cbn [negb].
  destruct v as [| | |l|]; try reflexivity. now destruct (Hl l).
Qed.

Lemma check_ontology_dictionary_raises (st : state) :
  (forall d, ontology_dictionary a <> PyDict d) ->
  fst (check_ontology_dictionary a st)
  = inl (TypeError "ontology_dictionary must be type dict.").
Proof.
  intros Hd. unfold check_ontology_dictionary.
  destruct (ontology_dictionary a) as [| | | |d]; try reflexivity.
  now destruct (Hd d).
Qed.

End ArgumentErrors.

(** X16.  The constructor's argument errors, in its order: a clinical file
    that is not a string, then one that does not exist, whatever the other
    arguments; then, the clinical file loading, a primary key that is not a
    string; then a truthy [concept_strings] that is not a list; then, the
    lists passing, an ontology dictionary that is not a dictionary. *)
Theorem init_argument_errors (env : Env) (a : Args) (st : state) :
  ((forall f, clinical_file a <> PyStr f) ->
   fst (init env a st) = inl (TypeError "clinical_file must be type str."))
  /\ (forall f, clinical_file a = PyStr f -> path_exists env f = false ->
                fst (init env a st) = inl (missing_file f))
  /\ (clinical_loads env a st -> (forall k, primary_key a <> PyStr k) ->
      fst (init env a st) = inl (TypeError "primary_key must be type str."))
  /\ (clinical_loads env a st -> (exists k, primary_key a = PyStr k) ->
      (exists l, concept_codes a = PyList l) ->
      truthy (concept_strings a) = true ->
      (forall l, concept_strings a <> PyList l) ->
      fst (init env a st) = inl (TypeError "concept_strings must be type list."))
  /\ (clinical_loads env a st -> (exists k, primary_key a = PyStr k) ->
      (exists l, concept_codes a = PyList l) ->
      optional_ok (concept_strings a) -> optional_ok (ancestor_codes a) ->
      optional_ok (ancestor_strings a) ->
      (forall d, ontology_dictionary a <> PyDict d) ->
      fst (init env a st) = inl (TypeError "ontology_dictionary must be type dict.")).
Proof.
  split; [|split; [|split; [|split]]].
  - intros Hf. unfold init. apply bind_fst_raise.
    now apply check_clinical_file_type.
  - intros f Hfile Hexists. unfold init. apply bind_fst_raise.
    now apply check_clinical_file_missing.
  - intros Hclinical Hk. unfold init.
    rewrite (bind_fst_ok _ _ _ tt) by now apply check_clinical_file_ok.
    apply bind_fst_raise. now apply check_primary_key_raises.
  - intros Hclinical Hk Hl Hv Hnl. unfold init.
    rewrite (bind_fst_ok _ _ _ tt) by now apply check_clinical_file_ok.
    rewrite (bind_fst_ok _ _ _ tt) by now apply check_primary_key_ok.
    rewrite (bind_fst_ok _ _ _ tt) by now apply check_concept_codes_ok.
    apply bind_fst_raise.
    now apply (optional_list_raises "concept_strings").
  - intros Hclinical Hk Hl H4 H5 H6 Hd. unfold init.
    rewrite (bind_fst_ok _ _ _ tt) by now apply check_clinical_file_ok.
    rewrite (bind_fst_ok _ _ _ tt) by now apply check_primary_key_ok.
    rewrite (bind_fst_ok _ _ _ tt) by now apply check_concept_codes_ok.
    rewrite (bind_fst_ok _ _ _ tt) by now apply optional_list_ok.
    rewrite (bind_fst_ok _ _ _ tt) by now apply optional_list_ok.
    rewrite (bind_fst_ok _ _ _ tt) by now apply optional_list_ok.
    apply bind_fst_raise. now apply check_ontology_dictionary_raises.
Qed.

Lemma init_argument_errors_witness :
  fst (init Example.env
         (mkArgs (PyList ["clinical.csv"]) PyNone PyNone PyNone PyNone PyNone PyNone
                 PyNone PyNone) (fresh_object []))
  = inl (TypeError "clinical_file must be type str.")
  /\ fst (init Example.env (Example.args "absent.csv" Example.codes PyNone PyNone)
            (fresh_object []))
     = inl (missing_file "absent.csv")
  /\ fst (init Example.env
            (mkArgs (PyStr "clinical.csv") (PyDict []) (PyInt 7) Example.codes
                    PyNone PyNone PyNone PyNone PyNone) (fresh_object []))
     = inl (TypeError "primary_key must be type str.")
  /\ fst (init Example.env
            (mkArgs (PyStr "clinical.csv") (PyDict []) (PyStr "CONCEPT_ID")
                    Example.codes (PyStr "LABEL") PyNone PyNone PyNone PyNone)
            (fresh_object []))
     = inl (TypeError "concept_strings must be type list.")
  /\ fst (init Example.env
            (mkArgs (PyStr "clinical.csv") (PyList []) (PyStr "CONCEPT_ID")
                    Example.codes PyNone (PyList []) (PyStr "") PyNone PyNone)
            (fresh_object []))
     = inl (TypeError "ontology_dictionary must be type dict.").
Proof.
  assert (Hloads : forall dict key codes s1 s2 s3 conso sty st,
            clinical_loads Example.env
              (mkArgs (PyStr "clinical.csv") dict key codes s1 s2 s3 conso sty) st).
  { intros. exists "clinical.csv". split; [reflexivity|]. split; [reflexivity|].
    split; [reflexivity|]. eexists. reflexivity. }
  split; [|split; [|split; [|split]]].
  - apply (proj1 (init_argument_errors Example.env _ _)). intros f. discriminate.
  - apply (proj1 (proj2 (init_argument_errors Example.env _ _))); reflexivity.
  - apply (proj1 (proj2 (proj2 (init_argument_errors Example.env _ _)))).
    + apply Hloads.
    + intros k. discriminate.
  - apply (proj1 (proj2 (proj2 (proj2 (init_argument_errors Example.env _ _))))).
    + apply Hloads.
    + simpl. eauto.
    + unfold Example.codes. simpl. eauto.
    + reflexivity.
    + intros l. discriminate.
  - apply (proj2 (proj2 (proj2 (proj2 (init_argument_errors Example.env _ _))))).
    + apply Hloads.
    + simpl. eauto.
    + unfold Example.codes. simpl. eauto.
    + now left.
    + now left.
    + now left.
    + intros d. discriminate.
Defined.

Section ThesaurusErrors.

Variables (env : Env) (a : Args).

Lemma load_mrconso_type (st : state) :
  truthy (umls_mrconso_file a) = true ->
  (forall f, umls_mrconso_file a <> PyStr f) ->
  fst (load_mrconso env a st)
  = inl (TypeError "umls_mrconso_file must be type str.").
Proof.
  intros Hv Hf. unfold load_mrconso. rewrite Hv. cbn [negb].
  destruct (umls_mrconso_file a) as [| |f| |]; try reflexivity. now destruct (Hf f).
Qed.

Lemma load_mrconso_empty (f : string) (st : state) :
  umls_mrconso_file a = PyStr f -> f <> "" ->
  path_exists env f = true -> st_size env f = 0 ->
  fst (load_mrconso env a st) = inl (empty_file f).
Proof.
  intros Hfile Hf Hexists Hsize. unfold load_mrconso.
  now rewrite Hfile, (truthy_path f Hf), Hexists, Hsize.
Qed.

Lemma load_mrconso_unreadable (f : string) (e : exn) (st : state) :
  umls_mrconso_file a = PyStr f -> f <> "" ->
  path_exists env f = true -> Nat.eqb (st_size env f) 0 = false ->
  read_csv_positional env f "|" [0; 11; 13] = inl e ->
  fst (load_mrconso env a st) = inl e.
Proof.
  intros Hfile Hf Hexists Hsize Hread.
  rewrite (load_mrconso_run env f a st Hfile (truthy_path f Hf) Hexists Hsize).
  now rewrite Hread.
Qed.

Lemma load_mrsty_type (st : state) :
  truthy (umls_mrsty_file a) = true ->
  (forall f, umls_mrsty_file a <> PyStr f) ->
  fst (load_mrsty env a st) = inl (TypeError "umls_mrsty_file must be type str.").
Proof.
  intros Hv Hf. unfold load_mrsty. rewrite Hv. cbn [negb].
  destruct (umls_mrsty_file a) as [| |f| |]; try reflexivity. now destruct (Hf f).
Qed.

Lemma load_mrsty_empty (f : string) (st : state) :
  umls_mrsty_file a = PyStr f -> f <> "" ->
  path_exists env f = true -> st_size env f = 0 ->
  fst (load_mrsty env a st) = inl (empty_file f).
Proof.
  intros Hfile Hf Hexists Hsize. unfold load_mrsty.
  now rewrite Hfile, (truthy_path f Hf), Hexists, Hsize.
Qed.

End ThesaurusErrors.

(** X17.  With every earlier argument passing: a truthy MRCONSO argument
    that is not a string raises [TypeError], an MRCONSO file of size 0 raises
    the empty-input [TypeError], and an exception of the reader is passed on;
    with the MRCONSO block succeeding, the same holds for the type and the
    size of the MRSTY argument. *)
Theorem init_thesaurus_errors (env : Env) (a : Args) (st : state) :
  clinical_loads env a st -> checks_pass a ->
  (truthy (umls_mrconso_file a) = true ->
   (forall f, umls_mrconso_file a <> PyStr f) ->
   fst (init env a st) = inl (TypeError "umls_mrconso_file must be type str."))
  /\ (forall f, umls_mrconso_file a = PyStr f -> f <> "" ->
                path_exists env f = true -> st_size env f = 0 ->
                fst (init env a st) = inl (empty_file f))
  /\ (forall f e, umls_mrconso_file a = PyStr f -> f <> "" ->
                  path_exists env f = true -> Nat.eqb (st_size env f) 0 = false ->
                  read_csv_positional env f "|" [0; 11; 13] = inl e ->
                  fst (init env a st) = inl e)
  /\ (mrconso_loads env a -> truthy (umls_mrsty_file a) = true ->
      (forall f, umls_mrsty_file a <> PyStr f) ->
      fst (init env a st) = inl (TypeError "umls_mrsty_file must be type str."))
  /\ (mrconso_loads env a ->
      forall f, umls_mrsty_file a = PyStr f -> f <> "" ->
                path_exists env f = true -> st_size env f = 0 ->
                fst (init env a st) = inl (empty_file f)).
Proof.
  intros Hclinical Hchecks.
  destruct (init_after_checks env a st Hclinical Hchecks) as [st7 ->].
  split; [|split; [|split; [|split]]].
  - intros Hv Hf. apply bind_fst_raise. now apply load_mrconso_type.
  - intros f Hfile Hf Hexists Hsize. apply bind_fst_raise.
    now apply load_mrconso_empty.
  - intros f e Hfile Hf Hexists Hsize Hread. apply bind_fst_raise.
    now apply (load_mrconso_unreadable env a f).
  - intros Hconso Hv Hf.
    rewrite (bind_fst_ok _ _ _ tt) by now apply load_mrconso_ok.
    now apply load_mrsty_type.
  - intros Hconso f Hfile Hf Hexists Hsize.
    rewrite (bind_fst_ok _ _ _ tt) by now apply load_mrconso_ok.
    now apply load_mrsty_empty.
Qed.

Lemma init_thesaurus_errors_witness :
  fst (init Example.env
         (Example.args "clinical.csv" Example.codes (PyList ["MRCONSO.RRF"]) PyNone)
         (fresh_object []))
  = inl (TypeError "umls_mrconso_file must be type str.")
  /\ fst (init Example.env
            (Example.args "clinical.csv" Example.codes (PyStr "empty.csv") PyNone)
            (fresh_object []))
     = inl (empty_file "empty.csv")
  /\ fst (init Example.env
            (Example.args "clinical.csv" Example.codes (PyStr "clinical.csv") PyNone)
            (fresh_object []))
     = inl (ParserError "clinical.csv")
  /\ fst (init Example.env
            (Example.args "clinical.csv" Example.codes PyNone (PyInt 3))
            (fresh_object []))
     = inl (TypeError "umls_mrsty_file must be type str.")
  /\ fst (init Example.env
            (Example.args "clinical.csv" Example.codes PyNone (PyStr "empty.csv"))
            (fresh_object []))
     = inl (empty_file "empty.csv").
Proof.
  assert (H : forall conso sty,
            let a := Example.args "clinical.csv" Example.codes conso sty in
            clinical_loads Example.env a (fresh_object []) /\ checks_pass a).
  { intros conso sty. split.
    - exists "clinical.csv". split; [reflexivity|]. split; [reflexivity|].
      split; [reflexivity|]. eexists. reflexivity.
    - unfold checks_pass. simpl. split; [eauto|].
      split; [unfold Example.codes; eauto|].
      split; [now left|]. split; [now left|]. split; [now left|]. eauto. }
  split; [|split; [|split; [|split]]].
  - destruct (H (PyList ["MRCONSO.RRF"]) PyNone) as [Hc Hp].
    apply (proj1 (init_thesaurus_errors Example.env _ _ Hc Hp));
      [reflexivity|intros f; discriminate].
  - destruct (H (PyStr "empty.csv") PyNone) as [Hc Hp].
    apply (proj1 (proj2 (init_thesaurus_errors Example.env _ _ Hc Hp)));
      [reflexivity|discriminate|reflexivity|reflexivity].
  - destruct (H (PyStr "clinical.csv") PyNone) as [Hc Hp].
    apply (proj1 (proj2 (proj2 (init_thesaurus_errors Example.env _ _ Hc Hp)))
             "clinical.csv");
      [reflexivity|discriminate|reflexivity|reflexivity|reflexivity].
  - destruct (H PyNone (PyInt 3)) as [Hc Hp].
    apply (proj1 (proj2 (proj2 (proj2
             (init_thesaurus_errors Example.env _ _ Hc Hp)))));
      [now left|reflexivity|intros f; discriminate].
  - destruct (H PyNone (PyStr "empty.csv")) as [Hc Hp].
    apply (proj2 (proj2 (proj2 (proj2
             (init_thesaurus_errors Example.env _ _ Hc Hp)))));
      [now left|reflexivity|discriminate|reflexivity|reflexivity].
Defined.

(** X18.  Only a parser error of the comma parse is retried with tabs: any
    other exception of the first read, and any exception of the second,
    ends the construction with that exception and nothing built. *)
Theorem init_clinical_parse_errors (env : Env) (a : Args) (st : state)
    (f : string) :
  clinical_file a = PyStr f -> path_exists env f = true ->
  Nat.eqb (st_size env f) 0 = false ->
  (forall e, read_csv env f "," = inl e -> (forall msg, e <> ParserError msg) ->
             init env a st = (inl e, st))
  /\ (forall msg e, read_csv env f "," = inl (ParserError msg) ->
                    read_csv env f tab = inl e ->
                    init env a st = (inl e, st)).
Proof.
  intros Hfile Hexists Hsize.
  assert (Hblock : forall e, load_clinical env f st = (inl e, st) ->
            init env a st = (inl e, st)).
  { intros e Hload. unfold init. apply bind_inl.
    unfold check_clinical_file. rewrite Hfile, Hexists, Hsize. cbn [negb].
    now apply bind_inl. }
  split.
  - intros e Hread Hother. apply Hblock. rewrite load_clinical_run, Hread.
    destruct e; try reflexivity. now destruct (Hother msg).
  - intros msg e Hcomma Htab. apply Hblock.
    now rewrite load_clinical_run, Hcomma, Htab.
Qed.

Lemma init_clinical_parse_errors_witness :
  init Example.env (Example.args "MRSTY.RRF" Example.codes PyNone PyNone)
       (fresh_object [])
  = (inl (ParserError "MRSTY.RRF"), fresh_object []).
Proof.
  apply (proj2 (init_clinical_parse_errors Example.env
                  (Example.args "MRSTY.RRF" Example.codes PyNone PyNone)
                  (fresh_object []) "MRSTY.RRF" eq_refl eq_refl eq_refl)
           "MRSTY.RRF" (ParserError "MRSTY.RRF")); reflexivity.
Defined.

Lemma load_mrsty_run (env : Env) (f : string) (a : Args) (st : state) :
  umls_mrsty_file a = PyStr f ->
  truthy (PyStr f) = true ->
  path_exists env f = true ->
  Nat.eqb (st_size env f) 0 = false ->
  load_mrsty env a st
  = match read_csv_positional env f "|" [0; 3] with
    | inl e => (inl e, st)
    | inr body =>
        (inr tt,
         mkState (<["umls_tui_data" := Frame (length (heap st) + 2)]> (self st))
                 (heap st
                  ++ [mkFrame ["CUI"; "STY"] body;
                      drop_duplicates (mkFrame ["CUI"; "STY"] body);
                      astype_str (drop_duplicates (mkFrame ["CUI"; "STY"] body))]))
    end.
Proof.
  intros Hfile Htruthy Hexists Hsize. destruct st as [s h].
  unfold load_mrsty. rewrite Hfile, Htruthy, Hexists, Hsize. cbn [negb].
  unfold pd_read_csv_names.
  rewrite bind_run, bind_run, lift_run.
  destruct (read_csv_positional env f "|" [0; 3]) as [e|body]; [reflexivity|].
  rewrite new_frame_run. cbn [self heap].
  rewrite bind_run, df_drop_duplicates_run. heap_norm.
  rewrite bind_run, df_astype_str_run. heap_norm.
  rewrite setattr_run. reflexivity.
Qed.

Lemma load_mrsty_loaded (env : Env) (a : Args) (st : state) :
  truthy (umls_mrsty_file a) = true ->
  fst (load_mrsty env a st) = inr tt ->
  exists f body,
    umls_mrsty_file a = PyStr f
    /\ read_csv_positional env f "|" [0; 3] = inr body
    /\ self (snd (load_mrsty env a st)) !! "umls_tui_data"
       = Some (Frame (length (heap st) + 2))
    /\ heap (snd (load_mrsty env a st)) !! (length (heap st) + 2)
       = Some (astype_str (drop_duplicates (mkFrame ["CUI"; "STY"] body))).
Proof.
  intros Htruthy Hok.
  destruct (umls_mrsty_file a) as [| |f| |] eqn:Hfile;
    try (unfold load_mrsty in Hok; rewrite Hfile, Htruthy in Hok; discriminate).
  destruct (path_exists env f) eqn:Hexists;
    [|unfold load_mrsty in Hok; rewrite Hfile, Htruthy, Hexists in Hok;
      discriminate].
  destruct (Nat.eqb (st_size env f) 0) eqn:Hsize;
    [unfold load_mrsty in Hok; rewrite Hfile, Htruthy, Hexists, Hsize in Hok;
     discriminate|].
  rewrite (load_mrsty_run env f a st Hfile Htruthy Hexists Hsize) in Hok |- *.
  destruct (read_csv_positional env f "|" [0; 3]) as [e|body] eqn:Hread;
    [discriminate|].
  exists f, body. cbn [snd self heap].
  split; [reflexivity|]. split; [exact Hread|]. split.
  - apply lookup_insert_eq.
  - rewrite lookup_app_r by lia.
    replace (length (heap st) + 2 - length (heap st)) with 2 by lia. reflexivity.
Qed.

Lemma astype_str_present (r : list cell) :
  Forall (fun x => x <> NaN) r -> map astype_str_cell r = r.
Proof.
  induction 1 as [|x r Hx _ IH]; [reflexivity|].
  cbn [map]. rewrite IH. now destruct x.
Qed.

Lemma astype_str_rows_present (body : list (list cell)) :
  Forall (Forall (fun x => x <> NaN)) body ->
  map (map astype_str_cell) body = body.
Proof.
  induction 1 as [|r body Hr _ IH]; [reflexivity|].
  cbn [map]. now rewrite IH, (astype_str_present r Hr).
Qed.

Lemma unique_sublist {A : Type} `{EqDecision A} (P : A -> Prop) (seen l : list A) :
  Forall P l -> Forall P (unique seen l).
Proof.
  intros Hl. apply List.Forall_forall. intros x Hx.
  apply list_elem_of_In, elem_of_unique in Hx as [Hx _].
  rewrite List.Forall_forall in Hl. now apply Hl, list_elem_of_In.
Qed.

Lemma semantic_type_frame_after_init (env : Env) (a : Args) (st : state) :
  fst (init env a st) = inr tt ->
  truthy (umls_mrsty_file a) = true ->
  exists f body l,
    umls_mrsty_file a = PyStr f
    /\ read_csv_positional env f "|" [0; 3] = inr body
    /\ self (snd (init env a st)) !! "umls_tui_data" = Some (Frame l)
    /\ heap (snd (init env a st)) !! l
       = Some (astype_str (drop_duplicates (mkFrame ["CUI"; "STY"] body))).
Proof.
  intros Hok Htruthy.
  destruct (init_ok env a st Hok) as (st7 & _ & H9 & ->).
  destruct (load_mrsty_loaded env a _ Htruthy H9)
    as (f & body & Hfile & Hread & Hattr & Hframe).
  exists f, body, (length (heap (snd (load_mrconso env a st7))) + 2). auto.
Qed.

(** X19.  After a construction with an MRSTY file, [umls_tui_data] has the
    columns [CUI] and [STY] and the rows of the file, as text.  Duplicates
    are dropped before the conversion to text, so the table is free of
    duplicates when the file has no missing cell. *)
Theorem init_semantic_type_table (env : Env) (a : Args) (st : state) :
  fst (init env a st) = inr tt ->
  truthy (umls_mrsty_file a) = true ->
  exists f body l df,
    umls_mrsty_file a = PyStr f
    /\ read_csv_positional env f "|" [0; 3] = inr body
    /\ self (snd (init env a st)) !! "umls_tui_data" = Some (Frame l)
    /\ heap (snd (init env a st)) !! l = Some df
    /\ columns df = ["CUI"; "STY"]
    /\ (forall r, r ∈ rows df
                  <-> exists r0, r0 ∈ body /\ r = map astype_str_cell r0)
    /\ (Forall (Forall (fun x => x <> NaN)) body -> NoDup (rows df)).
Proof.
  intros Hok Htruthy.
  destruct (semantic_type_frame_after_init env a st Hok Htruthy)
    as (f & body & l & Hfile & Hread & Hattr & Hframe).
  exists f, body, l, (astype_str (drop_duplicates (mkFrame ["CUI"; "STY"] body))).
  split; [exact Hfile|]. split; [exact Hread|]. split; [exact Hattr|].
  split; [exact Hframe|]. split; [reflexivity|].
  unfold astype_str, drop_duplicates. cbn [rows columns]. split.
  - intros r. rewrite list_elem_of_In, in_map_iff. split.
    + intros (r0 & <- & Hr0). exists r0. split; [|reflexivity].
      now apply elem_of_unique_nil, list_elem_of_In.
    + intros (r0 & Hr0 & ->). exists r0. split; [reflexivity|].
      now apply list_elem_of_In, elem_of_unique_nil.
  - intros Hpresent.
    rewrite astype_str_rows_present by now apply unique_sublist.
    apply NoDup_unique.
Qed.

Lemma init_semantic_type_table_witness :
  exists l df,
    self (constructed Example.env with_thesaurus []) !! "umls_tui_data"
    = Some (Frame l)
    /\ heap (constructed Example.env with_thesaurus []) !! l = Some df
    /\ columns df = ["CUI"; "STY"]
    /\ NoDup (rows df).
Proof.
  destruct (init_semantic_type_table Example.env with_thesaurus (fresh_object []))
    as (f & body & l & df & Hfile & Hread & Hattr & Hframe & Hcols & _ & Hnodup).
  - vm_compute. reflexivity.
  - reflexivity.
  - exists l, df. split; [exact Hattr|]. split; [exact Hframe|].
    split; [exact Hcols|]. apply Hnodup.
    injection Hfile as <-. injection Hread as <-.
    repeat constructor; discriminate.
Defined.

(** X20.  A construction with both thesaurus files leaves the annotator in
    the situation [umls_cui_annotator] expects: [clinical_data],
    [umls_cui_data] and [umls_tui_data] are tables, the last two with the
    columns and widths the method joins on, provided the reader returns rows
    as wide as the columns it was asked for. *)
Theorem init_prepares_annotator (env : Env) (a : Args) (st : state) :
  fst (init env a st) = inr tt ->
  truthy (umls_mrconso_file a) = true ->
  truthy (umls_mrsty_file a) = true ->
  (forall f body,
     umls_mrconso_file a = PyStr f ->
     read_csv_positional env f "|" [0; 11; 13] = inr body ->
     Forall (fun r => length r = 3) body) ->
  (forall f body,
     umls_mrsty_file a = PyStr f ->
     read_csv_positional env f "|" [0; 3] = inr body ->
     Forall (fun r => length r = 2) body) ->
  exists clinical cui tui,
    thesaurus_ready (snd (init env a st)) clinical cui tui.
Proof.
  intros Hok Hconso Hsty Hwide3 Hwide2.
  destruct (clinical_frame_after_init env a st Hok)
    as (fc & raw & lc & _ & _ & Hcattr & Hcframe).
  destruct (semantic_type_frame_after_init env a st Hok Hsty)
    as (ft & tbody & lt & Htfile & Htread & Htattr & Htframe).
  destruct (init_ok env a st Hok) as (st7 & H8 & H9 & Hsnd).
  destruct (load_mrconso_loaded env a st7 Hconso H8)
    as (fu & ubody & Hufile & Huread & Huattr & Huframe).
  destruct (retains_load_mrsty "umls_cui_data" env a ltac:(discriminate)
              (snd (load_mrconso env a st7))) as [Hs Hh].
  exists (astype_str raw), (mrconso_frame ubody),
    (astype_str (drop_duplicates (mkFrame ["CUI"; "STY"] tbody))).
  unfold thesaurus_ready.
  split; [exists lc; auto|].
  split; [exists (length (heap st7) + 4); rewrite Hsnd; split;
          [now rewrite Hs|now apply Hh]|].
  split; [exists lt; auto|].
  split; [reflexivity|]. split; [|split; [reflexivity|]].
  - apply List.Forall_forall. intros r Hr.
    apply list_elem_of_In, elem_of_mrconso_frame in Hr as [(r0 & Hr0 & ->) _].
    rewrite length_map.
    pose proof (Hwide3 fu ubody Hufile Huread) as Hall.
    rewrite List.Forall_forall in Hall. now apply Hall, list_elem_of_In.
  - unfold astype_str, drop_duplicates. cbn [rows columns].
    apply List.Forall_forall. intros r Hr.
    apply in_map_iff in Hr as (r0 & <- & Hr0). rewrite length_map.
    apply list_elem_of_In in Hr0. rewrite elem_of_unique_nil in Hr0.
    apply list_elem_of_In in Hr0.
    pose proof (Hwide2 ft tbody Htfile Htread) as Hall.
    rewrite List.Forall_forall in Hall. now apply Hall.
Qed.

Lemma init_prepares_annotator_witness :
  exists clinical cui tui,
    thesaurus_ready (constructed Example.env with_thesaurus []) clinical cui tui.
Proof.
  apply (init_prepares_annotator Example.env with_thesaurus (fresh_object [])).
  - vm_compute. reflexivity.
  - reflexivity.
  - reflexivity.
  - intros f body [= <-] [= <-]. repeat constructor.
  - intros f body [= <-] [= <-]. repeat constructor.
Defined.
